(** * AppFactory: build registry and build validator

    A shallow embedding of [the_factory/appfactory/build_registry.py] and
    [the_factory/appfactory/build_validator.py], and the properties of the
    specification proved (or refuted) over it. *)

From Stdlib Require Import List String Ascii ZArith NArith Bool Lia.
From Stdlib Require Import DecimalString Permutation.
Import ListNotations.

Local Open Scope Z_scope.

(* ===================================================================== *)
(** * Unicode strings, for [generate_bundle_identifier]

    [generate_bundle_identifier] classifies single characters ([lower], the
    regular-expression classes, [strip]), so its strings are lists of Unicode
    code points, as Python's [str] is. *)
(* ===================================================================== *)

Module UStr.

Definition pystr := list N.

(** An ASCII literal as a Python string. *)
Definition lit (s : string) : pystr := map N_of_ascii (list_ascii_of_string s).

Definition len (s : pystr) : Z := Z.of_nat (List.length s).

(** [str.lower()].  Exact on ASCII and on the two code points outside ASCII
    whose lowercase form contains an ASCII letter (U+0130, whose lowercase is
    [i] followed by U+0307, and U+212A KELVIN SIGN, whose lowercase is [k]).
    Every other code point is kept as it is: its lowercase form is made of
    non-ASCII, non-space characters, which the caller deletes whatever they
    are. *)
Definition lower_char (c : N) : list N :=
  if ((65 <=? c) && (c <=? 90))%N then [(c + 32)%N]
  else if (c =? 0x130)%N then [0x69; 0x307]%N
  else if (c =? 0x212A)%N then [0x6B]%N
  else [c].

Definition lower (s : pystr) : pystr := flat_map lower_char s.

(** The class [\s] of [re] on a [str] pattern: Unicode white space. *)
Definition is_space (c : N) : bool :=
  (((9 <=? c) && (c <=? 13)) || ((28 <=? c) && (c <=? 32))
   || (c =? 0x85) || (c =? 0xA0) || (c =? 0x1680)
   || ((0x2000 <=? c) && (c <=? 0x200A))
   || (c =? 0x2028) || (c =? 0x2029) || (c =? 0x202F) || (c =? 0x205F)
   || (c =? 0x3000))%N.

Definition dot : N := 46%N.

(** [[_\-\s]] *)
Definition is_separator (c : N) : bool :=
  ((c =? 95) || (c =? 45))%N || is_space c.

(** [[a-z0-9.]] *)
Definition is_slug_char (c : N) : bool :=
  (((97 <=? c) && (c <=? 122)) || ((48 <=? c) && (c <=? 57)) || (c =? dot))%N.

Definition is_dot (c : N) : bool := (c =? dot)%N.

(** [re.sub(r'[C]+', rep, s)] for a character class [C]: every maximal run
    of characters of the class is replaced by [rep].  [in_run] tells that the
    previous character was in the class. *)
Fixpoint sub_runs (cls : N -> bool) (rep : pystr) (in_run : bool) (s : pystr)
  : pystr :=
  match s with
  | [] => []
  | c :: t =>
      if cls c then
        if in_run then sub_runs cls rep true t
        else rep ++ sub_runs cls rep true t
      else c :: sub_runs cls rep false t
  end.

(** [re.sub(r'[^C]', '', s)]: the characters outside the class are deleted. *)
Definition sub_delete_not (cls : N -> bool) (s : pystr) : pystr := filter cls s.

Fixpoint lstrip (cls : N -> bool) (s : pystr) : pystr :=
  match s with
  | [] => []
  | c :: t => if cls c then lstrip cls t else s
  end.

(** [s.strip('.')] for [cls = is_dot]. *)
Definition strip (cls : N -> bool) (s : pystr) : pystr :=
  rev (lstrip cls (rev (lstrip cls s))).

(** The slice [s[:n]]: the first [n] characters when [n >= 0], all but the
    last [-n] when [n < 0]. *)
Definition slice_to (s : pystr) (n : Z) : pystr :=
  if 0 <=? n then firstn (Z.to_nat n) s
  else firstn (Z.to_nat (len s + n)) s.

(** UTF-8: the code points of a byte string and back.  A byte that does
    not start a well-formed sequence is taken as a code point of its own;
    decoded text never holds one. *)
Definition low6 (a : ascii) : N := N.land (N_of_ascii a) 0x3F.

Fixpoint decode (s : string) : pystr :=
  match s with
  | EmptyString => []
  | String a t =>
      let x := N_of_ascii a in
      if (x <? 0xC0)%N then x :: decode t
      else if (x <? 0xE0)%N then
        match t with
        | String b t1 =>
            (N.shiftl (N.land x 0x1F) 6 + low6 b)%N :: decode t1
        | _ => x :: decode t
        end
      else if (x <? 0xF0)%N then
        match t with
        | String b (String c t2) =>
            (N.shiftl (N.land x 0x0F) 12 + N.shiftl (low6 b) 6 + low6 c)%N
            :: decode t2
        | _ => x :: decode t
        end
      else
        match t with
        | String b (String c (String d t3)) =>
            (N.shiftl (N.land x 0x07) 18 + N.shiftl (low6 b) 12
             + N.shiftl (low6 c) 6 + low6 d)%N :: decode t3
        | _ => x :: decode t
        end
  end.

Definition byte (n : N) : ascii := ascii_of_N n.
Definition cont (n : N) : ascii := ascii_of_N (0x80 + N.land n 0x3F).

Definition encode_char (c : N) : list ascii :=
  if (c <? 0x80)%N then [byte c]
  else if (c <? 0x800)%N then [byte (0xC0 + N.shiftr c 6); cont c]
  else if (c <? 0x10000)%N then
    [byte (0xE0 + N.shiftr c 12); cont (N.shiftr c 6); cont c]
  else [byte (0xF0 + N.shiftr c 18); cont (N.shiftr c 12);
        cont (N.shiftr c 6); cont c].

Definition encode (s : pystr) : string :=
  string_of_list_ascii (flat_map encode_char s).

(** [s.strip()] on a string held as UTF-8. *)
Definition strip_ws (s : string) : string :=
  encode (strip is_space (decode s)).

End UStr.

(* ===================================================================== *)
(** * build_validator.py: [generate_bundle_identifier] *)
(* ===================================================================== *)

Module BundleId.
Import UStr.

Definition base : pystr := lit "com.appfactory".

Definition clean (slug : pystr) : pystr :=
  let clean_slug := lower slug in
  let clean_slug := sub_runs is_separator [dot] false clean_slug in
  let clean_slug := sub_delete_not is_slug_char clean_slug in
  let clean_slug := sub_runs is_dot [dot] false clean_slug in
  strip is_dot clean_slug.

Definition generate_bundle_identifier (slug : pystr) (max_length : Z) : pystr :=
  let clean_slug := clean slug in
  let bundle_id :=
    match clean_slug with
    | _ :: _ => base ++ [dot] ++ clean_slug
    | [] => base ++ [dot] ++ lit "app"
    end in
  if len bundle_id >? max_length then
    let available_length := max_length - len base - 1 in
    let truncated_slug := slice_to clean_slug available_length in
    base ++ [dot] ++ truncated_slug
  else bundle_id.

(** The default of the parameter [max_length]. *)
Definition default_max_length : Z := 50.

(** The slug part before any truncation: the cleaned slug, or the fallback
    [app] when it is empty. *)
Definition slug_or_fallback (slug : pystr) : pystr :=
  match clean slug with
  | [] => lit "app"
  | c :: t => c :: t
  end.

(** No two dots in a row. *)
Fixpoint no_double_dot (s : pystr) : bool :=
  match s with
  | [] => true
  | a :: t =>
      match t with
      | [] => true
      | b :: _ => negb (is_dot a && is_dot b) && no_double_dot t
      end
  end.

Definition starts_with_dot (s : pystr) : bool :=
  match s with
  | c :: _ => is_dot c
  | [] => false
  end.

Definition ends_with_dot (s : pystr) : bool := starts_with_dot (rev s).

(** A slug in the form the normalisation aims at: not empty, made of
    [a-z0-9.], with no dot at either end and no two dots in a row. *)
Definition normal_slug (s : pystr) : bool :=
  match s with [] => false | _ => true end
  && forallb is_slug_char s
  && no_double_dot s
  && negb (starts_with_dot s)
  && negb (ends_with_dot s).

End BundleId.

(* ===================================================================== *)
(** * SHA-256, as [hashlib.sha256(data).hexdigest()] computes it

    The library function, written after FIPS 180-4 on 32-bit words held in
    [N].  The round constants are computed the way the standard defines them
    (fractional parts of the square and cube roots of the first primes). *)
(* ===================================================================== *)

Module Sha256.
Local Open Scope N_scope.

Definition mask32 : N := 0xFFFFFFFF.
Definition wrap (x : N) : N := N.land x mask32.
Definition add32 (a b : N) : N := wrap (a + b).
Definition rotr (n x : N) : N :=
  N.lor (N.shiftr x n) (wrap (N.shiftl x (32 - n))).
Definition shr (n x : N) : N := N.shiftr x n.
Definition not32 (x : N) : N := N.lxor x mask32.

Definition Ch (x y z : N) : N := N.lxor (N.land x y) (N.land (not32 x) z).
Definition Maj (x y z : N) : N :=
  N.lxor (N.lxor (N.land x y) (N.land x z)) (N.land y z).
Definition bsig0 (x : N) : N := N.lxor (N.lxor (rotr 2 x) (rotr 13 x)) (rotr 22 x).
Definition bsig1 (x : N) : N := N.lxor (N.lxor (rotr 6 x) (rotr 11 x)) (rotr 25 x).
Definition ssig0 (x : N) : N := N.lxor (N.lxor (rotr 7 x) (rotr 18 x)) (shr 3 x).
Definition ssig1 (x : N) : N := N.lxor (N.lxor (rotr 17 x) (rotr 19 x)) (shr 10 x).

(** The first primes, by trial division. *)
Definition is_prime (n : N) : bool :=
  (1 <? n) && forallb (fun d => negb (n mod d =? 0))
                      (map N.of_nat (seq 2 (N.to_nat n - 2))).

Definition primes_below (n : nat) : list N :=
  filter is_prime (map N.of_nat (seq 0 n)).

(** The largest [r] below [2 ^ bits] with [r ^ 3 <= n], bit by bit. *)
Fixpoint icbrt_bits (bits : nat) (n r : N) : N :=
  match bits with
  | O => r
  | S b =>
      let r' := r + N.shiftl 1 (N.of_nat b) in
      icbrt_bits b n (if r' * r' * r' <=? n then r' else r)
  end.

Definition frac_sqrt32 (p : N) : N := wrap (N.sqrt (p * 2 ^ 64)).
Definition frac_cbrt32 (p : N) : N := wrap (icbrt_bits 36 (p * 2 ^ 96) 0).

Definition H0 : list N := Eval vm_compute in map frac_sqrt32 (primes_below 20).
Definition K : list N := Eval vm_compute in map frac_cbrt32 (primes_below 312).

(** The hash state: the eight working words. *)
Record state := State { sa : N; sb : N; sc : N; sd : N;
                        se : N; sf : N; sg : N; sh : N }.

Definition init : state :=
  match H0 with
  | [a; b; c; d; e; f; g; h] => State a b c d e f g h
  | _ => State 0 0 0 0 0 0 0 0
  end.

(** Padding: a [0x80] byte, zeros up to 56 modulo 64, the bit length on 64
    bits, big endian. *)
Fixpoint be_bytes (count : nat) (x : N) : list N :=
  match count with
  | O => []
  | S c => N.land (N.shiftr x (8 * N.of_nat c)) 0xFF :: be_bytes c x
  end.

Definition pad (msg : list N) : list N :=
  let l := N.of_nat (List.length msg) in
  let zeros := (64 + 55 - l mod 64) mod 64 in
  msg ++ [0x80] ++ repeat 0 (N.to_nat zeros) ++ be_bytes 8 (8 * l).

Fixpoint be_words (count : nat) (bytes : list N) : list N :=
  match count, bytes with
  | S c, b0 :: b1 :: b2 :: b3 :: t =>
      (N.shiftl b0 24 + N.shiftl b1 16 + N.shiftl b2 8 + b3) :: be_words c t
  | _, _ => []
  end.

(** The message schedule, newest word first: [w] holds [W(t-1), W(t-2), ...]. *)
Fixpoint schedule (count : nat) (w : list N) : list N :=
  match count with
  | O => w
  | S c =>
      let wt := add32 (add32 (ssig1 (nth 1 w 0)) (nth 6 w 0))
                      (add32 (ssig0 (nth 14 w 0)) (nth 15 w 0)) in
      schedule c (wt :: w)
  end.

Definition round (s : state) (kw : N * N) : state :=
  let '(k, w) := kw in
  let t1 := add32 (add32 (add32 (sh s) (bsig1 (se s)))
                         (add32 (Ch (se s) (sf s) (sg s)) k)) w in
  let t2 := add32 (bsig0 (sa s)) (Maj (sa s) (sb s) (sc s)) in
  State (add32 t1 t2) (sa s) (sb s) (sc s) (add32 (sd s) t1) (se s) (sf s) (sg s).

Definition compress (s : state) (block : list N) : state :=
  let w := rev (schedule 48 (rev (be_words 16 block))) in
  let r := fold_left round (combine K w) s in
  State (add32 (sa s) (sa r)) (add32 (sb s) (sb r)) (add32 (sc s) (sc r))
        (add32 (sd s) (sd r)) (add32 (se s) (se r)) (add32 (sf s) (sf r))
        (add32 (sg s) (sg r)) (add32 (sh s) (sh r)).

Fixpoint blocks (count : nat) (bytes : list N) (s : state) : state :=
  match count with
  | O => s
  | S c => blocks c (skipn 64 bytes) (compress s (firstn 64 bytes))
  end.

Definition digest (msg : list N) : state :=
  let p := pad msg in
  blocks (List.length p / 64) p init.

Definition hex_digit (d : N) : ascii :=
  if d <? 10 then ascii_of_N (48 + d) else ascii_of_N (87 + d).

(** The characters [0-9a-f]. *)
Definition is_hex_digit (a : ascii) : bool :=
  ((48 <=? N_of_ascii a) && (N_of_ascii a <=? 57))
  || ((97 <=? N_of_ascii a) && (N_of_ascii a <=? 102)).

Fixpoint all_hex (s : string) : bool :=
  match s with
  | EmptyString => true
  | String a t => is_hex_digit a && all_hex t
  end.

Fixpoint hex_digits (count : nat) (x : N) : string :=
  match count with
  | O => EmptyString
  | S c => String (hex_digit (N.land (N.shiftr x (4 * N.of_nat c)) 0xF))
                  (hex_digits c x)
  end.

Definition hex_of_state (s : state) : string :=
  (hex_digits 8 (sa s) ++ hex_digits 8 (sb s) ++ hex_digits 8 (sc s)
   ++ hex_digits 8 (sd s) ++ hex_digits 8 (se s) ++ hex_digits 8 (sf s)
   ++ hex_digits 8 (sg s) ++ hex_digits 8 (sh s))%string.

(** [s.encode()]: the strings of this development are UTF-8 byte strings. *)
Definition encode (s : string) : list N := map N_of_ascii (list_ascii_of_string s).

Definition hexdigest (s : string) : string := hex_of_state (digest (encode s)).

End Sha256.

(* ===================================================================== *)
(** * Python values and the operations the two modules use on them

    The data that flows through both modules comes from [json.load] or is
    built from strings, booleans, [None], lists and dicts, so a value is a
    JSON-shaped tree.  A [str] is held as its UTF-8 bytes; a dict is an
    association list in insertion order (keys are strings).  Floating-point
    numbers do not occur in the documents the code builds and are left out.
    Operations that Python types dynamically return in [result]. *)
(* ===================================================================== *)

Module Py.
Local Open Scope string_scope.

(** The induction principle of [value] goes through its lists of pairs. *)
Scheme All for list.
Scheme All for prod.

Inductive value :=
| VNone
| VBool (b : bool)
| VInt (z : Z)
| VStr (s : string)
| VList (l : list value)
| VDict (d : list (string * value)).

Inductive exn :=
| KeyError (key : string)
| TypeError
| AttributeError
| OSError
| JSONDecodeError
| UnicodeDecodeError
| TimeoutExpired
| OtherException (name : string).

(** [IOError] is an alias of [OSError]. *)
Definition is_IOError (e : exn) : bool :=
  match e with OSError => true | _ => false end.
Definition is_JSONDecodeError (e : exn) : bool :=
  match e with JSONDecodeError => true | _ => false end.
Definition is_TimeoutExpired (e : exn) : bool :=
  match e with TimeoutExpired => true | _ => false end.

Inductive result (A : Type) :=
| Ok (a : A)
| Raise (e : exn).
Arguments Ok {A} a.
Arguments Raise {A} e.

Definition bind {A B} (r : result A) (k : A -> result B) : result B :=
  match r with
  | Ok a => k a
  | Raise e => Raise e
  end.

(** [try: body  except Exception as e: handler e] *)
Definition try_except {A} (body : result A) (handler : exn -> result A)
  : result A :=
  match body with
  | Ok a => Ok a
  | Raise e => handler e
  end.

Definition of_opt (o : option string) : value :=
  match o with Some s => VStr s | None => VNone end.

(** Truth value of an object. *)
Definition truthy (v : value) : bool :=
  match v with
  | VNone => false
  | VBool b => b
  | VInt z => negb (z =? 0)%Z
  | VStr s => negb (s =? "")
  | VList l => match l with [] => false | _ => true end
  | VDict d => match d with [] => false | _ => true end
  end.

Definition truthy_opt (o : option string) : bool := truthy (of_opt o).

(** [a or b] on optional strings. *)
Definition or_else (a b : option string) : option string :=
  if truthy_opt a then a else b.

Fixpoint dict_get (k : string) (d : list (string * value)) : option value :=
  match d with
  | [] => None
  | (k', v) :: t => if k' =? k then Some v else dict_get k t
  end.

(** [d[k] = v]: the value is replaced where the key stands, a new key goes
    last. *)
Fixpoint dict_set (k : string) (v : value) (d : list (string * value))
  : list (string * value) :=
  match d with
  | [] => [(k, v)]
  | (k', v') :: t => if k' =? k then (k, v) :: t else (k', v') :: dict_set k v t
  end.

Definition dict_has (k : string) (d : list (string * value)) : bool :=
  match dict_get k d with Some _ => true | None => false end.

(** [v == s] for a string [s]. *)
Definition eq_str (v : value) (s : string) : bool :=
  match v with VStr s' => s' =? s | _ => false end.

(** [p in s] on strings. *)
Fixpoint is_substring (p s : string) : bool :=
  prefix p s
  || match s with
     | EmptyString => false
     | String _ t => is_substring p t
     end.

(** [k in v] for a string [k]. *)
Definition contains (k : string) (v : value) : result bool :=
  match v with
  | VDict d => Ok (dict_has k d)
  | VList l => Ok (existsb (fun x => eq_str x k) l)
  | VStr s => Ok (is_substring k s)
  | VNone | VBool _ | VInt _ => Raise TypeError
  end.

(** [v[k]] for a string [k]. *)
Definition getitem (v : value) (k : string) : result value :=
  match v with
  | VDict d => match dict_get k d with
               | Some x => Ok x
               | None => Raise (KeyError k)
               end
  | _ => Raise TypeError
  end.

(** [v[k] = x] for a string [k]. *)
Definition setitem (v : value) (k : string) (x : value) : result value :=
  match v with
  | VDict d => Ok (VDict (dict_set k x d))
  | _ => Raise TypeError
  end.

(** [v.get(k, default)] *)
Definition get (v : value) (k : string) (default : value) : result value :=
  match v with
  | VDict d => match dict_get k d with
               | Some x => Ok x
               | None => Ok default
               end
  | _ => Raise AttributeError
  end.

(** [v.startswith(p)] *)
Definition startswith (v : value) (p : string) : result bool :=
  match v with
  | VStr s => Ok (prefix p s)
  | _ => Raise AttributeError
  end.

(** [v.keys()] *)
Definition keys (v : value) : result (list string) :=
  match v with
  | VDict d => Ok (map fst d)
  | _ => Raise AttributeError
  end.

(** The characters of a UTF-8 string, each as a string: a character starts
    at every byte that is not a continuation byte. *)
Definition is_continuation (a : ascii) : bool :=
  ((128 <=? N_of_ascii a) && (N_of_ascii a <? 192))%N.

Fixpoint chars (s : string) : list string :=
  match s with
  | EmptyString => []
  | String a t =>
      match chars t with
      | c :: cs =>
          match t with
          | String b _ => if is_continuation b then String a c :: cs
                          else String a EmptyString :: c :: cs
          | EmptyString => String a EmptyString :: c :: cs
          end
      | [] => [String a EmptyString]
      end
  end.

(** What [for x in v] (and [enumerate(v)]) goes through. *)
Definition iter (v : value) : result (list value) :=
  match v with
  | VList l => Ok l
  | VDict d => Ok (map (fun kv => VStr (fst kv)) d)
  | VStr s => Ok (map VStr (chars s))
  | VNone | VBool _ | VInt _ => Raise TypeError
  end.

(** [str(n)] for a non-negative index. *)
Definition str_of_nat (n : nat) : string :=
  NilZero.string_of_uint (Nat.to_uint n).

Definition str_of_Z (z : Z) : string :=
  NilZero.string_of_int (Z.to_int z).

(** [json.dump(..., sort_keys=True)] writes the keys of every dict in
    sorted order; [sorted] is stable. *)
Fixpoint insert_pair (kv : string * value) (l : list (string * value))
  : list (string * value) :=
  match l with
  | [] => [kv]
  | kv' :: t => if String.leb (fst kv) (fst kv') then kv :: l
                else kv' :: insert_pair kv t
  end.

Definition sort_pairs (l : list (string * value)) : list (string * value) :=
  fold_right insert_pair [] l.

Fixpoint sort_keys (v : value) : value :=
  match v with
  | VList l => VList (map sort_keys l)
  | VDict d => VDict (sort_pairs (map (fun kv => let '(k, x) := kv in
                                                 (k, sort_keys x)) d))
  | _ => v
  end.

(** Every dict of the tree lists its keys in sorted order. *)
Fixpoint keys_sorted_from (lo : string) (ks : list string) : bool :=
  match ks with
  | [] => true
  | k :: t => String.leb lo k && keys_sorted_from k t
  end.

Definition keys_sorted_list (ks : list string) : bool :=
  match ks with
  | [] => true
  | k :: t => keys_sorted_from k t
  end.

Fixpoint keys_sorted (v : value) : bool :=
  match v with
  | VList l => forallb keys_sorted l
  | VDict d => keys_sorted_list (map fst d)
               && forallb (fun kv => let '(_, x) := kv in keys_sorted x) d
  | _ => true
  end.

#[local] Set Warnings "-register-all".

Inductive opt_rel {A} (R : A -> A -> Prop) : option A -> option A -> Prop :=
| opt_rel_none : opt_rel R None None
| opt_rel_some x y : R x y -> opt_rel R (Some x) (Some y).

(** [a == b]: atoms by value, lists pointwise, dicts key by key whatever the
    order of the keys.  (Python also equates [True] with [1] and [False]
    with [0]; the relation here is the finer one.) *)
Inductive py_eq : value -> value -> Prop :=
| py_eq_none : py_eq VNone VNone
| py_eq_bool b : py_eq (VBool b) (VBool b)
| py_eq_int z : py_eq (VInt z) (VInt z)
| py_eq_str s : py_eq (VStr s) (VStr s)
| py_eq_list l1 l2 : Forall2 py_eq l1 l2 -> py_eq (VList l1) (VList l2)
| py_eq_dict d1 d2 :
    (forall k, opt_rel py_eq (dict_get k d1) (dict_get k d2)) ->
    py_eq (VDict d1) (VDict d2).

#[local] Set Warnings "+register-all".

End Py.

Declare Scope py_scope.
Notation "x <- e ;; k" := (Py.bind e (fun x => k))
  (at level 61, e at next level, right associativity) : py_scope.

(* ===================================================================== *)
(** * build_registry.py

    The registry file is the only state.  Its content is held as the tree
    that [json.load] returns for it ([json.dump] followed by [json.load] is
    taken to give the dumped tree back, with the keys in the order written),
    or as the exception that opening or parsing it raises.  Whether the
    directory can be made, the file opened for writing and the text
    written is part of the world, and so is the clock.  A write that fails
    leaves a truncated file, which does not parse any more.  Messages
    printed on the console are left out. *)
(* ===================================================================== *)

Module BuildRegistry.
Import Py.
Local Open Scope string_scope.
Local Open Scope py_scope.

Inductive content :=
| Document (v : value)
| Unloadable (e : exn).

Record world := World {
  registry_path : string;          (* get_build_registry_path() *)
  registry_file : option content;  (* None: the file does not exist *)
  mkdir_ok : bool;                 (* registry_path.parent.mkdir succeeds *)
  write_ok : bool;                 (* open(registry_path, 'w') succeeds *)
  dump_ok : bool;                  (* json.dump writes the whole text *)
  clock : nat -> string;           (* the successive datetime.now().isoformat() *)
  ticks : nat;
  exn_text : exn -> string         (* str(e) *)
}.

Definition get_build_registry_path (w : world) : string := registry_path w.

Definition set_file (w : world) (c : content) : world :=
  World (registry_path w) (Some c) (mkdir_ok w) (write_ok w) (dump_ok w)
        (clock w) (ticks w) (exn_text w).

(** [datetime.now().isoformat()] *)
Definition now (w : world) : string * world :=
  (clock w (ticks w),
   World (registry_path w) (registry_file w) (mkdir_ok w) (write_ok w)
         (dump_ok w) (clock w) (S (ticks w)) (exn_text w)).

Definition empty_registry (stamp : string) : value :=
  VDict [("updatedAt", VStr stamp); ("builds", VList [])].

Definition load_build_registry (w : world) : result value * world :=
  match registry_file w with
  | None =>
      if mkdir_ok w then
        let '(stamp, w1) := now w in
        if write_ok w1 then
          if dump_ok w1 then
            (Ok (empty_registry stamp),
             set_file w1 (Document (empty_registry stamp)))
          else (Raise OSError, set_file w1 (Unloadable JSONDecodeError))
        else (Raise OSError, w1)
      else (Raise OSError, w)
  | Some (Document v) => (Ok v, w)
  | Some (Unloadable e) =>
      if is_JSONDecodeError e || is_IOError e then
        let '(stamp, w1) := now w in
        (Ok (empty_registry stamp), w1)
      else (Raise e, w)
  end.

(** Returns the boolean of the source and the registry object as the call
    leaves it (the caller's dict is stamped in place). *)
Definition save_build_registry (registry : value) (w : world)
  : result (bool * value) * world :=
  if mkdir_ok w then
    let '(stamp, w1) := now w in
    match setitem registry "updatedAt" (VStr stamp) with
    | Raise e => (Raise e, w1)
    | Ok registry' =>
        if write_ok w1 then
          if dump_ok w1 then
            (Ok (true, registry'),
             set_file w1 (Document (sort_keys registry')))
          else (Ok (false, registry'),
                set_file w1 (Unloadable JSONDecodeError))
        else (Ok (false, registry'), w1)
    end
  else (Ok (false, registry), w).

Definition hash_input (build_path : string) (additional_data : option string)
  : string :=
  if truthy_opt additional_data then
    match additional_data with
    | Some d => build_path ++ d
    | None => build_path
    end
  else build_path.

Definition generate_build_id (build_path : string)
    (additional_data : option string) : string :=
  substring 0 16 (Sha256.hexdigest (hash_input build_path additional_data)).

(** The scan [for i, build in enumerate(...): if build["buildId"] == build_id]
    with its [break]. *)
Fixpoint find_existing (builds : list value) (build_id : string) (i : nat)
  : result (option nat) :=
  match builds with
  | [] => Ok None
  | build :: rest =>
      id <- getitem build "buildId" ;;
      if eq_str id build_id then Ok (Some i)
      else find_existing rest build_id (S i)
  end.

(** [l[i] = x].  The index comes from the scan above, so it is in range
    (out of range Python raises [IndexError]; here the list is returned as
    it is). *)
Fixpoint list_set (i : nat) (x : value) (l : list value) : list value :=
  match l, i with
  | [], _ => []
  | _ :: t, O => x :: t
  | y :: t, S j => y :: list_set j x t
  end.

Definition build_entry (build_id name slug mode : string)
    (build_path status : string) (run_id idea_slug dream_prompt_hash : option string)
    (framework launch_command notes created_at : string) : value :=
  VDict [
    ("buildId", VStr build_id);
    ("name", VStr name);
    ("slug", VStr slug);
    ("origin", VDict [
       ("mode", VStr mode);
       ("runId", of_opt run_id);
       ("ideaSlug", of_opt idea_slug);
       ("dreamPromptHash", of_opt dream_prompt_hash)]);
    ("framework", VStr framework);
    ("buildPath", VStr build_path);
    ("status", VStr status);
    ("createdAt", VStr created_at);
    ("launch", VDict [
       ("type", VStr "expo");
       ("recommended", VStr launch_command);
       ("notes", VStr notes)]);
    ("preview", VDict [
       ("enabled", VBool (status =? "success"));
       ("instructions", VList [
          VStr ("cd " ++ build_path);
          VStr "npm install";
          VStr "npx expo install --check";
          VStr launch_command])])
  ].

(** "Update or append build": the list held under [registry["builds"]] is
    changed in place. *)
Definition update_or_append (registry : value) (existing_build : option nat)
    (entry : value) : result value :=
  builds <- getitem registry "builds" ;;
  match existing_build with
  | Some i =>
      match builds with
      | VList l => setitem registry "builds" (VList (list_set i entry l))
      | _ => Raise TypeError
      end
  | None =>
      match builds with
      | VList l => setitem registry "builds" (VList (l ++ [entry])%list)
      | _ => Raise AttributeError
      end
  end.

Definition register_build (name slug mode build_path status : string)
    (run_id idea_slug dream_prompt_hash : option string)
    (framework launch_command notes : string) (w : world)
  : result bool * world :=
  let '(loaded, w1) := load_build_registry w in
  match loaded with
  | Raise e => (Raise e, w1)
  | Ok registry =>
      let build_id :=
        generate_build_id build_path (or_else dream_prompt_hash run_id) in
      match (builds <- getitem registry "builds" ;;
             items <- iter builds ;;
             find_existing items build_id 0) with
      | Raise e => (Raise e, w1)
      | Ok existing_build =>
          let '(created_at, w2) := now w1 in
          let entry :=
            build_entry build_id name slug mode build_path status run_id
                        idea_slug dream_prompt_hash framework launch_command
                        notes created_at in
          match update_or_append registry existing_build entry with
          | Raise e => (Raise e, w2)
          | Ok registry' =>
              match save_build_registry registry' w2 with
              | (Raise e, w3) => (Raise e, w3)
              | (Ok (success, _), w3) => (Ok success, w3)
              end
          end
      end
  end.

(** The id of a record of the registry, when it has one. *)
Definition build_id_of (build : value) : option string :=
  match build with
  | VDict r => match dict_get "buildId" r with
               | Some (VStr id) => Some id
               | _ => None
               end
  | _ => None
  end.

Definition has_build_id (build : value) : Prop := build_id_of build <> None.

Definition default_framework : string := "expo".
Definition default_launch_command : string := "npx expo start".

Definition register_pipeline_build (name slug build_path status run_id
    idea_slug notes : string) (w : world) : result bool * world :=
  register_build name slug "pipeline" build_path status (Some run_id)
                 (Some idea_slug) None default_framework
                 default_launch_command notes w.

Definition register_dream_build (name slug build_path status run_id
    dream_prompt_hash notes : string) (w : world) : result bool * world :=
  register_build name slug "dream" build_path status (Some run_id) None
                 (Some dream_prompt_hash) default_framework
                 default_launch_command notes w.

Definition get_builds (w : world) : result value * world :=
  let '(loaded, w1) := load_build_registry w in
  (registry <- loaded ;; get registry "builds" (VList []), w1).

(** The errors [for field in fields: if field not in obj: errors.append(...)]
    adds, in order. *)
Fixpoint missing_fields (describe : string -> string) (fields : list string)
    (obj : value) : result (list string) :=
  match fields with
  | [] => Ok []
  | field :: rest =>
      present <- contains field obj ;;
      more <- missing_fields describe rest obj ;;
      Ok (if present then more else describe field :: more)
  end.

Definition required_fields : list string :=
  ["buildId"; "name"; "slug"; "origin"; "buildPath"; "status"; "createdAt"].

Definition origin_required : list string := ["mode"].

Definition build_prefix (i : nat) : string := "Build " ++ str_of_nat i ++ ": ".

(** The body of the loop over the builds: the errors it appends for the
    build at index [i]. *)
Definition check_build (i : nat) (build : value) : result (list string) :=
  e1 <- missing_fields
          (fun field => build_prefix i ++ "missing required field '" ++ field ++ "'")
          required_fields build ;;
  has_origin <- contains "origin" build ;;
  if has_origin then
    origin <- getitem build "origin" ;;
    e2 <- missing_fields
            (fun field => build_prefix i ++ "origin missing required field '"
                          ++ field ++ "'")
            origin_required origin ;;
    mode <- get origin "mode" VNone ;;
    dream_missing <-
      (if eq_str mode "dream" then
         h <- get origin "dreamPromptHash" VNone ;; Ok (negb (truthy h))
       else Ok false) ;;
    if dream_missing then
      Ok (e1 ++ e2
          ++ [(build_prefix i ++ "dream mode build missing dreamPromptHash")%string])%list
    else
      pipeline_missing <-
        (if eq_str mode "pipeline" then
           r <- get origin "runId" VNone ;; Ok (negb (truthy r))
         else Ok false) ;;
      if pipeline_missing then
        Ok (e1 ++ e2
            ++ [(build_prefix i ++ "pipeline mode build missing runId")%string])%list
      else Ok (e1 ++ e2)%list
  else Ok e1.

Fixpoint check_builds (i : nat) (builds : list value) : result (list string) :=
  match builds with
  | [] => Ok []
  | build :: rest =>
      e <- check_build i build ;;
      more <- check_builds (S i) rest ;;
      Ok (e ++ more)%list
  end.

Definition validate_build_registry (w : world) : result (list string) * world :=
  match registry_file w with
  | None => (Ok ["Build registry not found at " ++ get_build_registry_path w], w)
  | Some _ =>
      match load_build_registry w with
      | (Raise e, w1) => (Ok ["Could not load registry: " ++ exn_text w e], w1)
      | (Ok registry, w1) =>
          (has_builds <- contains "builds" registry ;;
           if has_builds then
             builds <- getitem registry "builds" ;;
             items <- iter builds ;;
             check_builds 0 items
           else Ok ["Registry missing 'builds' field"],
           w1)
      end
  end.

(** A record of the data model: a dict whose [origin], when present, is a
    dict. *)
Definition is_record (build : value) : bool :=
  match build with
  | VDict r => match dict_get "origin" r with
               | Some (VDict _) | None => true
               | Some _ => false
               end
  | _ => false
  end.

(** The origin of a record has mode [mode] and lacks [field] (the field is
    absent, [None] or empty). *)
Definition origin_lacks (mode field : string) (build : value) : bool :=
  match build with
  | VDict r =>
      match dict_get "origin" r with
      | Some (VDict o) =>
          match dict_get "mode" o with
          | Some m => eq_str m mode
          | None => false
          end
          && match dict_get field o with
             | Some x => negb (truthy x)
             | None => true
             end
      | _ => false
      end
  | _ => false
  end.

(** A record without structural violation: the seven required fields, an
    origin with a mode, the prompt hash of a dream build, the run id of a
    pipeline build. *)
Definition record_ok (build : value) : bool :=
  match build with
  | VDict r =>
      forallb (fun field => dict_has field r) required_fields
      && match dict_get "origin" r with
         | Some (VDict o) => dict_has "mode" o
         | _ => false
         end
      && negb (origin_lacks "dream" "dreamPromptHash" build)
      && negb (origin_lacks "pipeline" "runId" build)
  | _ => false
  end.

(** The two messages about the origin, for the build at index [i]. *)
Definition dream_message (i : nat) : string :=
  build_prefix i ++ "dream mode build missing dreamPromptHash".

Definition pipeline_message (i : nat) : string :=
  build_prefix i ++ "pipeline mode build missing runId".

(** The generator [(build for build in builds if build["buildId"] == build_id)]
    taken by [next(..., None)]: the first build with the id. *)
Fixpoint first_with_id (builds : list value) (build_id : string)
  : result (option value) :=
  match builds with
  | [] => Ok None
  | build :: rest =>
      id <- getitem build "buildId" ;;
      if eq_str id build_id then Ok (Some build)
      else first_with_id rest build_id
  end.

Definition get_build_by_id (build_id : string) (w : world)
  : result (option value) * world :=
  let '(builds, w1) := get_builds w in
  (builds <- builds ;;
   items <- iter builds ;;
   first_with_id items build_id, w1).

End BuildRegistry.

(* ===================================================================== *)
(** * build_validator.py

    The world of the validator is what it reads and runs: the files (whether
    a path exists, what opening and parsing one gives), the external
    programs, the clock, the directories that can be entered.  Paths are
    the strings [str(path)]; existence is as seen from the working
    directory the call starts in.  The process working directory is the
    state. *)
(* ===================================================================== *)

Module BuildValidator.
Import Py.
Local Open Scope string_scope.
Local Open Scope py_scope.

Record command_result := CommandResult {
  command : string;
  returncode : Z;
  stdout : string;
  stderr : string;
  success : bool
}.

(** What [subprocess.run] returns. *)
Record completed_process := Completed {
  cp_returncode : Z;
  cp_stdout : string;
  cp_stderr : string
}.

(** Why [os.stat] fails on a path. *)
Inductive stat_failure :=
| ENOENT          (* no such file or directory *)
| ENOTDIR         (* a component of the path is not a directory *)
| EBADF
| ELOOP           (* too many symbolic links *)
| ENAMETOOLONG    (* a name of the path is longer than the file system allows *)
| EACCES          (* a directory of the path cannot be searched *)
| OtherOSError    (* any other errno *)
| NullByte.       (* ValueError: embedded null byte *)

Record env := Env {
  clock : string;                        (* datetime.now().isoformat() *)
  path_stat : string -> option stat_failure;  (* os.stat; None: it answers *)
  load_json : string -> result value;    (* open(path) then json.load *)
  json_loads : string -> result value;   (* json.loads *)
  (* subprocess.run(command, cwd=, timeout=), in the process directory *)
  subprocess_run : list string -> option string -> Z -> string
                   -> result completed_process;
  chdir_allowed : string -> bool;        (* os.chdir succeeds *)
  exn_text : exn -> string               (* str(e) *)
}.

Definition default_timeout : Z := 30.

(** The errors [Path.exists()] swallows (pathlib's [_ignore_error]). *)
Definition ignore_error (f : stat_failure) : bool :=
  match f with
  | ENOENT | ENOTDIR | EBADF | ELOOP => true
  | _ => false
  end.

(** [Path.exists()]: [True] when [os.stat] answers, [False] when it fails
    with an error of [ignore_error] or with [ValueError]; any other
    [OSError] is raised again. *)
Definition path_exists (e : env) (p : string) : result bool :=
  match path_stat e p with
  | None => Ok true
  | Some NullByte => Ok false
  | Some f => if ignore_error f then Ok false else Raise OSError
  end.


Definition run_command (e : env) (process_cwd : string)
    (command : list string) (cwd : option string) (timeout : Z)
  : result command_result :=
  try_except
    (result_ <- subprocess_run e command cwd timeout process_cwd ;;
     Ok (CommandResult (String.concat " " command)
                       (cp_returncode result_)
                       (UStr.strip_ws (cp_stdout result_))
                       (UStr.strip_ws (cp_stderr result_))
                       (cp_returncode result_ =? 0)%Z))
    (fun ex =>
       if is_TimeoutExpired ex then
         Ok (CommandResult (String.concat " " command) (-1) ""
               ("Command timed out after " ++ str_of_Z timeout ++ "s") false)
       else
         Ok (CommandResult (String.concat " " command) (-1) ""
               (exn_text e ex) false)).

Definition version_of (r : command_result) : option string :=
  if success r then Some (stdout r) else None.

Definition get_node_version (e : env) (process_cwd : string)
  : result (option string) :=
  r <- run_command e process_cwd ["node"; "--version"] None default_timeout ;;
  Ok (version_of r).

Definition get_npm_version (e : env) (process_cwd : string)
  : result (option string) :=
  r <- run_command e process_cwd ["npm"; "--version"] None default_timeout ;;
  Ok (version_of r).

Record validation_flags := Flags {
  packageJsonExists : bool;
  appJsonExists : bool;
  hasValidBundleIdentifier : bool;
  hasValidAndroidPackage : bool;
  hasMandatoryFiles : bool;
  expoInstallCheck : bool
}.

Record expo_info := Expo {
  version : option string;
  sdkVersion : value;
  config : value
}.

Record dependency_info := Dependencies {
  strategy : string;
  expoModules : list string;
  issues : list string
}.

Record report := Report {
  validatedAt : string;
  buildPath : string;
  nodeVersion : option string;
  npmVersion : option string;
  packageManager : string;
  validation : validation_flags;
  expo : expo_info;
  dependencies : dependency_info;
  commands : list (string * command_result);
  errors : list string;
  warnings : list string
}.

Definition no_flags : validation_flags :=
  Flags false false false false false false.

Definition initial_report (stamp build_path : string)
    (node npm : option string) : report :=
  Report stamp build_path node npm "npm" no_flags
         (Expo None VNone VNone)
         (Dependencies "expo-install-compatibility" [] [])
         [] [] [].

(** Assignments to the fields of the report. *)
Definition with_validation (f : validation_flags -> validation_flags)
    (r : report) : report :=
  Report (validatedAt r) (buildPath r) (nodeVersion r) (npmVersion r)
         (packageManager r) (f (validation r)) (expo r) (dependencies r)
         (commands r) (errors r) (warnings r).

Definition with_expo (f : expo_info -> expo_info) (r : report) : report :=
  Report (validatedAt r) (buildPath r) (nodeVersion r) (npmVersion r)
         (packageManager r) (validation r) (f (expo r)) (dependencies r)
         (commands r) (errors r) (warnings r).

Definition with_dependencies (f : dependency_info -> dependency_info)
    (r : report) : report :=
  Report (validatedAt r) (buildPath r) (nodeVersion r) (npmVersion r)
         (packageManager r) (validation r) (expo r) (f (dependencies r))
         (commands r) (errors r) (warnings r).

Definition add_error (msg : string) (r : report) : report :=
  Report (validatedAt r) (buildPath r) (nodeVersion r) (npmVersion r)
         (packageManager r) (validation r) (expo r) (dependencies r)
         (commands r) (errors r ++ [msg])%list (warnings r).

Definition add_warning (msg : string) (r : report) : report :=
  Report (validatedAt r) (buildPath r) (nodeVersion r) (npmVersion r)
         (packageManager r) (validation r) (expo r) (dependencies r)
         (commands r) (errors r) (warnings r ++ [msg])%list.

(** [commands[name] = result] *)
Fixpoint assoc_set (name : string) (x : command_result)
    (l : list (string * command_result)) : list (string * command_result) :=
  match l with
  | [] => [(name, x)]
  | (k, y) :: t => if k =? name then (name, x) :: t
                   else (k, y) :: assoc_set name x t
  end.

Definition set_command (name : string) (x : command_result) (r : report)
  : report :=
  Report (validatedAt r) (buildPath r) (nodeVersion r) (npmVersion r)
         (packageManager r) (validation r) (expo r) (dependencies r)
         (assoc_set name x (commands r)) (errors r) (warnings r).

Definition set_packageJsonExists (b : bool) : report -> report :=
  with_validation (fun v =>
    Flags b (appJsonExists v) (hasValidBundleIdentifier v)
          (hasValidAndroidPackage v) (hasMandatoryFiles v) (expoInstallCheck v)).

Definition set_appJsonExists (b : bool) : report -> report :=
  with_validation (fun v =>
    Flags (packageJsonExists v) b (hasValidBundleIdentifier v)
          (hasValidAndroidPackage v) (hasMandatoryFiles v) (expoInstallCheck v)).

Definition set_hasValidBundleIdentifier (b : bool) : report -> report :=
  with_validation (fun v =>
    Flags (packageJsonExists v) (appJsonExists v) b
          (hasValidAndroidPackage v) (hasMandatoryFiles v) (expoInstallCheck v)).

Definition set_hasValidAndroidPackage (b : bool) : report -> report :=
  with_validation (fun v =>
    Flags (packageJsonExists v) (appJsonExists v) (hasValidBundleIdentifier v)
          b (hasMandatoryFiles v) (expoInstallCheck v)).

Definition set_hasMandatoryFiles (b : bool) : report -> report :=
  with_validation (fun v =>
    Flags (packageJsonExists v) (appJsonExists v) (hasValidBundleIdentifier v)
          (hasValidAndroidPackage v) b (expoInstallCheck v)).

Definition set_expoInstallCheck (b : bool) : report -> report :=
  with_validation (fun v =>
    Flags (packageJsonExists v) (appJsonExists v) (hasValidBundleIdentifier v)
          (hasValidAndroidPackage v) (hasMandatoryFiles v) b).

Definition set_expoModules (l : list string) : report -> report :=
  with_dependencies (fun d => Dependencies (strategy d) l (issues d)).

Definition add_issues (l : list string) : report -> report :=
  with_dependencies (fun d =>
    Dependencies (strategy d) (expoModules d) (issues d ++ l)%list).

Definition set_expo_version (s : string) : report -> report :=
  with_expo (fun x => Expo (Some s) (sdkVersion x) (config x)).

Definition set_expo_config (c : value) : report -> report :=
  with_expo (fun x => Expo (version x) (sdkVersion x) c).

Definition set_expo_sdkVersion (c : value) : report -> report :=
  with_expo (fun x => Expo (version x) c (config x)).

(** [path / name] *)
Definition ends_with_slash (p : string) : bool :=
  match String.get (String.length p - 1)%nat p with
  | Some c => Ascii.eqb c "/"
  | None => false
  end.

Definition joinpath (p name : string) : string :=
  if (p =? ".") || (p =? "") then name
  else if ends_with_slash p then p ++ name
  else p ++ "/" ++ name.

Definition is_absolute (p : string) : bool := prefix "/" p.

(** [os.chdir(target)] from the directory [cwd]: the new working
    directory. *)
Definition resolve (cwd target : string) : string :=
  if is_absolute target then target else joinpath cwd target.

Definition chdir (e : env) (cwd target : string) : result string :=
  let p := resolve cwd target in
  if chdir_allowed e p then Ok p else Raise OSError.

(** One step of the loop over the expo modules: the issue it appends, if
    any. *)
Definition version_issue (dependencies : value) (module : string)
  : result (option string) :=
  version <- Py.get dependencies module (VStr "") ;;
  if truthy version then
    caret <- startswith version "^" ;;
    if negb caret then
      tilde <- contains "~" version ;;
      if tilde then
        match version with
        | VStr v => Ok (Some ("Hardcoded version for " ++ module ++ ": " ++ v
                              ++ " (should use expo install)"))
        | _ => Raise TypeError
        end
      else Ok None
    else Ok None
  else Ok None.

(** The loop: the issues appended, and the exception that stopped it, if
    one did. *)
Fixpoint scan_versions (dependencies : value) (modules : list string)
  : list string * option exn :=
  match modules with
  | [] => ([], None)
  | module :: rest =>
      match version_issue dependencies module with
      | Raise ex => ([], Some ex)
      | Ok issue =>
          let '(more, raised) := scan_versions dependencies rest in
          (match issue with Some i => i :: more | None => more end, raised)
      end
  end.

(** The body of [if package_json_path.exists():]. *)
Definition read_package_json (e : env) (package_json_path : string)
    (r : report) : report :=
  let r := set_packageJsonExists true r in
  match (package_data <- load_json e package_json_path ;;
         dependencies <- Py.get package_data "dependencies" (VDict []) ;;
         names <- keys dependencies ;;
         Ok (dependencies, filter (prefix "expo-") names)) with
  | Raise ex => add_error ("Could not parse package.json: " ++ exn_text e ex) r
  | Ok (dependencies, expo_modules) =>
      let r := set_expoModules expo_modules r in
      let '(found, raised) := scan_versions dependencies expo_modules in
      let r := add_issues found r in
      match raised with
      | Some ex =>
          add_error ("Could not parse package.json: " ++ exn_text e ex) r
      | None => r
      end
  end.

(** The [package.json] block; the existence test stands outside the [try],
    so what it raises leaves the function. *)
Definition check_package_json (e : env) (build_path : string) (r : report)
  : result report :=
  let package_json_path := joinpath build_path "package.json" in
  present <- path_exists e package_json_path ;;
  if present then Ok (read_package_json e package_json_path r)
  else Ok (add_error "package.json not found" r).

(** The lookups at the head of the [app.json] block. *)
Definition app_identifiers (app_data : value) : result (value * value) :=
  expo_config <- Py.get app_data "expo" (VDict []) ;;
  ios <- Py.get expo_config "ios" (VDict []) ;;
  ios_bundle <- Py.get ios "bundleIdentifier" VNone ;;
  android <- Py.get expo_config "android" (VDict []) ;;
  android_package <- Py.get android "package" VNone ;;
  Ok (ios_bundle, android_package).

(** The check of one identifier ([if ident: ... else: ...]): the report it
    leaves and the exception it raises, if any. *)
Definition check_identifier (ident : value) (set_flag : bool -> report -> report)
    (warning : string -> string) (missing : string) (r : report)
  : report * option exn :=
  if truthy ident then
    let r := set_flag true r in
    match startswith ident "com.appfactory." with
    | Raise ex => (r, Some ex)
    | Ok compliant =>
        if negb compliant then
          match ident with
          | VStr s => (add_warning (warning s) r, None)
          | _ => (r, Some TypeError)
          end
        else (r, None)
    end
  else (add_error missing r, None).

Definition ios_warning (s : string) : string :=
  "Bundle identifier '" ++ s ++ "' doesn't follow com.appfactory.* pattern".

Definition android_warning (s : string) : string :=
  "Android package '" ++ s ++ "' doesn't follow com.appfactory.* pattern".

(** The body of [if app_json_path.exists():]. *)
Definition read_app_json (e : env) (app_json_path : string) (r : report)
  : report :=
  let r := set_appJsonExists true r in
  match (app_data <- load_json e app_json_path ;; app_identifiers app_data) with
  | Raise ex => add_error ("Could not parse app.json: " ++ exn_text e ex) r
  | Ok (ios_bundle, android_package) =>
      match check_identifier ios_bundle set_hasValidBundleIdentifier
              ios_warning "Missing ios.bundleIdentifier in app.json" r with
      | (r, Some ex) =>
          add_error ("Could not parse app.json: " ++ exn_text e ex) r
      | (r, None) =>
          match check_identifier android_package set_hasValidAndroidPackage
                  android_warning "Missing android.package in app.json" r with
          | (r, Some ex) =>
              add_error ("Could not parse app.json: " ++ exn_text e ex) r
          | (r, None) => r
          end
      end
  end.

(** The [app.json] block; its existence test stands outside the [try]
    too. *)
Definition check_app_json (e : env) (build_path : string) (r : report)
  : result report :=
  let app_json_path := joinpath build_path "app.json" in
  present <- path_exists e app_json_path ;;
  if present then Ok (read_app_json e app_json_path r)
  else Ok (add_error "app.json not found" r).

Definition mandatory_files : list string :=
  ["App.js"; "App.tsx"; "app/_layout.tsx"; "app/_layout.js";
   "app/index.tsx"; "app/index.js"].

(** [any((build_path / f).exists() for f in files)]: the tests are made in
    order and stop at the first file found; a test that raises ends it. *)
Fixpoint any_exists (e : env) (build_path : string) (files : list string)
  : result bool :=
  match files with
  | [] => Ok false
  | f :: rest =>
      present <- path_exists e (joinpath build_path f) ;;
      if present then Ok true else any_exists e build_path rest
  end.

Definition has_entry_point (e : env) (build_path : string) : result bool :=
  any_exists e build_path mandatory_files.

Definition check_entry_point (e : env) (build_path : string) (r : report)
  : result report :=
  has_entry_point <- has_entry_point e build_path ;;
  let r := set_hasMandatoryFiles has_entry_point r in
  if negb has_entry_point then
    Ok (add_error
          "No valid entry point found (App.js, App.tsx, or app/_layout.tsx)" r)
  else Ok r.

(** The inner [try] around the parse of the config dump. *)
Definition read_expo_config (e : env) (output : string) (r : report) : report :=
  match json_loads e output with
  | Raise _ => add_warning "Could not parse expo config JSON" r
  | Ok config_data =>
      let r := set_expo_config config_data r in
      match (x <- Py.get config_data "expo" (VDict []) ;;
             Py.get x "sdkVersion" VNone) with
      | Raise _ => add_warning "Could not parse expo config JSON" r
      | Ok sdk => set_expo_sdkVersion sdk r
      end
  end.

(** The body of the [try] of "Run Expo commands": the report and the
    working directory it leaves, and the exception that ended it, if any. *)
Definition run_expo_commands (e : env) (build_path : string) (r : report)
    (cwd : string) : report * string * option exn :=
  match chdir e cwd build_path with
  | Raise ex => (r, cwd, Some ex)
  | Ok cwd =>
  match run_command e cwd ["npx"; "expo"; "--version"] None default_timeout with
  | Raise ex => (r, cwd, Some ex)
  | Ok expo_version_result =>
  let r := set_command "expo_version" expo_version_result r in
  let r := if success expo_version_result
           then set_expo_version (stdout expo_version_result) r else r in
  match run_command e cwd ["npx"; "expo"; "config"; "--type"; "public"] None
          default_timeout with
  | Raise ex => (r, cwd, Some ex)
  | Ok expo_config_result =>
  let r := set_command "expo_config" expo_config_result r in
  let r := if success expo_config_result
           then read_expo_config e (stdout expo_config_result) r else r in
  match run_command e cwd ["npx"; "expo"; "install"; "--check"] None
          default_timeout with
  | Raise ex => (r, cwd, Some ex)
  | Ok expo_install_result =>
  let r := set_command "expo_install_check" expo_install_result r in
  let r := set_expoInstallCheck (success expo_install_result) r in
  let r := if negb (success expo_install_result)
           then add_warning
                  "Expo install check failed - dependencies may be incompatible" r
           else r in
  match run_command e cwd ["npx"; "expo-doctor"] None default_timeout with
  | Raise ex => (r, cwd, Some ex)
  | Ok expo_doctor_result =>
  (set_command "expo_doctor" expo_doctor_result r, cwd, None)
  end end end end end.

Definition validate_expo_build (e : env) (build_path : string) (cwd : string)
  : result report * string :=
  match (node <- get_node_version e cwd ;;
         npm <- get_npm_version e cwd ;;
         Ok (initial_report (clock e) build_path node npm)) with
  | Raise ex => (Raise ex, cwd)
  | Ok validation_report =>
      match path_exists e build_path with
      | Raise ex => (Raise ex, cwd)
      | Ok false =>
          (Ok (add_error ("Build path does not exist: " ++ build_path)
                         validation_report), cwd)
      | Ok true =>
          match (r <- check_package_json e build_path validation_report ;;
                 r <- check_app_json e build_path r ;;
                 check_entry_point e build_path r) with
          | Raise ex => (Raise ex, cwd)
          | Ok r =>
              let original_cwd := cwd in
              let '(r, cwd, raised) := run_expo_commands e build_path r cwd in
              let r := match raised with
                       | Some ex =>
                           add_error ("Error during command execution: "
                                      ++ exn_text e ex) r
                       | None => r
                       end in
              (* finally: os.chdir(original_cwd) *)
              match chdir e cwd original_cwd with
              | Raise ex => (Raise ex, cwd)
              | Ok cwd => (Ok r, cwd)
              end
          end
      end
  end.

(** Every external command fails: the program cannot be launched, times
    out, or exits with a code other than 0. *)
Definition all_commands_fail (e : env) : Prop :=
  forall command cwd timeout process_cwd,
    match subprocess_run e command cwd timeout process_cwd with
    | Ok p => cp_returncode p <> 0%Z
    | Raise _ => True
    end.

Definition is_str (v : value) : bool :=
  match v with VStr _ => true | _ => false end.

(** The existence tests a run can make, and whether they all answer
    (none raises). *)
Definition probed_paths (build_path : string) : list string :=
  build_path :: joinpath build_path "package.json"
  :: joinpath build_path "app.json"
  :: map (joinpath build_path) mandatory_files.

Definition probe_answers (e : env) (p : string) : bool :=
  match path_exists e p with Ok _ => true | Raise _ => false end.

Definition probes_answer (e : env) (build_path : string) : bool :=
  forallb (probe_answers e) (probed_paths build_path).

(** A well-formed [package.json]: an object whose [dependencies], when
    present, map names to version strings. *)
Definition well_formed_package (package_data : value) : bool :=
  match package_data with
  | VDict p =>
      match dict_get "dependencies" p with
      | None => true
      | Some (VDict deps) => forallb (fun kv => is_str (snd kv)) deps
      | Some _ => false
      end
  | _ => false
  end.

(** A well-formed [app.json] with compliant identifiers: both identifiers
    are strings that start with [com.appfactory.]. *)
Definition compliant_app (app_data : value) : bool :=
  match app_identifiers app_data with
  | Ok (VStr ios_bundle, VStr android_package) =>
      prefix "com.appfactory." ios_bundle
      && prefix "com.appfactory." android_package
  | _ => false
  end.

(** [path.parent] on the string of a path: what stands before the last
    [/]; [.] for a single name, [/] under the root. *)
Fixpoint dirname (p : string) : option string :=
  match p with
  | EmptyString => None
  | String c t =>
      match dirname t with
      | Some d => Some (String c d)
      | None => if Ascii.eqb c "/" then Some "" else None
      end
  end.

Definition parent (p : string) : string :=
  match dirname p with
  | None => "."
  | Some EmptyString => "/"
  | Some d => d
  end.

(** The report as the dict the source builds. *)
Definition opt_value (o : option string) : value := of_opt o.

Definition command_result_to_value (c : command_result) : value :=
  VDict [("command", VStr (command c));
         ("returncode", VInt (returncode c));
         ("stdout", VStr (stdout c));
         ("stderr", VStr (stderr c));
         ("success", VBool (success c))].

Definition report_to_value (r : report) : value :=
  VDict [
    ("validatedAt", VStr (validatedAt r));
    ("buildPath", VStr (buildPath r));
    ("nodeVersion", opt_value (nodeVersion r));
    ("npmVersion", opt_value (npmVersion r));
    ("packageManager", VStr (packageManager r));
    ("validation", VDict [
       ("packageJsonExists", VBool (packageJsonExists (validation r)));
       ("appJsonExists", VBool (appJsonExists (validation r)));
       ("hasValidBundleIdentifier",
        VBool (hasValidBundleIdentifier (validation r)));
       ("hasValidAndroidPackage",
        VBool (hasValidAndroidPackage (validation r)));
       ("hasMandatoryFiles", VBool (hasMandatoryFiles (validation r)));
       ("expoInstallCheck", VBool (expoInstallCheck (validation r)))]);
    ("expo", VDict [
       ("version", opt_value (version (expo r)));
       ("sdkVersion", sdkVersion (expo r));
       ("config", config (expo r))]);
    ("dependencies", VDict [
       ("strategy", VStr (strategy (dependencies r)));
       ("expoModules", VList (map VStr (expoModules (dependencies r))));
       ("issues", VList (map VStr (issues (dependencies r))))]);
    ("commands",
     VDict (map (fun kc => (fst kc, command_result_to_value (snd kc)))
                (commands r)));
    ("errors", VList (map VStr (errors r)));
    ("warnings", VList (map VStr (warnings r)))
  ].

(** The files [write_validation_report] writes to: whether a directory can
    be made, a file opened and its text written, and what the files hold
    (a write that fails leaves a truncated file, which does not parse). *)
Record report_disk := ReportDisk {
  can_mkdir : string -> bool;   (* meta_dir.mkdir(exist_ok=True) succeeds *)
  can_open : string -> bool;    (* open(path, 'w') succeeds *)
  can_dump : string -> bool;    (* json.dump writes the whole text *)
  files : string -> option BuildRegistry.content
}.

Definition put_file (d : report_disk) (path : string)
    (c : BuildRegistry.content) : report_disk :=
  ReportDisk (can_mkdir d) (can_open d) (can_dump d)
             (fun p => if p =? path then Some c else files d p).

Definition meta_dir (build_path : string) : string :=
  joinpath (parent build_path) "meta".

Definition validation_path (build_path : string) : string :=
  joinpath (meta_dir build_path) "build_validation.json".

(** The boolean returned and the disk left; every exception is caught, the
    messages printed are left out. *)
Definition write_validation_report (build_path : string) (r : report)
    (d : report_disk) : bool * report_disk :=
  if can_mkdir d (meta_dir build_path) then
    if can_open d (validation_path build_path) then
      if can_dump d (validation_path build_path) then
        (true, put_file d (validation_path build_path)
                 (BuildRegistry.Document (sort_keys (report_to_value r))))
      else
        (false, put_file d (validation_path build_path)
                  (BuildRegistry.Unloadable JSONDecodeError))
    else (false, d)
  else (false, d).

(** The verdict of the [validate] subcommand of [main]: the build passes,
    and the process exits with status 0, exactly when this holds. *)
Definition build_validation_passed (r : report) : bool :=
  match errors r with [] => true | _ :: _ => false end
  && packageJsonExists (validation r)
  && hasValidBundleIdentifier (validation r).

(** The five flags of the structural checks (the sixth,
    [expoInstallCheck], is the outcome of a command). *)
Definition structural_flags (r : report) : list bool :=
  [packageJsonExists (validation r); appJsonExists (validation r);
   hasValidBundleIdentifier (validation r);
   hasValidAndroidPackage (validation r); hasMandatoryFiles (validation r)].

(** The test of the loop over the expo modules, on a version string. *)
Definition tilde_pinned (v : string) : bool :=
  negb (v =? "") && negb (prefix "^" v) && is_substring "~" v.

Definition issues_of (deps : list (string * value)) (module : string)
  : list string :=
  match dict_get module deps with
  | Some (VStr v) =>
      if tilde_pinned v then
        ["Hardcoded version for " ++ module ++ ": " ++ v
         ++ " (should use expo install)"]
      else []
  | _ => []
  end.

(** A single path component, and a directory path as [str(path)] gives it
    (no trailing [/] but for the root). *)
Definition simple_name (n : string) : bool :=
  negb (n =? "") && negb (n =? ".")
  && match dirname n with None => true | Some _ => false end.

Definition normal_dir (p : string) : bool :=
  (p =? "/") || (negb (p =? "") && negb (ends_with_slash p)).

End BuildValidator.

(* ===================================================================== *)
(** * Concrete worlds, on which the statements below are instantiated *)
(* ===================================================================== *)

Module Demo.
Import Py.
Local Open Scope string_scope.

Definition exn_text (ex : exn) : string :=
  match ex with
  | KeyError k => "'" ++ k ++ "'"
  | TypeError => "unsupported operand"
  | AttributeError => "no such attribute"
  | OSError => "[Errno 2] No such file or directory"
  | JSONDecodeError => "Expecting value: line 1 column 1 (char 0)"
  | UnicodeDecodeError => "invalid start byte"
  | TimeoutExpired => "timed out"
  | OtherException name => name
  end.

(** A registry with a pipeline build and a dream build that has no prompt
    hash. *)
Definition alpha : value :=
  BuildRegistry.build_entry
    (BuildRegistry.generate_build_id "builds/alpha" (Some "run-1"))
    "Alpha" "alpha" "pipeline" "builds/alpha" "success"
    (Some "run-1") (Some "alpha-idea") None
    "expo" "npx expo start" "" "2024-12-30T10:00:00".

Definition beta : value :=
  BuildRegistry.build_entry
    (BuildRegistry.generate_build_id "builds/beta" (Some "run-2"))
    "Beta" "beta" "dream" "builds/beta" "failed"
    (Some "run-2") None None
    "expo" "npx expo start" "" "2024-12-31T10:00:00".

Definition registry : list (string * value) :=
  [("updatedAt", VStr "2024-12-31T10:00:01"); ("builds", VList [alpha; beta])].

Definition registry_clock (n : nat) : string :=
  "2025-01-01T00:00:0" ++ str_of_nat n.

Definition registry_world : BuildRegistry.world :=
  BuildRegistry.World "/repo/builds/build_index.json"
    (Some (BuildRegistry.Document (VDict registry)))
    true true true registry_clock 0 exn_text.

(** A build directory with its two manifests and an entry point, on a
    machine where no external program can be launched. *)
Definition package_json : value :=
  VDict [("name", VStr "demo");
         ("dependencies",
          VDict [("expo", VStr "~51.0.0");
                 ("expo-status-bar", VStr "~1.12.1");
                 ("react", VStr "18.2.0")])].

Definition app_json (ios_bundle android_package : string) : value :=
  VDict [("expo",
          VDict [("name", VStr "Demo");
                 ("ios", VDict [("bundleIdentifier", VStr ios_bundle)]);
                 ("android", VDict [("package", VStr android_package)])])].

Definition build_dir : string := "/work/builds/demo".

(** The length of the longest name of a path. *)
Fixpoint longest_name (p : string) (current best : nat) : nat :=
  match p with
  | EmptyString => Nat.max current best
  | String c t =>
      if Ascii.eqb c "/" then longest_name t 0 (Nat.max current best)
      else longest_name t (S current) best
  end.

(** [os.stat] on a disk that holds [files]: a name of more than 255
    characters is refused, any other path that is not listed is missing. *)
Definition stat_in (files : list string) (p : string)
  : option BuildValidator.stat_failure :=
  if (255 <? longest_name p 0 0)%nat then Some BuildValidator.ENAMETOOLONG
  else if existsb (String.eqb p) files then None
  else Some BuildValidator.ENOENT.


Definition env_of (app_data : value) : BuildValidator.env :=
  BuildValidator.Env
    "2025-01-01T12:00:00"
    (stat_in ["/work/builds/demo"; "/work/builds/demo/package.json";
              "/work/builds/demo/app.json"; "/work/builds/demo/App.tsx"])
    (fun p => if p =? "/work/builds/demo/package.json" then Ok package_json
              else if p =? "/work/builds/demo/app.json" then Ok app_data
              else Raise OSError)
    (fun _ => Raise JSONDecodeError)
    (fun _ _ _ _ => Raise (OtherException "FileNotFoundError"))
    (fun p => existsb (String.eqb p) ["/work"; "/work/builds/demo"])
    exn_text.

Definition env : BuildValidator.env :=
  env_of (app_json "com.appfactory.demo" "com.appfactory.demo").

Definition foreign_env : BuildValidator.env :=
  env_of (app_json "org.example.demo" "org.example.demo").

(** The same build directory on a machine where the tools answer. *)
Definition dquote : string := String (ascii_of_nat 34) EmptyString.
Definition newline : string := String (ascii_of_nat 10) EmptyString.

Definition expo_config_text : string :=
  "{ " ++ dquote ++ "expo" ++ dquote ++ ": { "
  ++ dquote ++ "sdkVersion" ++ dquote ++ ": "
  ++ dquote ++ "51.0.0" ++ dquote ++ " } }".

Definition expo_config : value :=
  VDict [("expo", VDict [("sdkVersion", VStr "51.0.0")])].

Definition tools (command : list string)
  : result BuildValidator.completed_process :=
  let line := String.concat " " command in
  if line =? "node --version" then
    Ok (BuildValidator.Completed 0 ("v20.11.0" ++ newline) "")
  else if line =? "npm --version" then
    Ok (BuildValidator.Completed 0 ("10.2.4" ++ newline) "")
  else if line =? "npx expo --version" then
    Ok (BuildValidator.Completed 0 ("0.18.30" ++ newline) "")
  else if line =? "npx expo config --type public" then
    Ok (BuildValidator.Completed 0 (expo_config_text ++ newline) "")
  else if line =? "npx expo install --check" then
    Ok (BuildValidator.Completed 1 ""
          ("Some dependencies are incompatible" ++ newline))
  else Raise (OtherException "FileNotFoundError").

Definition tool_env : BuildValidator.env :=
  BuildValidator.Env
    "2025-01-01T12:00:00"
    (BuildValidator.path_stat env)
    (BuildValidator.load_json env)
    (fun s => if s =? expo_config_text then Ok expo_config
              else Raise JSONDecodeError)
    (fun command _ _ _ => tools command)
    (BuildValidator.chdir_allowed env)
    exn_text.

(** A build directory that holds nothing. *)
Definition empty_env : BuildValidator.env :=
  BuildValidator.Env
    "2025-01-01T12:00:00"
    (stat_in ["/work/builds/empty"])
    (fun _ => Raise OSError)
    (fun _ => Raise JSONDecodeError)
    (fun _ _ _ _ => Raise (OtherException "FileNotFoundError"))
    (fun p => existsb (String.eqb p) ["/work"; "/work/builds/empty"])
    exn_text.

(** An [app.json] with an iOS identifier and [null] for [android]. *)
Definition null_android_app_json : value :=
  VDict [("expo",
          VDict [("ios", VDict [("bundleIdentifier", VStr "com.appfactory.demo")]);
                 ("android", VNone)])].

(** An [app.json] whose iOS identifier is a number. *)
Definition numeric_app_json : value :=
  VDict [("expo",
          VDict [("ios", VDict [("bundleIdentifier", VInt 7)]);
                 ("android", VDict [("package", VStr "com.appfactory.demo")])])].

(** A disk on which every report can be written. *)
Definition report_disk : BuildValidator.report_disk :=
  BuildValidator.ReportDisk (fun _ => true) (fun _ => true) (fun _ => true)
                            (fun _ => None).

End Demo.

Example bundle_id_my_cool_app :
  BundleId.generate_bundle_identifier (UStr.lit "My Cool App!") 50
  = UStr.lit "com.appfactory.my.cool.app".
Proof. reflexivity. Qed.

Example bundle_id_small :
  BundleId.generate_bundle_identifier (UStr.lit "") 10
  = UStr.lit "com.appfactory.".
Proof. reflexivity. Qed.

Example sha256_abc :
  Sha256.hexdigest "abc"
  = "ba7816bf8f01cfea414140de5dae2223b00361a396177a9cb410ff61f20015ad"%string.
Proof. vm_compute. reflexivity. Qed.

Example sha256_empty :
  Sha256.hexdigest ""
  = "e3b0c44298fc1c149afbf4c8996fb92427ae41e4649b934ca495991b7852b855"%string.
Proof. vm_compute. reflexivity. Qed.

Example sha256_two_blocks :
  Sha256.hexdigest "abcdbcdecdefdefgefghfghighijhijkijkljklmklmnlmnomnopnopq"
  = "248d6a61d20638b8e5c026930c3e6039a33ce45964ff2167f6ecedd419db06c1"%string.
Proof. vm_compute. reflexivity. Qed.

(* ===================================================================== *)
(** * Properties of [generate_bundle_identifier] *)
(* ===================================================================== *)

Section BundleIdFacts.
Import UStr BundleId.

Lemma len_app (a b : pystr) : len (a ++ b) = len a + len b.
Proof. unfold len. rewrite length_app. lia. Qed.

Lemma len_base : len base = 14.
Proof. reflexivity. Qed.

Lemma len_slice_to_nonneg (s : pystr) (n : Z) :
  0 <= n -> len (slice_to s n) <= n.
Proof.
  intros Hn. unfold slice_to, len.
  rewrite (proj2 (Z.leb_le 0 n) Hn).
  pose proof (firstn_le_length (Z.to_nat n) s) as Hf.
  lia.
Qed.

(** Whatever the slug and the bound, the identifier starts with the fixed
    root followed by a dot, which is never truncated. *)
Lemma generate_bundle_identifier_prefix (slug : pystr) (m : Z) :
  exists rest, generate_bundle_identifier slug m = base ++ [dot] ++ rest.
Proof.
  unfold generate_bundle_identifier.
  destruct (clean slug) as [|c t];
    match goal with |- context [if ?b then _ else _] => destruct b end;
    eexists; reflexivity.
Qed.

Lemma generate_bundle_identifier_at_least_15 (slug : pystr) (m : Z) :
  15 <= len (generate_bundle_identifier slug m).
Proof.
  destruct (generate_bundle_identifier_prefix slug m) as [rest ->].
  rewrite !len_app, len_base. change (len [dot]) with 1.
  unfold len. lia.
Qed.

End BundleIdFacts.

(** C1, as stated (the length of the result never exceeds [maxLength], for
    every [maxLength]), fails: for the empty slug and [maxLength = 10] the
    result is the 15 characters [com.appfactory.]. *)
Lemma generate_bundle_identifier_length_counterexample :
  BundleId.generate_bundle_identifier (UStr.lit "") 10
    = UStr.lit "com.appfactory."
  /\ ~ (UStr.len (BundleId.generate_bundle_identifier (UStr.lit "") 10) <= 10).
Proof. split; [reflexivity | vm_compute; intros H; apply H; reflexivity]. Qed.

(** C1 (amended): for every slug and every [maxLength] of at least 15 (the
    length of the root [com.appfactory] and its dot, which is never
    truncated), the result of [generate_bundle_identifier] has at most
    [maxLength] characters; [generate_bundle_identifier "My Cool App!" 50]
    is [com.appfactory.my.cool.app] and [generate_bundle_identifier "" 50]
    is [com.appfactory.app]. *)
Theorem generate_bundle_identifier_length
    (slug : UStr.pystr) (max_length : Z) (Hmax : 15 <= max_length) :
  UStr.len (BundleId.generate_bundle_identifier slug max_length) <= max_length
  /\ BundleId.generate_bundle_identifier (UStr.lit "My Cool App!") 50
     = UStr.lit "com.appfactory.my.cool.app"
  /\ BundleId.generate_bundle_identifier (UStr.lit "") 50
     = UStr.lit "com.appfactory.app".
Proof.
  split; [| split; reflexivity].
  unfold BundleId.generate_bundle_identifier.
  set (bundle_id := match BundleId.clean slug with
                    | [] => _ | _ :: _ => _ end).
  destruct (UStr.len bundle_id >? max_length) eqn:Hlong.
  - rewrite !len_app, len_base.
    pose proof (len_slice_to_nonneg (BundleId.clean slug)
                  (max_length - 14 - 1) ltac:(lia)) as Hs.
    change (UStr.len [UStr.dot]) with 1. lia.
  - lia.
Qed.

Lemma generate_bundle_identifier_length_witness :
  UStr.len (BundleId.generate_bundle_identifier
              (UStr.lit "A Really Long Application Name") 20) <= 20.
Proof.
  apply (generate_bundle_identifier_length
           (UStr.lit "A Really Long Application Name") 20).
  lia.
Defined.

(* ===================================================================== *)
(** * Properties of [generate_build_id] *)
(* ===================================================================== *)

Section BuildIdFacts.
Import Py BuildRegistry.
Local Open Scope string_scope.

Lemma hex_digit_is_hex (x : N) :
  Sha256.is_hex_digit (Sha256.hex_digit (N.land x 0xF)) = true.
Proof.
  change 0xF%N with (N.ones 4). rewrite N.land_ones.
  assert (H : (x mod 2 ^ 4 < 16)%N) by (apply N.mod_upper_bound; discriminate).
  destruct (x mod 2 ^ 4)%N as [|p]; [reflexivity|].
  do 4 (destruct p as [p|p|]; try reflexivity); exfalso; lia.
Qed.

(** The text that is hashed: the path, followed by the disambiguator when
    there is one and it is not empty. *)
Lemma hash_input_concat (build_path : string) (additional_data : option string) :
  hash_input build_path additional_data
  = build_path ++ match additional_data with Some d => d | None => "" end.
Proof.
  unfold hash_input, truthy_opt.
  destruct additional_data as [d|]; simpl.
  - destruct (String.eqb_spec d "") as [->|_]; simpl; [|reflexivity].
    clear. induction build_path; simpl; congruence.
  - clear. induction build_path; simpl; congruence.
Qed.

Lemma generate_build_id_shape (build_path : string) (additional_data : option string) :
  String.length (generate_build_id build_path additional_data) = 16%nat
  /\ Sha256.all_hex (generate_build_id build_path additional_data) = true.
Proof.
  unfold generate_build_id, Sha256.hexdigest, Sha256.hex_of_state.
  generalize (Sha256.digest (Sha256.encode (hash_input build_path additional_data))).
  intros st.
  cbn [Sha256.hex_digits append substring String.length Sha256.all_hex].
  rewrite !hex_digit_is_hex. split; reflexivity.
Qed.

End BuildIdFacts.

(** C2, as stated (distinct input pairs get distinct ids, up to hash
    collisions), fails without any hash collision: the two arguments are
    concatenated before hashing, so the distinct pairs [("ab", "c")] and
    [("a", "bc")] hash the same text and get the same id. *)
Lemma generate_build_id_distinct_counterexample :
  ("ab"%string, Some "c"%string) <> ("a"%string, Some "bc"%string)
  /\ BuildRegistry.generate_build_id "ab" (Some "c"%string)
     = BuildRegistry.generate_build_id "a" (Some "bc"%string).
Proof. split; [discriminate | vm_compute; reflexivity]. Qed.

(** C2 (amended): the id is the first 16 hexadecimal characters of the
    SHA-256 of the build path followed by the disambiguator (nothing is
    added when it is absent or empty), so [generate_build_id] is a function
    of that concatenation: two input pairs with the same concatenation get
    the same id, and the id is always 16 characters among [0-9a-f]. *)
Theorem generate_build_id_deterministic
    (build_path build_path' : string) (extra extra' : option string)
    (Hsame : (build_path ++ match extra with Some d => d | None => "" end
              = build_path' ++ match extra' with Some d => d | None => "" end)%string) :
  BuildRegistry.generate_build_id build_path extra
  = substring 0 16
      (Sha256.hexdigest
         (build_path ++ match extra with Some d => d | None => "" end)%string)
  /\ BuildRegistry.generate_build_id build_path extra
     = BuildRegistry.generate_build_id build_path' extra'
  /\ String.length (BuildRegistry.generate_build_id build_path extra) = 16%nat
  /\ Sha256.all_hex (BuildRegistry.generate_build_id build_path extra) = true.
Proof.
  split; [|split; [| apply generate_build_id_shape]].
  - unfold BuildRegistry.generate_build_id.
    rewrite hash_input_concat. reflexivity.
  - unfold BuildRegistry.generate_build_id.
    rewrite !hash_input_concat, Hsame. reflexivity.
Qed.

(** The pairs [("ab", "c")] and [("a", "bc")]: both ids are the first 16
    hexadecimal characters of the SHA-256 of [abc]. *)
Lemma generate_build_id_deterministic_witness :
  BuildRegistry.generate_build_id "ab" (Some "c"%string)
  = substring 0 16 (Sha256.hexdigest "abc")
  /\ substring 0 16 (Sha256.hexdigest "abc") = "ba7816bf8f01cfea"%string
  /\ BuildRegistry.generate_build_id "ab" (Some "c"%string)
     = BuildRegistry.generate_build_id "a" (Some "bc"%string)
  /\ String.length (BuildRegistry.generate_build_id "ab" (Some "c"%string))
     = 16%nat
  /\ Sha256.all_hex (BuildRegistry.generate_build_id "ab" (Some "c"%string))
     = true.
Proof.
  destruct (generate_build_id_deterministic "ab" "a"
              (Some "c"%string) (Some "bc"%string) eq_refl)
    as (Hid & Hsame & Hlen & Hhex).
  split; [exact Hid|]. split; [vm_compute; reflexivity|].
  split; [exact Hsame|]. split; [exact Hlen | exact Hhex].
Defined.

(* ===================================================================== *)
(** * Dicts: lookup, update and sorted keys *)
(* ===================================================================== *)

Section DictFacts.
Import Py.
Local Open Scope string_scope.

Lemma leb_refl (a : string) : String.leb a a = true.
Proof. destruct (String.leb_total a a); assumption. Qed.

Lemma dict_get_set_same k v d : dict_get k (dict_set k v d) = Some v.
Proof.
  induction d as [|[k' v'] t IH]; simpl.
  - now rewrite String.eqb_refl.
  - destruct (String.eqb_spec k' k) as [->|Hne]; simpl.
    + now rewrite String.eqb_refl.
    + apply String.eqb_neq in Hne. now rewrite Hne.
Qed.

Lemma dict_get_set_other k k' v d :
  k' <> k -> dict_get k' (dict_set k v d) = dict_get k' d.
Proof.
  intros Hne. induction d as [|[k0 v0] t IH]; simpl.
  - apply not_eq_sym, String.eqb_neq in Hne. now rewrite Hne.
  - destruct (String.eqb_spec k0 k) as [->|Hk]; simpl.
    + apply not_eq_sym, String.eqb_neq in Hne. now rewrite Hne.
    + now rewrite IH.
Qed.

Lemma dict_get_insert_pair k kv l :
  dict_get k (insert_pair kv l)
  = if fst kv =? k then Some (snd kv) else dict_get k l.
Proof.
  destruct kv as [k1 v1]. simpl.
  induction l as [|[k2 v2] t IH]; simpl; [reflexivity|].
  destruct (String.leb k1 k2) eqn:Hle; simpl; [reflexivity|].
  rewrite IH.
  destruct (String.eqb_spec k1 k) as [->|Hk]; [|reflexivity].
  destruct (String.eqb_spec k2 k) as [->|_]; [|reflexivity].
  now rewrite leb_refl in Hle.
Qed.

(** Sorting the keys does not change what a key is bound to. *)
Lemma dict_get_sort_pairs k l : dict_get k (sort_pairs l) = dict_get k l.
Proof.
  induction l as [|[k1 v1] t IH]; simpl; [reflexivity|].
  rewrite dict_get_insert_pair. simpl. now rewrite IH.
Qed.

Lemma dict_get_map_values (f : value -> value) k l :
  dict_get k (map (fun kv => let '(k0, x) := kv in (k0, f x)) l)
  = option_map f (dict_get k l).
Proof.
  induction l as [|[k1 v1] t IH]; simpl; [reflexivity|].
  destruct (k1 =? k); [reflexivity | assumption].
Qed.

Lemma dict_get_sort_keys k d :
  dict_get k (sort_pairs (map (fun kv => let '(k0, x) := kv in
                                         (k0, sort_keys x)) d))
  = option_map sort_keys (dict_get k d).
Proof. now rewrite dict_get_sort_pairs, dict_get_map_values. Qed.

End DictFacts.

(* ===================================================================== *)
(** * Properties of [register_build] *)
(* ===================================================================== *)

Section RegisterFacts.
Import Py BuildRegistry.
Local Open Scope string_scope.

Lemma sort_keys_dict d :
  sort_keys (VDict d)
  = VDict (sort_pairs (map (fun kv => let '(k0, x) := kv in
                                      (k0, sort_keys x)) d)).
Proof. reflexivity. Qed.

Lemma build_id_of_sort_keys b : build_id_of (sort_keys b) = build_id_of b.
Proof.
  destruct b as [| | | | |d]; try reflexivity.
  rewrite sort_keys_dict. unfold build_id_of.
  rewrite dict_get_sort_keys.
  destruct (dict_get "buildId" d) as [[]|]; reflexivity.
Qed.

Lemma map_build_id_of_sort_keys bs :
  map build_id_of (map sort_keys bs) = map build_id_of bs.
Proof.
  rewrite map_map. apply map_ext. intros b. apply build_id_of_sort_keys.
Qed.

Lemma has_build_id_inv b :
  has_build_id b ->
  exists r id, b = VDict r /\ dict_get "buildId" r = Some (VStr id)
               /\ build_id_of b = Some id.
Proof.
  unfold has_build_id, build_id_of. intros H.
  destruct b as [| | | | |r]; try congruence.
  destruct (dict_get "buildId" r) as [[| | |id| |]|] eqn:E; try congruence.
  now exists r, id.
Qed.

(** The scan finds the first record with the id, when the records carry
    ids. *)
Lemma find_existing_spec bs id (i : nat) :
  Forall has_build_id bs ->
  match find_existing bs id i with
  | Ok None => ~ In (Some id) (map build_id_of bs)
  | Ok (Some k) =>
      exists j : nat, k = (i + j)%nat
                      /\ nth_error (map build_id_of bs) j = Some (Some id)
  | Raise _ => False
  end.
Proof.
  intros Hall. revert i.
  induction Hall as [|b t Hb _ IH]; intros i; simpl; [tauto|].
  destruct (has_build_id_inv b Hb) as (r & s & -> & Hget & Hid).
  cbn [getitem]. rewrite Hget, Hid. cbn [bind eq_str].
  destruct (String.eqb_spec s id) as [->|Hne].
  - exists 0%nat. split; [lia | reflexivity].
  - specialize (IH (S i)).
    destruct (find_existing t id (S i)) as [[k|]|e]; [| |assumption].
    + destruct IH as (j & -> & Hj). exists (S j). split; [lia | exact Hj].
    + intros [Heq|Hin]; [congruence | auto].
Qed.

Lemma length_list_set (i : nat) x l : List.length (list_set i x l) = List.length l.
Proof.
  revert i. induction l as [|y t IH]; intros [|i]; simpl; auto.
Qed.

Lemma nth_error_list_set_same (i : nat) x l :
  (i < List.length l)%nat -> nth_error (list_set i x l) i = Some x.
Proof.
  revert i. induction l as [|y t IH]; intros [|i] Hi; simpl in *.
  - lia.
  - lia.
  - reflexivity.
  - apply IH. lia.
Qed.

Lemma nth_error_list_set_other (i j : nat) x l :
  j <> i -> nth_error (list_set i x l) j = nth_error l j.
Proof.
  revert i j. induction l as [|y t IH]; intros [|i] [|j] Hne; simpl;
    try reflexivity; try congruence.
  apply IH. congruence.
Qed.

Lemma map_list_set_same {B} (f : value -> B) (i : nat) x l :
  nth_error (map f l) i = Some (f x) -> map f (list_set i x l) = map f l.
Proof.
  revert i. induction l as [|y t IH]; intros [|i] H; simpl in *;
    try reflexivity.
  - congruence.
  - f_equal. now apply IH.
Qed.

Lemma Forall_list_set (P : value -> Prop) (i : nat) x l :
  P x -> Forall P l -> Forall P (list_set i x l).
Proof.
  intros Hx Hl. revert i. induction Hl as [|y t Hy Ht IH]; intros [|i]; simpl;
    constructor; auto.
Qed.

Lemma build_id_of_entry id name slug mode build_path status run_id idea_slug
    dream_prompt_hash framework launch_command notes created_at :
  build_id_of (build_entry id name slug mode build_path status run_id idea_slug
                 dream_prompt_hash framework launch_command notes created_at)
  = Some id.
Proof. reflexivity. Qed.

(** What a later [get_builds] returns after a successful save of a registry
    whose builds are [bs]. *)
Lemma get_builds_after_save d bs w :
  dict_get "builds" d = Some (VList bs) ->
  mkdir_ok w = true -> write_ok w = true -> dump_ok w = true ->
  exists w' reg' d',
    save_build_registry (VDict d) w = (Ok (true, reg'), w')
    /\ registry_file w' = Some (Document (VDict d'))
    /\ dict_get "builds" d' = Some (VList (map sort_keys bs))
    /\ get_builds w' = (Ok (VList (map sort_keys bs)), w')
    /\ (mkdir_ok w', write_ok w', dump_ok w') = (true, true, true).
Proof.
  intros Hb Hm Hw Hd. unfold save_build_registry. rewrite Hm.
  cbn [now setitem]. cbn [write_ok dump_ok]. rewrite Hw, Hd.
  assert (Hget : forall stamp,
             dict_get "builds"
               (sort_pairs (map (fun kv => let '(k0, x) := kv in (k0, sort_keys x))
                                (dict_set "updatedAt" (VStr stamp) d)))
             = Some (VList (map sort_keys bs))).
  { intros stamp.
    rewrite dict_get_sort_keys, dict_get_set_other by discriminate.
    rewrite Hb. reflexivity. }
  eexists _, _, _. split; [reflexivity|].
  rewrite sort_keys_dict. split; [reflexivity|]. split; [apply Hget|].
  split; [|cbn; rewrite ?Hm, ?Hw, ?Hd; reflexivity].
  unfold get_builds, load_build_registry, set_file. cbn [registry_file].
  cbn [bind get]. rewrite Hget. reflexivity.
Qed.

End RegisterFacts.

Section RegisterUpsert.
Import Py BuildRegistry.
Local Open Scope string_scope.

Variables (name slug mode build_path status : string).
Variables (run_id idea_slug dream_prompt_hash : option string).
Variables (framework launch_command notes : string).

(** The id and the record a call of [register_build] computes in world
    [w]. *)
Local Abbreviation registered_id :=
  (generate_build_id build_path (or_else dream_prompt_hash run_id)).

Local Abbreviation registered_entry w :=
  (build_entry registered_id name slug mode build_path status run_id idea_slug
               dream_prompt_hash framework launch_command notes
               (clock w (ticks w))).

(** The builds list after the "update or append" step. *)
Lemma update_or_append_builds d bs existing entry :
  dict_get "builds" d = Some (VList bs) ->
  update_or_append (VDict d) existing entry
  = Ok (VDict (dict_set "builds"
                 (VList match existing with
                        | Some i => list_set i entry bs
                        | None => (bs ++ [entry])%list
                        end) d)).
Proof.
  intros Hb. unfold update_or_append. cbn [getitem]. rewrite Hb.
  destruct existing; reflexivity.
Qed.

Lemma register_build_steps (w : world) d bs :
  registry_file w = Some (Document (VDict d)) ->
  dict_get "builds" d = Some (VList bs) ->
  Forall has_build_id bs ->
  exists existing,
    find_existing bs registered_id 0 = Ok existing
    /\ register_build name slug mode build_path status run_id idea_slug
         dream_prompt_hash framework launch_command notes w
       = match save_build_registry
                 (VDict (dict_set "builds"
                    (VList match existing with
                           | Some i => list_set i (registered_entry w) bs
                           | None => (bs ++ [registered_entry w])%list
                           end) d))
                 (snd (now w)) with
         | (Raise e, w3) => (Raise e, w3)
         | (Ok (success, _), w3) => (Ok success, w3)
         end.
Proof.
  intros Hfile Hb Hshape.
  pose proof (find_existing_spec bs registered_id 0 Hshape) as Hfind.
  destruct (find_existing bs registered_id 0) as [existing|e] eqn:E;
    [|contradiction].
  exists existing. split; [reflexivity|].
  unfold register_build, load_build_registry. rewrite Hfile.
  cbn [getitem]. rewrite Hb. cbn [bind iter].
  rewrite E. cbn [now].
  rewrite (update_or_append_builds d bs existing _ Hb).
  reflexivity.
Qed.

(** The effect of one call on a registry whose records carry pairwise
    distinct ids. *)
Lemma register_build_effect (w : world) (d : list (string * value))
    (bs : list value) :
  registry_file w = Some (Document (VDict d)) ->
  dict_get "builds" d = Some (VList bs) ->
  Forall has_build_id bs ->
  NoDup (map build_id_of bs) ->
  exists (ok : bool) (w' : world),
    register_build name slug mode build_path status run_id idea_slug
      dream_prompt_hash framework launch_command notes w = (Ok ok, w')
    /\ ok = mkdir_ok w && write_ok w && dump_ok w
    /\ (exists bs' w'',
          get_builds w' = (Ok (VList bs'), w'')
          /\ Forall has_build_id bs'
          /\ NoDup (map build_id_of bs'))
    /\ (ok = true ->
        exists d' bs',
          registry_file w' = Some (Document (VDict d'))
          /\ dict_get "builds" d' = Some (VList bs')
          /\ get_builds w' = (Ok (VList bs'), w')
          /\ Forall has_build_id bs'
          /\ NoDup (map build_id_of bs')
          /\ In (Some registered_id) (map build_id_of bs')
          /\ (mkdir_ok w', write_ok w', dump_ok w') = (true, true, true)
          /\ (forall i : nat,
                nth_error (map build_id_of bs) i = Some (Some registered_id) ->
                List.length bs' = List.length bs
                /\ nth_error bs' i = Some (sort_keys (registered_entry w))
                /\ forall j : nat, j <> i ->
                     nth_error bs' j = option_map sort_keys (nth_error bs j))
          /\ (~ In (Some registered_id) (map build_id_of bs) ->
              bs' = (map sort_keys bs ++ [sort_keys (registered_entry w)])%list)).
Proof.
  intros Hfile Hbuilds Hshape Huniq.
  destruct (register_build_steps w d bs Hfile Hbuilds Hshape)
    as (existing & Hfind & ->).
  pose proof (find_existing_spec bs registered_id 0 Hshape) as Hspec.
  rewrite Hfind in Hspec.
  set (entry := registered_entry w) in *.
  set (bs1 := match existing with
              | Some i => list_set i entry bs
              | None => (bs ++ [entry])%list
              end).
  assert (Hunchanged : forall w1 : world,
             registry_file w1 = registry_file w ->
             exists bs' w'',
               get_builds w1 = (Ok (VList bs'), w'')
               /\ Forall has_build_id bs' /\ NoDup (map build_id_of bs')).
  { intros w1 H1. exists bs, w1. split; [|split; assumption].
    unfold get_builds, load_build_registry. rewrite H1, Hfile.
    cbn [bind get]. now rewrite Hbuilds. }
  destruct (mkdir_ok w) eqn:Hm;
    [destruct (write_ok w) eqn:Hw; [destruct (dump_ok w) eqn:Hd|]|].
  - (* the save succeeds *)
    destruct (get_builds_after_save (dict_set "builds" (VList bs1) d) bs1
                (snd (now w)) (dict_get_set_same _ _ _) Hm Hw Hd)
      as (w' & reg' & d' & Hsave & Hfile' & Hbuilds' & Hget & Hflags).
    rewrite Hsave. exists true, w'. split; [reflexivity|].
    split; [reflexivity|].
    assert (Hids : map build_id_of bs1
                   = match existing with
                     | Some _ => map build_id_of bs
                     | None => (map build_id_of bs ++ [Some registered_id])%list
                     end).
    { subst bs1. destruct existing as [k|].
      - destruct Hspec as (j & -> & Hj). apply map_list_set_same. exact Hj.
      - now rewrite map_app. }
    assert (Hall : Forall has_build_id (map sort_keys bs1)).
    { apply Forall_map.
      assert (Hent : has_build_id entry) by (unfold has_build_id; discriminate).
      subst bs1. destruct existing as [k|].
      - eapply Forall_impl; [|apply Forall_list_set; eassumption].
        intros b Hb. unfold has_build_id. now rewrite build_id_of_sort_keys.
      - eapply Forall_impl;
          [|apply Forall_app; split;
            [exact Hshape | constructor; [exact Hent|constructor]]].
        intros b Hb. unfold has_build_id. now rewrite build_id_of_sort_keys. }
    assert (Hnodup : NoDup (map build_id_of (map sort_keys bs1))).
    { rewrite map_build_id_of_sort_keys, Hids. destruct existing as [k|];
        [exact Huniq|].
      apply NoDup_app; [exact Huniq | repeat constructor; intros [] |].
      intros a Ha [<-|[]]. exact (Hspec Ha). }
    split; [exists (map sort_keys bs1), w'; auto|].
    intros _. exists d', (map sort_keys bs1).
    split; [exact Hfile'|]. split; [exact Hbuilds'|]. split; [exact Hget|].
    split; [exact Hall|]. split; [exact Hnodup|].
    split.
    { rewrite map_build_id_of_sort_keys, Hids. destruct existing as [k|].
      - destruct Hspec as (j & _ & Hj). eapply nth_error_In. exact Hj.
      - apply in_or_app. right. left. reflexivity. }
    split; [exact Hflags|].
    split.
    + intros i Hi. destruct existing as [k|].
      * destruct Hspec as (j & -> & Hj). simpl in bs1.
        assert (i = j) as ->.
        { apply (proj1 (NoDup_nth_error _) Huniq).
          - apply nth_error_Some. congruence.
          - congruence. }
        assert (Hlt : (j < List.length bs)%nat).
        { rewrite <- (length_map build_id_of). apply nth_error_Some. congruence. }
        subst bs1. rewrite length_map, length_list_set.
        split; [reflexivity|]. split.
        -- rewrite nth_error_map, nth_error_list_set_same by exact Hlt.
           reflexivity.
        -- intros j' Hne.
           rewrite nth_error_map, nth_error_list_set_other by exact Hne.
           reflexivity.
      * exfalso. apply Hspec. eapply nth_error_In. exact Hi.
    + intros Hnot. destruct existing as [k|].
      * exfalso. destruct Hspec as (j & _ & Hj). apply Hnot.
        eapply nth_error_In. exact Hj.
      * subst bs1. now rewrite map_app.
  - (* the text cannot be written: the file is left truncated *)
    unfold save_build_registry. cbn [now snd mkdir_ok]. rewrite Hm.
    cbn [setitem write_ok dump_ok]. rewrite Hw, Hd.
    eexists false, _. split; [reflexivity|]. split; [reflexivity|].
    split; [|discriminate].
    eexists [], _. split; [reflexivity|]. split; constructor.
  - (* the file cannot be opened for writing *)
    unfold save_build_registry. cbn [now snd mkdir_ok]. rewrite Hm.
    cbn [setitem write_ok]. rewrite Hw.
    eexists false, _. split; [reflexivity|]. split; [reflexivity|].
    split; [apply Hunchanged; reflexivity | discriminate].
  - (* the directory cannot be made *)
    unfold save_build_registry. cbn [now snd mkdir_ok]. rewrite Hm.
    eexists false, _. split; [reflexivity|]. split; [reflexivity|].
    split; [apply Hunchanged; reflexivity | discriminate].
Qed.

End RegisterUpsert.

(** C3: on a registry whose records carry pairwise distinct ids,
    [register_build] returns the outcome of the save and never raises, and
    whatever that outcome the builds read back afterwards carry pairwise
    distinct ids.  After a successful save the file is again such a
    registry; if the computed id stood at position [i] the list has the same
    length, holds the new record at [i] and every other record where it was,
    while if the id was absent the new record is appended; and a second
    registration of the same path and disambiguator, whatever its other
    fields, leaves the number of builds as the first one made it.  (Records
    are read back with their keys in the sorted order in which they were
    saved.) *)
Theorem register_build_upsert
    (name slug mode build_path status : string)
    (run_id idea_slug dream_prompt_hash : option string)
    (framework launch_command notes : string)
    (w : BuildRegistry.world) (d : list (string * Py.value))
    (bs : list Py.value)
    (Hfile : BuildRegistry.registry_file w
             = Some (BuildRegistry.Document (Py.VDict d)))
    (Hbuilds : Py.dict_get "builds" d = Some (Py.VList bs))
    (Hshape : Forall BuildRegistry.has_build_id bs)
    (Huniq : NoDup (map BuildRegistry.build_id_of bs)) :
  let id := BuildRegistry.generate_build_id build_path
              (Py.or_else dream_prompt_hash run_id) in
  let entry := BuildRegistry.build_entry id name slug mode build_path status
                 run_id idea_slug dream_prompt_hash framework launch_command
                 notes (BuildRegistry.clock w (BuildRegistry.ticks w)) in
  exists (ok : bool) (w' : BuildRegistry.world),
    BuildRegistry.register_build name slug mode build_path status run_id
      idea_slug dream_prompt_hash framework launch_command notes w
    = (Py.Ok ok, w')
    /\ ok = BuildRegistry.mkdir_ok w && BuildRegistry.write_ok w
            && BuildRegistry.dump_ok w
    /\ (exists bs' w'',
          BuildRegistry.get_builds w' = (Py.Ok (Py.VList bs'), w'')
          /\ Forall BuildRegistry.has_build_id bs'
          /\ NoDup (map BuildRegistry.build_id_of bs'))
    /\ (ok = true ->
        exists bs',
          BuildRegistry.get_builds w' = (Py.Ok (Py.VList bs'), w')
          /\ (forall i : nat,
                nth_error (map BuildRegistry.build_id_of bs) i = Some (Some id) ->
                List.length bs' = List.length bs
                /\ nth_error bs' i = Some (Py.sort_keys entry)
                /\ forall j : nat, j <> i ->
                     nth_error bs' j = option_map Py.sort_keys (nth_error bs j))
          /\ (~ In (Some id) (map BuildRegistry.build_id_of bs) ->
              bs' = (map Py.sort_keys bs ++ [Py.sort_keys entry])%list)
          /\ (forall name2 slug2 mode2 status2 idea_slug2 framework2
                     launch_command2 notes2,
                exists w2 bs2,
                  BuildRegistry.register_build name2 slug2 mode2 build_path
                    status2 run_id idea_slug2 dream_prompt_hash framework2
                    launch_command2 notes2 w' = (Py.Ok true, w2)
                  /\ BuildRegistry.get_builds w2 = (Py.Ok (Py.VList bs2), w2)
                  /\ List.length bs2 = List.length bs')).
Proof.
  intros id entry.
  destruct (register_build_effect name slug mode build_path status run_id
              idea_slug dream_prompt_hash framework launch_command notes
              w d bs Hfile Hbuilds Hshape Huniq)
    as (ok & w' & Hrun & Hok & Hinv & Hsucc).
  exists ok, w'. split; [exact Hrun|]. split; [exact Hok|].
  split; [exact Hinv|]. intros Htrue.
  destruct (Hsucc Htrue)
    as (d' & bs' & Hfile' & Hbuilds' & Hget & Hall & Hnodup & Hin & Hflags
        & Hpos & Happ).
  exists bs'. split; [exact Hget|]. split; [exact Hpos|]. split; [exact Happ|].
  intros name2 slug2 mode2 status2 idea_slug2 framework2 launch_command2 notes2.
  destruct (register_build_effect name2 slug2 mode2 build_path status2 run_id
              idea_slug2 dream_prompt_hash framework2 launch_command2 notes2
              w' d' bs' Hfile' Hbuilds' Hall Hnodup)
    as (ok2 & w2 & Hrun2 & Hok2 & _ & Hsucc2).
  injection Hflags as Hm Hw Hd. rewrite Hm, Hw, Hd in Hok2. simpl in Hok2.
  subst ok2.
  destruct (Hsucc2 eq_refl)
    as (d2 & bs2 & _ & _ & Hget2 & _ & _ & _ & _ & Hpos2 & _).
  exists w2, bs2. split; [exact Hrun2|]. split; [exact Hget2|].
  apply In_nth_error in Hin as [i Hi].
  exact (proj1 (Hpos2 i Hi)).
Qed.

(* ===================================================================== *)
(** * Properties of [save_build_registry] and [load_build_registry] *)
(* ===================================================================== *)

Section SaveLoadFacts.
Import Py BuildRegistry.
Local Open Scope string_scope.

Lemma opt_rel_option_map (f : value -> value) (o : option value) :
  (forall x, o = Some x -> py_eq (f x) x) ->
  opt_rel py_eq (option_map f o) o.
Proof.
  intros H. destruct o as [x|]; simpl; constructor. now apply H.
Qed.

(** A document and the same document with its keys sorted are equal. *)
Lemma py_eq_sort_keys (v : value) : py_eq (sort_keys v) v.
Proof.
  induction v as [| b | z | s | l IHl | d IHd] using value_ind;
    try (simpl; constructor).
  - induction IHl as [|x Hx t _ IHt]; simpl; constructor; assumption.
  - intros k. rewrite dict_get_sort_keys. apply opt_rel_option_map.
    intros x Hk. induction IHd as [|[k1 v1] Hp t _ IHt]; simpl in Hk;
      [discriminate|].
    destruct (k1 =? k).
    + injection Hk as <-. inversion Hp; assumption.
    + now apply IHt.
Qed.

Lemma keys_sorted_from_insert lo kv l :
  String.leb lo (fst kv) = true ->
  keys_sorted_from lo (map fst l) = true ->
  keys_sorted_from lo (map fst (insert_pair kv l)) = true.
Proof.
  destruct kv as [k v]. simpl. revert lo.
  induction l as [|[k2 v2] t IH]; intros lo Hlo Hs; simpl in *.
  - now rewrite Hlo.
  - apply andb_true_iff in Hs as [H1 H2].
    destruct (String.leb k k2) eqn:Hle; simpl.
    + now rewrite Hlo, Hle, H2.
    + rewrite H1. simpl. apply IH; [|assumption].
      destruct (String.leb_total k k2); congruence.
Qed.

Lemma keys_sorted_list_insert kv l :
  keys_sorted_list (map fst l) = true ->
  keys_sorted_list (map fst (insert_pair kv l)) = true.
Proof.
  destruct kv as [k v]. destruct l as [|[k2 v2] t]; simpl; [reflexivity|].
  intros Hs. destruct (String.leb k k2) eqn:Hle; simpl.
  - now rewrite Hle, Hs.
  - apply (keys_sorted_from_insert k2 (k, v) t); [|assumption].
    simpl. destruct (String.leb_total k k2); congruence.
Qed.

Lemma keys_sorted_list_sort_pairs l :
  keys_sorted_list (map fst (sort_pairs l)) = true.
Proof.
  induction l as [|kv t IH]; simpl; [reflexivity|].
  now apply keys_sorted_list_insert.
Qed.

Lemma forallb_insert_pair (p : string * value -> bool) kv l :
  forallb p (insert_pair kv l) = p kv && forallb p l.
Proof.
  induction l as [|kv' t IH]; simpl; [reflexivity|].
  destruct (String.leb (fst kv) (fst kv')); simpl; [reflexivity|].
  rewrite IH. destruct (p kv), (p kv'); reflexivity.
Qed.

Lemma forallb_sort_pairs (p : string * value -> bool) l :
  forallb p (sort_pairs l) = forallb p l.
Proof.
  induction l as [|kv t IH]; simpl; [reflexivity|].
  now rewrite forallb_insert_pair, IH.
Qed.

(** What [json.dump(..., sort_keys=True)] writes has sorted keys at every
    level. *)
Lemma keys_sorted_sort_keys (v : value) : keys_sorted (sort_keys v) = true.
Proof.
  induction v as [| b | z | s | l IHl | d IHd] using value_ind;
    try reflexivity.
  - simpl. induction IHl as [|x Hx t _ IHt]; simpl; [reflexivity|].
    now rewrite Hx, IHt.
  - rewrite sort_keys_dict. cbn [keys_sorted].
    rewrite keys_sorted_list_sort_pairs, forallb_sort_pairs. simpl.
    induction IHd as [|[k1 v1] Hp t _ IHt]; simpl; [reflexivity|].
    inversion Hp; subst. now rewrite H2, IHt.
Qed.

End SaveLoadFacts.

(** C9: [save_build_registry] never raises on a registry dict: it returns
    [False] when the directory cannot be made, the file cannot be opened or
    the text cannot be written (in the first two cases the file is left as
    it was), and otherwise stamps [updatedAt] with the current time and
    writes the document with sorted keys at every level; a
    [load_build_registry] that follows returns a document equal to the
    stamped one, so equal to the one passed in at every key but
    [updatedAt]. *)
Theorem save_load_round_trip
    (w : BuildRegistry.world) (d : list (string * Py.value)) :
  exists (ok : bool) (reg' : Py.value) (w' : BuildRegistry.world),
    BuildRegistry.save_build_registry (Py.VDict d) w = (Py.Ok (ok, reg'), w')
    /\ ok = BuildRegistry.mkdir_ok w && BuildRegistry.write_ok w
            && BuildRegistry.dump_ok w
    /\ (BuildRegistry.mkdir_ok w && BuildRegistry.write_ok w = false ->
        BuildRegistry.registry_file w' = BuildRegistry.registry_file w)
    /\ (ok = true ->
        exists (stamp : string) (dl : list (string * Py.value)),
          stamp = BuildRegistry.clock w (BuildRegistry.ticks w)
          /\ reg' = Py.VDict (Py.dict_set "updatedAt" (Py.VStr stamp) d)
          /\ BuildRegistry.registry_file w'
             = Some (BuildRegistry.Document (Py.VDict dl))
          /\ Py.keys_sorted (Py.VDict dl) = true
          /\ BuildRegistry.load_build_registry w' = (Py.Ok (Py.VDict dl), w')
          /\ Py.py_eq (Py.VDict dl) reg'
          /\ Py.dict_get "updatedAt" dl = Some (Py.VStr stamp)
          /\ forall k : string, k <> "updatedAt"%string ->
               Py.opt_rel Py.py_eq (Py.dict_get k dl) (Py.dict_get k d)).
Proof.
  unfold BuildRegistry.save_build_registry.
  destruct (BuildRegistry.mkdir_ok w) eqn:Hm.
  - cbn [BuildRegistry.now Py.setitem BuildRegistry.write_ok
         BuildRegistry.dump_ok].
    destruct (BuildRegistry.write_ok w) eqn:Hw;
      [destruct (BuildRegistry.dump_ok w) eqn:Hd|].
    + eexists true, _, _. split; [reflexivity|]. split; [reflexivity|].
      split; [discriminate|]. intros _.
      eexists _, _. split; [reflexivity|]. split; [reflexivity|].
      rewrite sort_keys_dict. split; [reflexivity|].
      split; [rewrite <- sort_keys_dict; apply keys_sorted_sort_keys|].
      split; [reflexivity|].
      split; [rewrite <- sort_keys_dict; apply py_eq_sort_keys|].
      split.
      * rewrite dict_get_sort_keys, dict_get_set_same. reflexivity.
      * intros k Hk. rewrite dict_get_sort_keys, dict_get_set_other by exact Hk.
        apply opt_rel_option_map. intros x _. apply py_eq_sort_keys.
    + eexists false, _, _. split; [reflexivity|]. split; [reflexivity|].
      split; discriminate.
    + eexists false, _, _. split; [reflexivity|]. split; [reflexivity|].
      split; [reflexivity | discriminate].
  - eexists false, _, _. split; [reflexivity|]. split; [reflexivity|].
    split; [reflexivity | discriminate].
Qed.

(* ===================================================================== *)
(** * Properties of [validate_build_registry] *)
(* ===================================================================== *)

Section ValidateRegistryFacts.
Import Py BuildRegistry.
Local Open Scope string_scope.

Lemma prefix_append (a b : string) : prefix a (a ++ b) = true.
Proof.
  induction a as [|c a IH]; simpl.
  - destruct b; reflexivity.
  - destruct (ascii_dec c c) as [_|Hne]; [exact IH | now elim Hne].
Qed.

Lemma append_assoc (a b c : string) : (a ++ b) ++ c = a ++ (b ++ c).
Proof. induction a as [|x a IH]; simpl; congruence. Qed.

Lemma dream_message_text (i : nat) :
  dream_message i
  = "Build " ++ str_of_nat i ++ ": dream mode build missing dreamPromptHash".
Proof. unfold dream_message, build_prefix. now rewrite !append_assoc. Qed.

Lemma pipeline_message_text (i : nat) :
  pipeline_message i
  = "Build " ++ str_of_nat i ++ ": pipeline mode build missing runId".
Proof. unfold pipeline_message, build_prefix. now rewrite !append_assoc. Qed.

Lemma missing_fields_dict describe fields r :
  missing_fields describe fields (VDict r)
  = Ok (map describe (filter (fun f => negb (dict_has f r)) fields)).
Proof.
  induction fields as [|f t IH]; [reflexivity|].
  cbn [missing_fields contains bind filter]. rewrite IH. cbn [bind].
  destruct (dict_has f r); reflexivity.
Qed.

Lemma filter_missing_nil (p : string -> bool) l :
  forallb p l = true -> filter (fun f => negb (p f)) l = [].
Proof.
  induction l as [|f t IH]; simpl; [reflexivity|].
  intros H. apply andb_true_iff in H as [Hf Ht]. rewrite Hf. simpl. auto.
Qed.

Lemma Forall_prefix_map (pre : string) (rest : string -> string) l :
  Forall (fun m => prefix pre m = true) (map (fun f => pre ++ rest f) l).
Proof.
  apply Forall_map, Forall_forall. intros f _. apply prefix_append.
Qed.

End ValidateRegistryFacts.

Section CheckBuildFacts.
Import Py BuildRegistry.
Local Open Scope string_scope.

Lemma eq_str_two (m : value) (a b : string) :
  a <> b -> eq_str m a = true -> eq_str m b = false.
Proof.
  destruct m as [| | |s| |]; simpl; try discriminate.
  intros Hne Ha. apply String.eqb_eq in Ha as ->. now apply String.eqb_neq.
Qed.

(** The errors of one record: the loop body never raises on a record, its
    messages all carry the index of the record, and they contain the dream
    and the pipeline message when those apply. *)
Lemma check_build_record (i : nat) (b : value) :
  is_record b = true ->
  exists g,
    check_build i b = Ok g
    /\ Forall (fun m => prefix (build_prefix i) m = true) g
    /\ (origin_lacks "dream" "dreamPromptHash" b = true -> In (dream_message i) g)
    /\ (origin_lacks "pipeline" "runId" b = true -> In (pipeline_message i) g)
    /\ (record_ok b = true -> g = []).
Proof.
  intros Hrec. destruct b as [| | | | |r]; try discriminate.
  unfold check_build. rewrite missing_fields_dict.
  cbn [bind contains].
  unfold is_record in Hrec. unfold record_ok, origin_lacks.
  set (e1 := map _ (filter _ required_fields)).
  assert (He1 : Forall (fun m => prefix (build_prefix i) m = true) e1)
    by apply Forall_prefix_map.
  assert (Hok1 : forallb (fun f => dict_has f r) required_fields = true -> e1 = []).
  { intros H. subst e1. now rewrite filter_missing_nil. }
  clearbody e1. unfold dict_has in *.
  destruct (dict_get "origin" r) as [o|] eqn:Ho.
  2:{ exists e1. repeat split; try discriminate; [assumption|].
      intros H. rewrite !andb_true_iff in H. destruct H as [[[_ H2] _] _].
      discriminate. }
  destruct o as [| | | | |o]; try discriminate.
  cbn [getitem bind]. rewrite Ho. cbn [bind]. rewrite missing_fields_dict.
  cbn [bind get].
  set (e2 := map _ (filter _ origin_required)).
  assert (He2 : Forall (fun m => prefix (build_prefix i) m = true) e2)
    by apply Forall_prefix_map.
  assert (Hok2 : match dict_get "mode" o with
                 | Some _ => true
                 | None => false
                 end = true -> e2 = []).
  { intros H. subst e2. unfold origin_required, dict_has. simpl.
    now rewrite H. }
  clearbody e2.
  assert (Hmsg1 : prefix (build_prefix i) (dream_message i) = true)
    by apply prefix_append.
  assert (Hmsg2 : prefix (build_prefix i) (pipeline_message i) = true)
    by apply prefix_append.
  fold (dream_message i). fold (pipeline_message i).
  assert (Hclean : forall X Y Z : bool,
             forallb (fun field => match dict_get field r with
                                   | Some _ => true
                                   | None => false
                                   end) required_fields
             && X && Y && Z = true ->
             match dict_get "mode" o with
             | Some _ => true
             | None => false
             end = X ->
             (e1 ++ e2)%list = []).
  { intros X Y Z H HX. rewrite !andb_true_iff in H.
    destruct H as [[[H1 H2] _] _]. rewrite <- HX in H2.
    rewrite Hok1, Hok2 by assumption. reflexivity. }
  assert (Hbad : forall (X Y Z W : bool) (g : list string),
             X && Y && Z && W = true -> Z && W = false -> g = []).
  { intros X Y Z W g H HZ. rewrite <- !andb_assoc in H.
    rewrite HZ, !andb_false_r in H. discriminate. }
  destruct (dict_get "mode" o) as [m|] eqn:Hm; cbn [bind].
  - destruct (eq_str m "dream") eqn:Hd; cbn [bind].
    + rewrite (eq_str_two m "dream" "pipeline") by (discriminate || assumption).
      destruct (dict_get "dreamPromptHash" o) as [h|]; cbn [bind truthy negb];
        [destruct (truthy h); cbn [negb bind]|].
      * exists (e1 ++ e2)%list. split; [reflexivity|].
        split; [apply Forall_app; auto|]. split; [discriminate|].
        split; [discriminate|]. intros H. eapply Hclean; [exact H|reflexivity].
      * exists (e1 ++ e2 ++ [dream_message i])%list. split; [reflexivity|].
        split; [repeat (apply Forall_app; split); auto|].
        split; [intros _; rewrite !in_app_iff; simpl; auto|].
        split; [discriminate|]. intros H. eapply Hbad; [exact H|reflexivity].
      * exists (e1 ++ e2 ++ [dream_message i])%list. split; [reflexivity|].
        split; [repeat (apply Forall_app; split); auto|].
        split; [intros _; rewrite !in_app_iff; simpl; auto|].
        split; [discriminate|]. intros H. eapply Hbad; [exact H|reflexivity].
    + destruct (eq_str m "pipeline") eqn:Hp; cbn [bind].
      * destruct (dict_get "runId" o) as [h|]; cbn [bind truthy negb];
          [destruct (truthy h); cbn [negb bind]|].
        -- exists (e1 ++ e2)%list. split; [reflexivity|].
           split; [apply Forall_app; auto|]. split; [discriminate|].
           split; [discriminate|]. intros H.
           eapply Hclean; [exact H|reflexivity].
        -- exists (e1 ++ e2 ++ [pipeline_message i])%list. split; [reflexivity|].
           split; [repeat (apply Forall_app; split); auto|].
           split; [discriminate|].
           split; [intros _; rewrite !in_app_iff; simpl; auto|].
           intros H. eapply Hbad; [exact H|reflexivity].
        -- exists (e1 ++ e2 ++ [pipeline_message i])%list. split; [reflexivity|].
           split; [repeat (apply Forall_app; split); auto|].
           split; [discriminate|].
           split; [intros _; rewrite !in_app_iff; simpl; auto|].
           intros H. eapply Hbad; [exact H|reflexivity].
      * exists (e1 ++ e2)%list. split; [reflexivity|].
        split; [apply Forall_app; auto|]. split; [discriminate|].
        split; [discriminate|]. intros H. eapply Hclean; [exact H|reflexivity].
  - cbn [eq_str bind]. exists (e1 ++ e2)%list. split; [reflexivity|].
    split; [apply Forall_app; auto|]. split; [discriminate|].
    split; [discriminate|]. intros H.
    rewrite !andb_true_iff in H. destruct H as [[[_ H2] _] _]. discriminate.
Qed.

End CheckBuildFacts.

Section ValidateRegistry.
Import Py BuildRegistry.
Local Open Scope string_scope.

Lemma check_builds_records (bs : list value) :
  forallb is_record bs = true ->
  forall i : nat,
  exists groups : list (list string),
    check_builds i bs = Ok (List.concat groups)
    /\ List.length groups = List.length bs
    /\ (forall (j : nat) g, nth_error groups j = Some g ->
          Forall (fun m => prefix (build_prefix (i + j)) m = true) g)
    /\ (forall (j : nat) b, nth_error bs j = Some b ->
          origin_lacks "dream" "dreamPromptHash" b = true ->
          In (dream_message (i + j)) (List.concat groups))
    /\ (forall (j : nat) b, nth_error bs j = Some b ->
          origin_lacks "pipeline" "runId" b = true ->
          In (pipeline_message (i + j)) (List.concat groups))
    /\ (forallb record_ok bs = true -> List.concat groups = []).
Proof.
  induction bs as [|b t IH]; intros Hrec i.
  - exists []. simpl. repeat split; try reflexivity;
      intros [|j] ? H; discriminate H.
  - simpl in Hrec. apply andb_true_iff in Hrec as [Hb Ht].
    destruct (check_build_record i b Hb) as (g & Hg & Hpre & Hdream & Hpipe & Hok).
    destruct (IH Ht (S i)) as (gs & Hgs & Hlen & Hpres & Hdreams & Hpipes & Hoks).
    exists (g :: gs). cbn [check_builds]. rewrite Hg, Hgs. cbn [bind List.concat].
    split; [reflexivity|]. split; [simpl; congruence|].
    split; [|split; [|split]].
    + intros [|j] g' H; simpl in H.
      * injection H as <-. now rewrite Nat.add_0_r.
      * rewrite Nat.add_succ_r. now apply Hpres.
    + intros [|j] b' H Hl; simpl in H; apply in_or_app.
      * injection H as <-. left. rewrite Nat.add_0_r. auto.
      * right. rewrite Nat.add_succ_r. eapply Hdreams; eassumption.
    + intros [|j] b' H Hl; simpl in H; apply in_or_app.
      * injection H as <-. left. rewrite Nat.add_0_r. auto.
      * right. rewrite Nat.add_succ_r. eapply Hpipes; eassumption.
    + intros H. simpl in H. apply andb_true_iff in H as [H1 H2].
      now rewrite Hok, Hoks.
Qed.

(** C6: on a registry file whose builds are records, [validate_build_registry]
    returns a list of errors, made of one group per record in the order of
    the records, every message of a group starting with [Build i: ] for the
    index [i] of its record; a record of mode [dream] that lacks
    [dreamPromptHash] makes the list contain (so be non-empty)
    [Build i: dream mode build missing dreamPromptHash], a record of mode
    [pipeline] that lacks [runId] makes it contain
    [Build i: pipeline mode build missing runId], and the list is empty when
    no record has a structural violation. *)
Theorem validate_build_registry_origin (w : world)
    (d : list (string * value)) (bs : list value)
    (Hfile : registry_file w = Some (Document (VDict d)))
    (Hbuilds : dict_get "builds" d = Some (VList bs))
    (Hrecords : forallb is_record bs = true) :
  exists (errors : list string) (groups : list (list string)),
    validate_build_registry w = (Ok errors, w)
    /\ errors = List.concat groups
    /\ List.length groups = List.length bs
    /\ (forall (i : nat) g, nth_error groups i = Some g ->
          Forall (fun m => prefix (build_prefix i) m = true) g)
    /\ (forall (i : nat) b, nth_error bs i = Some b ->
          origin_lacks "dream" "dreamPromptHash" b = true ->
          errors <> []
          /\ In ("Build " ++ str_of_nat i
                 ++ ": dream mode build missing dreamPromptHash") errors)
    /\ (forall (i : nat) b, nth_error bs i = Some b ->
          origin_lacks "pipeline" "runId" b = true ->
          errors <> []
          /\ In ("Build " ++ str_of_nat i
                 ++ ": pipeline mode build missing runId") errors)
    /\ (forallb record_ok bs = true -> errors = []).
Proof.
  destruct (check_builds_records bs Hrecords 0)
    as (groups & Hrun & Hlen & Hpre & Hdream & Hpipe & Hok).
  exists (List.concat groups), groups.
  split.
  { unfold validate_build_registry, load_build_registry. rewrite Hfile.
    cbn [contains]. unfold dict_has. rewrite Hbuilds.
    cbn [bind getitem]. rewrite Hbuilds. cbn [bind iter]. now rewrite Hrun. }
  split; [reflexivity|]. split; [exact Hlen|].
  split; [exact Hpre|]. split; [|split; [|exact Hok]].
  - intros i b Hb Hl. specialize (Hdream i b Hb Hl). simpl in Hdream.
    rewrite dream_message_text in Hdream.
    split; [|exact Hdream]. intros E. rewrite E in Hdream. contradiction.
  - intros i b Hb Hl. specialize (Hpipe i b Hb Hl). simpl in Hpipe.
    rewrite pipeline_message_text in Hpipe.
    split; [|exact Hpipe]. intros E. rewrite E in Hpipe. contradiction.
Qed.

End ValidateRegistry.

(* ===================================================================== *)
(** * Properties of [run_command] *)
(* ===================================================================== *)

Section RunCommandFacts.
Import Py BuildValidator.
Local Open Scope string_scope.

Lemma run_command_ok e process_cwd command cwd timeout :
  exists r, run_command e process_cwd command cwd timeout = Ok r.
Proof.
  unfold run_command, try_except.
  destruct (subprocess_run e command cwd timeout process_cwd) as [p|ex];
    cbn [bind]; [eexists; reflexivity|].
  destruct (is_TimeoutExpired ex); eexists; reflexivity.
Qed.

Lemma run_command_fails e process_cwd command cwd timeout :
  all_commands_fail e ->
  exists r, run_command e process_cwd command cwd timeout = Ok r
            /\ success r = false
            /\ BuildValidator.command r = String.concat " " command.
Proof.
  intros Hfail. specialize (Hfail command cwd timeout process_cwd).
  unfold run_command, try_except.
  destruct (subprocess_run e command cwd timeout process_cwd) as [p|ex];
    cbn [bind].
  - eexists. split; [reflexivity|]. split; [|reflexivity].
    cbn [success]. now apply Z.eqb_neq.
  - destruct (is_TimeoutExpired ex); eexists; repeat split; reflexivity.
Qed.

Lemma get_node_version_ok e cwd : exists v, get_node_version e cwd = Ok v.
Proof.
  unfold get_node_version.
  destruct (run_command_ok e cwd ["node"; "--version"] None default_timeout)
    as [r ->].
  eexists; reflexivity.
Qed.

Lemma get_npm_version_ok e cwd : exists v, get_npm_version e cwd = Ok v.
Proof.
  unfold get_npm_version.
  destruct (run_command_ok e cwd ["npm"; "--version"] None default_timeout)
    as [r ->].
  eexists; reflexivity.
Qed.

End RunCommandFacts.

(** C7: [run_command] always returns a result and never raises: when
    [subprocess.run] returns, the result carries the exit code and the
    stripped output, and [success] holds exactly when the exit code is 0;
    when it times out the result is the synthetic failure with return code
    -1 and the message [Command timed out after <timeout>s]; on any other
    exception it is the synthetic failure carrying the text of the
    exception; the default timeout is 30 seconds. *)
Theorem run_command_total (e : BuildValidator.env) (process_cwd : string)
    (command : list string) (cwd : option string) (timeout : Z) :
  exists r : BuildValidator.command_result,
    BuildValidator.run_command e process_cwd command cwd timeout = Py.Ok r
    /\ BuildValidator.command r = String.concat " " command
    /\ match BuildValidator.subprocess_run e command cwd timeout process_cwd with
       | Py.Ok p =>
           BuildValidator.returncode r = BuildValidator.cp_returncode p
           /\ BuildValidator.success r = (BuildValidator.cp_returncode p =? 0)
           /\ BuildValidator.stdout r = UStr.strip_ws (BuildValidator.cp_stdout p)
           /\ BuildValidator.stderr r = UStr.strip_ws (BuildValidator.cp_stderr p)
       | Py.Raise ex =>
           BuildValidator.success r = false
           /\ BuildValidator.returncode r = -1
           /\ BuildValidator.stdout r = ""%string
           /\ BuildValidator.stderr r
              = if Py.is_TimeoutExpired ex
                then ("Command timed out after " ++ Py.str_of_Z timeout ++ "s")%string
                else BuildValidator.exn_text e ex
       end
    /\ BuildValidator.default_timeout = 30
    /\ Py.str_of_Z BuildValidator.default_timeout = "30"%string.
Proof.
  unfold BuildValidator.run_command, Py.try_except.
  destruct (BuildValidator.subprocess_run e command cwd timeout process_cwd)
    as [p|ex]; cbn [Py.bind].
  - eexists. split; [reflexivity|]. repeat split; reflexivity.
  - destruct (Py.is_TimeoutExpired ex); eexists;
      (split; [reflexivity|]); repeat split; reflexivity.
Qed.

(* ===================================================================== *)
(** * Properties of [validate_expo_build] *)
(* ===================================================================== *)

Section ValidateFacts.
Import Py BuildValidator.
Local Open Scope string_scope.
Local Open Scope py_scope.

Lemma chdir_absolute e from target :
  is_absolute target = true ->
  chdir e from target = if chdir_allowed e target then Ok target else Raise OSError.
Proof. intros H. unfold chdir, resolve. now rewrite H. Qed.

(** The function up to the point where the commands have run, when the
    build path exists: the report, the working directory and the exception
    of the command phase. *)
Lemma validate_expo_build_stages e build_path cwd :
  path_exists e build_path = Ok true ->
  exists node npm,
    get_node_version e cwd = Ok node
    /\ get_npm_version e cwd = Ok npm
    /\ validate_expo_build e build_path cwd
       = match (r <- check_package_json e build_path
                       (initial_report (clock e) build_path node npm) ;;
                r <- check_app_json e build_path r ;;
                check_entry_point e build_path r) with
         | Raise ex => (Raise ex, cwd)
         | Ok r =>
             let '(r, cwd1, raised) := run_expo_commands e build_path r cwd in
             let r := match raised with
                      | Some ex => add_error ("Error during command execution: "
                                              ++ exn_text e ex) r
                      | None => r
                      end in
             match chdir e cwd1 cwd with
             | Raise ex => (Raise ex, cwd1)
             | Ok cwd2 => (Ok r, cwd2)
             end
         end.
Proof.
  intros Hex.
  destruct (get_node_version_ok e cwd) as [node Hnode].
  destruct (get_npm_version_ok e cwd) as [npm Hnpm].
  exists node, npm. split; [exact Hnode|]. split; [exact Hnpm|].
  unfold validate_expo_build. rewrite Hnode, Hnpm. cbn [bind].
  rewrite Hex. reflexivity.
Qed.

Lemma validate_expo_build_missing e build_path cwd :
  path_exists e build_path = Ok false ->
  exists node npm,
    get_node_version e cwd = Ok node
    /\ get_npm_version e cwd = Ok npm
    /\ validate_expo_build e build_path cwd
       = (Ok (add_error ("Build path does not exist: " ++ build_path)
                (initial_report (clock e) build_path node npm)), cwd).
Proof.
  intros Hmissing.
  destruct (get_node_version_ok e cwd) as [node Hnode].
  destruct (get_npm_version_ok e cwd) as [npm Hnpm].
  exists node, npm. split; [exact Hnode|]. split; [exact Hnpm|].
  unfold validate_expo_build. rewrite Hnode, Hnpm.
  cbn [bind]. rewrite Hmissing. reflexivity.
Qed.

(** The existence test of the build path stands outside any [try]: what it
    raises leaves the function, before the working directory is touched. *)
Lemma validate_expo_build_probe_raises e build_path cwd ex :
  path_exists e build_path = Raise ex ->
  validate_expo_build e build_path cwd = (Raise ex, cwd).
Proof.
  intros Hraise.
  destruct (get_node_version_ok e cwd) as [node Hnode].
  destruct (get_npm_version_ok e cwd) as [npm Hnpm].
  unfold validate_expo_build. rewrite Hnode, Hnpm.
  cbn [bind]. rewrite Hraise. reflexivity.
Qed.

(** What a run on an existing build path is made of. *)
Lemma validate_expo_build_inv e build_path cwd cwd' (r : report) :
  path_exists e build_path = Ok true ->
  validate_expo_build e build_path cwd = (Ok r, cwd') ->
  exists node npm r1 r2 r3 r4 cwd1 raised,
    check_package_json e build_path
      (initial_report (clock e) build_path node npm) = Ok r1
    /\ check_app_json e build_path r1 = Ok r2
    /\ check_entry_point e build_path r2 = Ok r3
    /\ run_expo_commands e build_path r3 cwd = (r4, cwd1, raised)
    /\ r = match raised with
           | Some ex => add_error ("Error during command execution: "
                                   ++ exn_text e ex) r4
           | None => r4
           end
    /\ chdir e cwd1 cwd = Ok cwd'.
Proof.
  intros Hex Hrun.
  destruct (validate_expo_build_stages e build_path cwd Hex)
    as (node & npm & _ & _ & Hv).
  rewrite Hv in Hrun. clear Hv.
  exists node, npm.
  destruct (check_package_json e build_path _) as [r1|ex1] eqn:H1;
    cbn [bind] in Hrun; [|discriminate].
  destruct (check_app_json e build_path r1) as [r2|ex2] eqn:H2;
    cbn [bind] in Hrun; [|discriminate].
  destruct (check_entry_point e build_path r2) as [r3|ex3] eqn:H3;
    [|discriminate].
  cbv zeta in Hrun.
  destruct (run_expo_commands e build_path r3 cwd) as [[r4 cwd1] raised] eqn:Hc.
  exists r1, r2, r3, r4, cwd1, raised.
  do 4 (split; [first [assumption | reflexivity]|]).
  destruct (chdir e cwd1 cwd) as [c|ex]; [|discriminate].
  injection Hrun as <- <-. split; reflexivity.
Qed.

(** Wherever the call ends, the working directory is the starting one,
    unless the restore itself failed. *)
Lemma validate_expo_build_cwd e build_path cwd out cwd' :
  is_absolute cwd = true ->
  validate_expo_build e build_path cwd = (out, cwd') ->
  cwd' = cwd \/ (chdir_allowed e cwd = false /\ out = Raise OSError).
Proof.
  intros Habs Hrun.
  destruct (path_exists e build_path) as [[|]|ex] eqn:Hex.
  - destruct (validate_expo_build_stages e build_path cwd Hex)
      as (node & npm & _ & _ & Hv).
    rewrite Hv in Hrun. clear Hv.
    destruct (check_package_json e build_path _) as [r1|ex1];
      cbn [bind] in Hrun; [|left; congruence].
    destruct (check_app_json e build_path r1) as [r2|ex2];
      cbn [bind] in Hrun; [|left; congruence].
    destruct (check_entry_point e build_path r2) as [r3|ex3];
      [|left; congruence].
    cbv zeta in Hrun.
    destruct (run_expo_commands e build_path r3 cwd) as [[r4 cwd1] raised].
    rewrite (chdir_absolute e cwd1 cwd Habs) in Hrun.
    destruct (chdir_allowed e cwd);
      [left; congruence | right; split; [reflexivity | congruence]].
  - destruct (validate_expo_build_missing e build_path cwd Hex)
      as (node & npm & _ & _ & Hv).
    left. congruence.
  - rewrite (validate_expo_build_probe_raises e build_path cwd ex Hex) in Hrun.
    left. congruence.
Qed.

End ValidateFacts.



(* ===================================================================== *)
(** * The stages of [validate_expo_build] *)
(* ===================================================================== *)

Section StageFacts.
Import Py BuildValidator.
Local Open Scope string_scope.

Variable e : env.
Variable build_path : string.

Lemma dict_get_is_str deps k x :
  forallb (fun kv : string * value => is_str (snd kv)) deps = true ->
  dict_get k deps = Some x -> is_str x = true.
Proof.
  induction deps as [|[k1 v1] t IH]; simpl; [discriminate|].
  intros H Hk. apply andb_true_iff in H as [H1 H2].
  destruct (k1 =? k); [congruence | auto].
Qed.

Lemma version_issue_str deps module :
  forallb (fun kv : string * value => is_str (snd kv)) deps = true ->
  exists o, version_issue (VDict deps) module = Ok o.
Proof.
  intros Hstr. unfold version_issue. cbn [Py.get].
  assert (Hv : exists s, match dict_get module deps with
                         | Some x => Ok x
                         | None => Ok (VStr "")
                         end = Ok (VStr s)).
  { destruct (dict_get module deps) as [x|] eqn:Hx; [|now exists ""].
    apply (dict_get_is_str _ _ _ Hstr) in Hx.
    destruct x; try discriminate. eexists; reflexivity. }
  destruct Hv as [s ->]. cbn [bind startswith contains].
  destruct (truthy (VStr s)); [|eexists; reflexivity].
  destruct (negb (prefix "^" s)); [|eexists; reflexivity].
  destruct (is_substring "~" s); eexists; reflexivity.
Qed.

Lemma scan_versions_str deps modules :
  forallb (fun kv : string * value => is_str (snd kv)) deps = true ->
  snd (scan_versions (VDict deps) modules) = None.
Proof.
  intros Hstr. induction modules as [|m t IH]; [reflexivity|].
  cbn [scan_versions].
  destruct (version_issue_str deps m Hstr) as [o ->].
  destruct (scan_versions (VDict deps) t) as [more raised]. exact IH.
Qed.

(** The three blocks when their existence test answers. *)
Lemma check_package_json_present (r : report) :
  path_exists e (joinpath build_path "package.json") = Ok true ->
  check_package_json e build_path r
  = Ok (read_package_json e (joinpath build_path "package.json") r).
Proof. intros H. unfold check_package_json. rewrite H. reflexivity. Qed.

Lemma check_package_json_absent (r : report) :
  path_exists e (joinpath build_path "package.json") = Ok false ->
  check_package_json e build_path r = Ok (add_error "package.json not found" r).
Proof. intros H. unfold check_package_json. rewrite H. reflexivity. Qed.

Lemma check_app_json_present (r : report) :
  path_exists e (joinpath build_path "app.json") = Ok true ->
  check_app_json e build_path r
  = Ok (read_app_json e (joinpath build_path "app.json") r).
Proof. intros H. unfold check_app_json. rewrite H. reflexivity. Qed.

Lemma check_app_json_absent (r : report) :
  path_exists e (joinpath build_path "app.json") = Ok false ->
  check_app_json e build_path r = Ok (add_error "app.json not found" r).
Proof. intros H. unfold check_app_json. rewrite H. reflexivity. Qed.

Lemma check_entry_point_present (r : report) :
  has_entry_point e build_path = Ok true ->
  check_entry_point e build_path r = Ok (set_hasMandatoryFiles true r).
Proof. intros H. unfold check_entry_point. rewrite H. reflexivity. Qed.

Lemma check_entry_point_absent (r : report) :
  has_entry_point e build_path = Ok false ->
  check_entry_point e build_path r
  = Ok (add_error
          "No valid entry point found (App.js, App.tsx, or app/_layout.tsx)"
          (set_hasMandatoryFiles false r)).
Proof. intros H. unfold check_entry_point. rewrite H. reflexivity. Qed.

(** A well-formed [package.json] adds no error and no warning. *)
Lemma check_package_json_well_formed (r : report) package_data :
  load_json e (joinpath build_path "package.json") = Ok package_data ->
  well_formed_package package_data = true ->
  let r' := read_package_json e (joinpath build_path "package.json") r in
  errors r' = errors r /\ warnings r' = warnings r /\ commands r' = commands r
  /\ packageJsonExists (validation r') = true.
Proof.
  intros Hload Hwf. unfold read_package_json. rewrite Hload.
  cbn [bind]. unfold well_formed_package in Hwf.
  destruct package_data as [| | | | |p]; try discriminate.
  cbn [Py.get].
  destruct (dict_get "dependencies" p) as [[| | | | |deps]|]; try discriminate;
    cbn [bind keys].
  - pose proof (scan_versions_str deps (filter (prefix "expo-") (map fst deps)) Hwf)
      as Hscan.
    destruct (scan_versions (VDict deps) _) as [found raised].
    simpl in Hscan. subst raised. repeat split; reflexivity.
  - repeat split; reflexivity.
Qed.

(** The effect of checking one identifier. *)
Lemma check_identifier_truthy ident set_flag warning missing r :
  truthy ident = true ->
  exists r1 raised,
    check_identifier ident set_flag warning missing r = (r1, raised)
    /\ errors r1 = errors (set_flag true r)
    /\ validation r1 = validation (set_flag true r)
    /\ (forall s, ident = VStr s ->
          raised = None
          /\ warnings r1
             = (warnings (set_flag true r)
                ++ if prefix "com.appfactory." s then [] else [warning s])%list).
Proof.
  intros Ht. unfold check_identifier. rewrite Ht.
  destruct ident as [| | |s| |]; cbn [startswith];
    try (eexists _, _; split; [reflexivity|]; repeat split; discriminate).
  destruct (prefix "com.appfactory." s) eqn:Hp; cbn [negb];
    eexists _, _; (split; [reflexivity|]);
    (split; [reflexivity|]); (split; [reflexivity|]);
    intros s' Hs; injection Hs as <-; rewrite Hp;
    (split; [reflexivity|]).
  - now rewrite app_nil_r.
  - reflexivity.
Qed.

(** The [app.json] block, once the file is read and the lookups are made. *)
Lemma check_app_json_read (r : report) app_data ios_bundle android_package :
  load_json e (joinpath build_path "app.json") = Ok app_data ->
  app_identifiers app_data = Ok (ios_bundle, android_package) ->
  read_app_json e (joinpath build_path "app.json") r
  = let r := set_appJsonExists true r in
    match check_identifier ios_bundle set_hasValidBundleIdentifier
            ios_warning "Missing ios.bundleIdentifier in app.json" r with
    | (r, Some ex) => add_error ("Could not parse app.json: " ++ exn_text e ex) r
    | (r, None) =>
        match check_identifier android_package set_hasValidAndroidPackage
                android_warning "Missing android.package in app.json" r with
        | (r, Some ex) =>
            add_error ("Could not parse app.json: " ++ exn_text e ex) r
        | (r, None) => r
        end
    end.
Proof.
  intros Hload Hids. unfold read_app_json.
  rewrite Hload. cbn [bind]. rewrite Hids. reflexivity.
Qed.

Lemma truthy_str (s : string) : s <> "" -> truthy (VStr s) = true.
Proof. intros H. simpl. apply String.eqb_neq in H. now rewrite H. Qed.

Ltac reduce_report :=
  cbn [errors warnings commands validation expo dependencies
       hasValidBundleIdentifier hasValidAndroidPackage packageJsonExists
       appJsonExists hasMandatoryFiles expoInstallCheck
       set_command add_warning add_error with_validation with_expo
       with_dependencies set_expoInstallCheck set_expo_version
       set_hasMandatoryFiles set_hasValidAndroidPackage
       set_hasValidBundleIdentifier set_appJsonExists set_packageJsonExists
       set_expoModules add_issues set_expo_config set_expo_sdkVersion] in *.

(** The two flags the [app.json] block leaves, once the file is read and
    the lookups are made: the iOS flag is set exactly when the identifier
    is truthy; the Android flag exactly when the package name is truthy
    and the iOS check did not raise (the iOS identifier is falsy or a
    string). *)
Lemma check_app_json_flags (r : report) app_data ios_bundle android_package :
  load_json e (joinpath build_path "app.json") = Ok app_data ->
  app_identifiers app_data = Ok (ios_bundle, android_package) ->
  let r' := read_app_json e (joinpath build_path "app.json") r in
  hasValidBundleIdentifier (validation r')
  = truthy ios_bundle || hasValidBundleIdentifier (validation r)
  /\ hasValidAndroidPackage (validation r')
     = ((negb (truthy ios_bundle) || is_str ios_bundle)
        && truthy android_package)
       || hasValidAndroidPackage (validation r).
Proof.
  intros Hload Hids.
  rewrite (check_app_json_read r _ _ _ Hload Hids). cbv zeta.
  unfold check_identifier.
  destruct (truthy ios_bundle);
    [destruct ios_bundle as [| | |s| |]; cbn [startswith is_str];
     [| | |destruct (prefix "com.appfactory." s); cbn [negb]| |]|];
    try (reduce_report; split; reflexivity);
    (destruct (truthy android_package);
     [destruct android_package as [| | |t| |]; cbn [startswith];
      [| | |destruct (prefix "com.appfactory." t); cbn [negb]| |]|]);
    reduce_report; cbn [negb orb andb]; split; reflexivity.
Qed.

(** When a lookup fails, no identifier is checked: the flags are left as
    they were and the failure is reported. *)
Lemma check_app_json_lookup_fails (r : report) app_data ex :
  load_json e (joinpath build_path "app.json") = Ok app_data ->
  app_identifiers app_data = Raise ex ->
  read_app_json e (joinpath build_path "app.json") r
  = add_error ("Could not parse app.json: " ++ exn_text e ex)
      (set_appJsonExists true r).
Proof.
  intros Hload Hids. unfold read_app_json.
  rewrite Hload. cbn [bind]. rewrite Hids. reflexivity.
Qed.

(** A string identifier without the prefix leaves its warning, whatever
    follows. *)
Lemma check_app_json_ios_warning (r : report) app_data s android_package :
  load_json e (joinpath build_path "app.json") = Ok app_data ->
  app_identifiers app_data = Ok (VStr s, android_package) ->
  s <> "" -> prefix "com.appfactory." s = false ->
  In (ios_warning s)
     (warnings (read_app_json e (joinpath build_path "app.json") r)).
Proof.
  intros Hload Hids Hs Hp.
  rewrite (check_app_json_read r _ _ _ Hload Hids). cbv zeta.
  unfold check_identifier. rewrite (truthy_str s Hs). cbn [startswith].
  rewrite Hp. cbn [negb].
  destruct (truthy android_package);
    try destruct (startswith android_package "com.appfactory.") as [[|]|ex'];
    cbn [negb]; try destruct android_package; reduce_report;
    rewrite ?in_app_iff; simpl; auto.
Qed.

(** So does a string package name without the prefix, when the iOS check
    did not raise. *)
Lemma check_app_json_android_warning (r : report) app_data ios_bundle t :
  load_json e (joinpath build_path "app.json") = Ok app_data ->
  app_identifiers app_data = Ok (ios_bundle, VStr t) ->
  negb (truthy ios_bundle) || is_str ios_bundle = true ->
  t <> "" -> prefix "com.appfactory." t = false ->
  In (android_warning t)
     (warnings (read_app_json e (joinpath build_path "app.json") r)).
Proof.
  intros Hload Hids Hios Ht Hp.
  rewrite (check_app_json_read r _ _ _ Hload Hids). cbv zeta.
  unfold check_identifier. rewrite (truthy_str t Ht). cbn [startswith].
  rewrite Hp. cbn [negb].
  destruct (truthy ios_bundle);
    [destruct ios_bundle as [| | |s| |]; try discriminate Hios;
     cbn [startswith]; destruct (prefix "com.appfactory." s); cbn [negb]|];
    reduce_report; rewrite ?in_app_iff; simpl; auto.
Qed.

(** Two identifiers that are non-empty strings add no error, and one
    warning each when they do not start with [com.appfactory.]. *)
Lemma check_app_json_strings (r : report) app_data s t :
  load_json e (joinpath build_path "app.json") = Ok app_data ->
  app_identifiers app_data = Ok (VStr s, VStr t) ->
  s <> "" -> t <> "" ->
  let r' := read_app_json e (joinpath build_path "app.json") r in
  errors r' = errors r
  /\ warnings r'
     = (warnings r
        ++ (if prefix "com.appfactory." s then [] else [ios_warning s])
        ++ (if prefix "com.appfactory." t then [] else [android_warning t]))%list
  /\ commands r' = commands r.
Proof.
  intros Hload Hids Hs Ht.
  rewrite (check_app_json_read r _ _ _ Hload Hids). cbv zeta.
  unfold check_identifier.
  rewrite (truthy_str s Hs), (truthy_str t Ht). cbn [startswith].
  destruct (prefix "com.appfactory." s), (prefix "com.appfactory." t);
    cbn [negb]; repeat split; cbn [warnings add_warning
      set_hasValidAndroidPackage set_hasValidBundleIdentifier set_appJsonExists
      with_validation]; rewrite ?app_nil_r, <- ?app_assoc; reflexivity.
Qed.

(** The [package.json] block touches neither the identifier flags nor the
    warnings. *)
Lemma check_package_json_frame (r r' : report) :
  check_package_json e build_path r = Ok r' ->
  hasValidBundleIdentifier (validation r')
  = hasValidBundleIdentifier (validation r)
  /\ hasValidAndroidPackage (validation r')
     = hasValidAndroidPackage (validation r)
  /\ warnings r' = warnings r.
Proof.
  unfold check_package_json, read_package_json.
  destruct (path_exists e _) as [[|]|ex]; cbn [bind]; try discriminate;
    intros [= <-]; [|repeat split; reflexivity].
  destruct (bind (load_json e _) _) as [[deps mods]|ex];
    [|repeat split; reflexivity].
  destruct (scan_versions deps mods) as [found [ex|]];
    repeat split; reflexivity.
Qed.

Lemma check_entry_point_frame (r r' : report) :
  check_entry_point e build_path r = Ok r' ->
  warnings r' = warnings r
  /\ commands r' = commands r
  /\ hasValidBundleIdentifier (validation r')
     = hasValidBundleIdentifier (validation r)
  /\ hasValidAndroidPackage (validation r')
     = hasValidAndroidPackage (validation r)
  /\ (has_entry_point e build_path = Ok true -> errors r' = errors r).
Proof.
  unfold check_entry_point.
  destruct (has_entry_point e build_path) as [[|]|ex]; cbn [bind negb];
    try discriminate; intros [= <-];
    repeat split; try reflexivity; discriminate.
Qed.

Lemma read_expo_config_frame output (r : report) :
  let r' := read_expo_config e output r in
  errors r' = errors r
  /\ validation r' = validation r
  /\ commands r' = commands r
  /\ exists extra, warnings r' = (warnings r ++ extra)%list.
Proof.
  unfold read_expo_config.
  destruct (json_loads e output) as [c|ex].
  - destruct (bind (Py.get c "expo" (VDict [])) _) as [sdk|ex];
      repeat split; try reflexivity.
    + exists []. cbn. now rewrite app_nil_r.
    + eexists. reflexivity.
  - repeat split; try reflexivity. eexists. reflexivity.
Qed.

(** The command phase touches neither the errors nor the identifier flags,
    it only adds warnings; it raises only when the build directory cannot
    be entered. *)
Lemma run_expo_commands_frame (r : report) (cwd : string) :
  exists r' cwd1 raised,
    run_expo_commands e build_path r cwd = (r', cwd1, raised)
    /\ errors r' = errors r
    /\ hasValidBundleIdentifier (validation r')
       = hasValidBundleIdentifier (validation r)
    /\ hasValidAndroidPackage (validation r')
       = hasValidAndroidPackage (validation r)
    /\ (exists extra, warnings r' = (warnings r ++ extra)%list)
    /\ (forall c, chdir e cwd build_path = Ok c -> raised = None /\ cwd1 = c).
Proof.
  unfold run_expo_commands.
  destruct (chdir e cwd build_path) as [c|ex].
  2:{ eexists _, _, _. split; [reflexivity|]. repeat split; try discriminate.
      exists []. now rewrite app_nil_r. }
  destruct (run_command_ok e c ["npx"; "expo"; "--version"] None default_timeout)
    as [c1 ->].
  destruct (run_command_ok e c ["npx"; "expo"; "config"; "--type"; "public"]
              None default_timeout) as [c2 ->].
  destruct (run_command_ok e c ["npx"; "expo"; "install"; "--check"]
              None default_timeout) as [c3 ->].
  destruct (run_command_ok e c ["npx"; "expo-doctor"] None default_timeout)
    as [c4 ->].
  eexists _, _, _. split; [reflexivity|].
  match goal with
  | |- context [read_expo_config e ?o ?z] =>
      destruct (read_expo_config_frame o z) as (He & Hv & _ & (extra & Hw));
      set (rc := read_expo_config e o z) in *; clearbody rc
  end.
  destruct (success c1), (success c2), (success c3); cbn [negb];
    reduce_report; rewrite ?He, ?Hv, ?Hw; reduce_report;
    (split; [reflexivity|]); (split; [reflexivity|]); (split; [reflexivity|]);
    (split; [| intros c' [= <-]; split; reflexivity]);
    rewrite <- ?app_assoc; try (eexists; reflexivity);
    exists []; now rewrite app_nil_r.
Qed.

(** The command phase when every command fails. *)
Lemma run_expo_commands_all_fail (r : report) (cwd c : string) :
  chdir e cwd build_path = Ok c ->
  all_commands_fail e ->
  commands r = [] ->
  exists r' c1 c2 c3 c4,
    run_expo_commands e build_path r cwd = (r', c, None)
    /\ errors r' = errors r
    /\ warnings r'
       = (warnings r
          ++ ["Expo install check failed - dependencies may be incompatible"])%list
    /\ commands r'
       = [("expo_version", c1); ("expo_config", c2);
          ("expo_install_check", c3); ("expo_doctor", c4)]
    /\ success c1 = false /\ success c2 = false
    /\ success c3 = false /\ success c4 = false
    /\ expo r' = expo r
    /\ expoInstallCheck (validation r') = false.
Proof.
  intros Hc Hfail Hcmd. unfold run_expo_commands. rewrite Hc.
  destruct (run_command_fails e c ["npx"; "expo"; "--version"] None
              default_timeout Hfail) as (c1 & -> & H1 & _).
  destruct (run_command_fails e c ["npx"; "expo"; "config"; "--type"; "public"]
              None default_timeout Hfail) as (c2 & -> & H2 & _).
  destruct (run_command_fails e c ["npx"; "expo"; "install"; "--check"]
              None default_timeout Hfail) as (c3 & -> & H3 & _).
  destruct (run_command_fails e c ["npx"; "expo-doctor"] None default_timeout
              Hfail) as (c4 & -> & H4 & _).
  rewrite H1, H2, H3. cbn [negb].
  eexists _, c1, c2, c3, c4. split; [reflexivity|].
  reduce_report. rewrite Hcmd.
  repeat split; try assumption; reflexivity.
Qed.

Lemma compliant_app_inv app_data :
  compliant_app app_data = true ->
  exists s t,
    app_identifiers app_data = Ok (VStr s, VStr t)
    /\ prefix "com.appfactory." s = true /\ prefix "com.appfactory." t = true
    /\ s <> "" /\ t <> "".
Proof.
  unfold compliant_app. intros H.
  destruct (app_identifiers app_data) as [[i a]|]; [|discriminate].
  destruct i as [| | |s| |]; try discriminate.
  destruct a as [| | |t| |]; try discriminate.
  apply andb_true_iff in H as [Hs Ht]. exists s, t.
  repeat split; try assumption; intros ->; discriminate.
Qed.

(** The whole run when the manifests are well formed, both identifiers are
    non-empty strings, an entry point exists and the build directory can be
    entered: no error, whatever the prefixes and whatever the commands
    do. *)
Lemma validate_expo_build_no_error (cwd : string) package_data app_data s t :
  path_exists e build_path = Ok true ->
  path_exists e (joinpath build_path "package.json") = Ok true ->
  load_json e (joinpath build_path "package.json") = Ok package_data ->
  well_formed_package package_data = true ->
  path_exists e (joinpath build_path "app.json") = Ok true ->
  load_json e (joinpath build_path "app.json") = Ok app_data ->
  app_identifiers app_data = Ok (VStr s, VStr t) ->
  s <> "" -> t <> "" ->
  has_entry_point e build_path = Ok true ->
  is_absolute cwd = true ->
  chdir_allowed e (resolve cwd build_path) = true ->
  chdir_allowed e cwd = true ->
  exists r r3 extra,
    validate_expo_build e build_path cwd = (Ok r, cwd)
    /\ run_expo_commands e build_path r3 cwd
       = (r, resolve cwd build_path, None)
    /\ errors r3 = [] /\ commands r3 = []
    /\ warnings r3
       = ((if prefix "com.appfactory." s then [] else [ios_warning s])
          ++ (if prefix "com.appfactory." t then [] else [android_warning t]))%list
    /\ errors r = []
    /\ warnings r = (warnings r3 ++ extra)%list.
Proof.
  intros Hpath Hpe Hpl Hpw Hae Hal Hids Hs Ht Hentry Habs Henter Hback.
  destruct (validate_expo_build_stages e build_path cwd Hpath)
    as (node & npm & _ & _ & ->).
  set (r0 := initial_report (clock e) build_path node npm).
  rewrite (check_package_json_present r0 Hpe). cbn [bind].
  destruct (check_package_json_well_formed r0 _ Hpl Hpw)
    as (He1 & Hw1 & Hc1 & _).
  set (r1 := read_package_json e _ r0) in *.
  rewrite (check_app_json_present r1 Hae). cbn [bind].
  destruct (check_app_json_strings r1 _ s t Hal Hids Hs Ht)
    as (He2 & Hw2 & Hc2).
  set (r2 := read_app_json e _ r1) in *.
  rewrite (check_entry_point_present r2 Hentry). cbv zeta.
  set (r3 := set_hasMandatoryFiles true r2).
  destruct (run_expo_commands_frame r3 cwd)
    as (r' & cwd1 & raised & Hrun & He4 & _ & _ & (extra & Hw4) & Hraised).
  assert (Hc : chdir e cwd build_path = Ok (resolve cwd build_path))
    by (unfold chdir; now rewrite Henter).
  destruct (Hraised _ Hc) as [-> ->].
  rewrite Hrun, (chdir_absolute e _ cwd Habs), Hback.
  exists r', r3, extra. split; [reflexivity|]. split; [exact Hrun|].
  split; [subst r3; reduce_report; now rewrite He2, He1|].
  split; [subst r3; reduce_report; now rewrite Hc2, Hc1|].
  split; [subst r3; reduce_report; now rewrite Hw2, Hw1|].
  split; [rewrite He4; subst r3; reduce_report; now rewrite He2, He1
         | exact Hw4].
Qed.

(** Each block answers when its existence tests do. *)
Lemma any_exists_answers (files : list string) :
  forallb (probe_answers e) (map (joinpath build_path) files) = true ->
  exists b, any_exists e build_path files = Ok b.
Proof.
  induction files as [|f t IH]; cbn [map forallb any_exists];
    [eexists; reflexivity|].
  intros H. apply andb_prop in H as [Hf Ht].
  unfold probe_answers in Hf.
  destruct (path_exists e (joinpath build_path f)) as [[|]|ex];
    [eexists; reflexivity | exact (IH Ht) | discriminate].
Qed.

(** The run returns a report when the build path exists, its existence
    tests answer and the starting directory can be entered again. *)
Lemma validate_expo_build_returns (cwd : string) :
  path_exists e build_path = Ok true ->
  probes_answer e build_path = true ->
  is_absolute cwd = true ->
  chdir_allowed e cwd = true ->
  exists node npm r1 r2 r3 r4 cwd1 raised,
    check_package_json e build_path
      (initial_report (clock e) build_path node npm) = Ok r1
    /\ check_app_json e build_path r1 = Ok r2
    /\ check_entry_point e build_path r2 = Ok r3
    /\ run_expo_commands e build_path r3 cwd = (r4, cwd1, raised)
    /\ validate_expo_build e build_path cwd
       = (Ok match raised with
             | Some ex => add_error ("Error during command execution: "
                                     ++ exn_text e ex) r4
             | None => r4
             end, cwd).
Proof.
  intros Hpath Hprobes Habs Hback.
  destruct (validate_expo_build_stages e build_path cwd Hpath)
    as (node & npm & _ & _ & ->).
  unfold probes_answer, probed_paths in Hprobes. cbn [forallb] in Hprobes.
  apply andb_prop in Hprobes as [_ Hprobes].
  apply andb_prop in Hprobes as [Hpkg Hprobes].
  apply andb_prop in Hprobes as [Happ Hentry].
  exists node, npm.
  set (r0 := initial_report (clock e) build_path node npm).
  assert (H1 : exists r1, check_package_json e build_path r0 = Ok r1).
  { unfold check_package_json. unfold probe_answers in Hpkg.
    destruct (path_exists e (joinpath build_path "package.json"))
      as [[|]|ex]; [| |discriminate]; eexists; reflexivity. }
  destruct H1 as [r1 H1]. rewrite H1. cbn [bind].
  assert (H2 : exists r2, check_app_json e build_path r1 = Ok r2).
  { unfold check_app_json. unfold probe_answers in Happ.
    destruct (path_exists e (joinpath build_path "app.json"))
      as [[|]|ex]; [| |discriminate]; eexists; reflexivity. }
  destruct H2 as [r2 H2]. rewrite H2. cbn [bind].
  assert (H3 : exists r3, check_entry_point e build_path r2 = Ok r3).
  { unfold check_entry_point, has_entry_point.
    destruct (any_exists_answers mandatory_files Hentry) as [b ->].
    cbn [bind]. destruct (negb b); eexists; reflexivity. }
  destruct H3 as [r3 H3]. rewrite H3. cbv zeta.
  destruct (run_expo_commands e build_path r3 cwd) as [[r4 cwd1] raised] eqn:Hc.
  exists r1, r2, r3, r4, cwd1, raised.
  do 4 (split; [first [assumption | reflexivity]|]).
  rewrite (chdir_absolute e _ cwd Habs), Hback. reflexivity.
Qed.

End StageFacts.

(** C8: a call of [validate_expo_build] that returns a report leaves the
    process in the working directory it started in, whether the build path
    is missing, the commands ran, or entering the build directory raised;
    when the starting directory can be entered again, the working directory
    is the starting one however the call ends, also when an existence test
    raised (nothing had changed it yet); and the call does return a report
    then, provided its existence tests answer.  When the build path exists
    but cannot be entered, the exception is recorded in the report and the
    working directory is still the starting one. *)
Theorem validate_expo_build_restores_cwd
    (e : BuildValidator.env) (build_path cwd : string)
    (Habs : BuildValidator.is_absolute cwd = true) :
  (forall r cwd',
      BuildValidator.validate_expo_build e build_path cwd = (Py.Ok r, cwd') ->
      cwd' = cwd)
  /\ (BuildValidator.chdir_allowed e cwd = true ->
      forall out cwd',
        BuildValidator.validate_expo_build e build_path cwd = (out, cwd') ->
        cwd' = cwd)
  /\ (BuildValidator.chdir_allowed e cwd = true ->
      BuildValidator.probes_answer e build_path = true ->
      exists r,
        BuildValidator.validate_expo_build e build_path cwd = (Py.Ok r, cwd)
        /\ (BuildValidator.path_exists e build_path = Py.Ok true ->
            BuildValidator.chdir e cwd build_path = Py.Raise Py.OSError ->
            In ("Error during command execution: "
                ++ BuildValidator.exn_text e Py.OSError)%string
               (BuildValidator.errors r))).
Proof.
  split; [|split].
  - intros r cwd' Hrun.
    destruct (validate_expo_build_cwd e build_path cwd _ cwd' Habs Hrun)
      as [H|[_ H]]; [exact H | discriminate H].
  - intros Hback out cwd' Hrun.
    destruct (validate_expo_build_cwd e build_path cwd _ cwd' Habs Hrun)
      as [H|[H _]]; [exact H | congruence].
  - intros Hback Hprobes.
    destruct (BuildValidator.path_exists e build_path) as [[|]|ex] eqn:Hex.
    + destruct (validate_expo_build_returns e build_path cwd Hex Hprobes
                  Habs Hback)
        as (node & npm & r1 & r2 & r3 & r4 & cwd1 & raised & _ & _ & _ & Hc
            & Hrun).
      eexists. split; [exact Hrun|].
      intros _ Hfail. unfold BuildValidator.run_expo_commands in Hc.
      rewrite Hfail in Hc. injection Hc as <- <- <-.
      cbn [BuildValidator.add_error BuildValidator.errors].
      apply in_or_app. right. left. reflexivity.
    + destruct (validate_expo_build_missing e build_path cwd Hex)
        as (node & npm & _ & _ & ->).
      eexists. split; [reflexivity|]. discriminate.
    + unfold BuildValidator.probes_answer, BuildValidator.probed_paths in Hprobes.
      cbn [forallb] in Hprobes. apply andb_prop in Hprobes as [Hp _].
      unfold BuildValidator.probe_answers in Hp. rewrite Hex in Hp.
      discriminate Hp.
Qed.

(** C4: for a build directory that can be entered, with a well-formed
    [package.json], an [app.json] whose two identifiers start with
    [com.appfactory.] and an entry-point file, when every external command
    fails [validate_expo_build] returns a report with no error; the four
    commands are recorded under their names with [success = false], and the
    only warning is the one of the failed install check. *)
Theorem validate_expo_build_tool_failure
    (e : BuildValidator.env) (build_path cwd : string)
    (package_data app_data : Py.value)
    (Hpath : BuildValidator.path_exists e build_path = Py.Ok true)
    (Hpackage_exists : BuildValidator.path_exists e
        (BuildValidator.joinpath build_path "package.json") = Py.Ok true)
    (Hpackage : BuildValidator.load_json e
        (BuildValidator.joinpath build_path "package.json") = Py.Ok package_data)
    (Hpackage_ok : BuildValidator.well_formed_package package_data = true)
    (Happ_exists : BuildValidator.path_exists e
        (BuildValidator.joinpath build_path "app.json") = Py.Ok true)
    (Happ : BuildValidator.load_json e
        (BuildValidator.joinpath build_path "app.json") = Py.Ok app_data)
    (Happ_ok : BuildValidator.compliant_app app_data = true)
    (Hentry : BuildValidator.has_entry_point e build_path = Py.Ok true)
    (Habs : BuildValidator.is_absolute cwd = true)
    (Henter : BuildValidator.chdir_allowed e
        (BuildValidator.resolve cwd build_path) = true)
    (Hback : BuildValidator.chdir_allowed e cwd = true)
    (Hfail : BuildValidator.all_commands_fail e) :
  exists r c1 c2 c3 c4,
    BuildValidator.validate_expo_build e build_path cwd = (Py.Ok r, cwd)
    /\ BuildValidator.errors r = []
    /\ BuildValidator.commands r
       = [("expo_version", c1); ("expo_config", c2);
          ("expo_install_check", c3); ("expo_doctor", c4)]%string
    /\ BuildValidator.success c1 = false /\ BuildValidator.success c2 = false
    /\ BuildValidator.success c3 = false /\ BuildValidator.success c4 = false
    /\ BuildValidator.warnings r
       = ["Expo install check failed - dependencies may be incompatible"%string]
    /\ BuildValidator.expoInstallCheck (BuildValidator.validation r) = false.
Proof.
  destruct (compliant_app_inv app_data Happ_ok)
    as (s & t & Hids & Hps & Hpt & Hs & Ht).
  destruct (validate_expo_build_no_error e build_path cwd package_data app_data
              s t Hpath Hpackage_exists Hpackage Hpackage_ok Happ_exists Happ
              Hids Hs Ht Hentry Habs Henter Hback)
    as (r & r3 & extra & Hrun & Hcmds & He3 & Hc3 & Hw3 & He & _).
  rewrite Hps, Hpt in Hw3. simpl in Hw3.
  assert (Hc : BuildValidator.chdir e cwd build_path
               = Py.Ok (BuildValidator.resolve cwd build_path))
    by (unfold BuildValidator.chdir; now rewrite Henter).
  destruct (run_expo_commands_all_fail e build_path r3 cwd _ Hc Hfail Hc3)
    as (r' & c1 & c2 & c3 & c4 & Hrun' & _ & Hw & Hcs & H1 & H2 & H3 & H4
        & _ & Hflag).
  rewrite Hcmds in Hrun'. injection Hrun' as <-.
  exists r, c1, c2, c3, c4. rewrite Hw3 in Hw.
  repeat split; assumption.
Qed.

Section IdentifierFlags.
Import Py BuildValidator.
Local Open Scope string_scope.

Variable e : env.
Variable build_path : string.

(** What the returned report keeps of the flags and warnings left by the
    [app.json] block. *)
Lemma validate_expo_build_app_block (cwd : string) :
  path_exists e build_path = Ok true ->
  path_exists e (joinpath build_path "app.json") = Ok true ->
  probes_answer e build_path = true ->
  is_absolute cwd = true ->
  chdir_allowed e cwd = true ->
  exists r r1 extra more,
    validate_expo_build e build_path cwd = (Ok r, cwd)
    /\ hasValidBundleIdentifier (validation r1) = false
    /\ hasValidAndroidPackage (validation r1) = false
    /\ let r2 := read_app_json e (joinpath build_path "app.json") r1 in
       hasValidBundleIdentifier (validation r)
       = hasValidBundleIdentifier (validation r2)
       /\ hasValidAndroidPackage (validation r)
          = hasValidAndroidPackage (validation r2)
       /\ warnings r = (warnings r2 ++ extra)%list
       /\ errors r = (errors r2 ++ more)%list.
Proof.
  intros Hpath Happ Hprobes Habs Hback.
  destruct (validate_expo_build_returns e build_path cwd Hpath Hprobes
              Habs Hback)
    as (node & npm & r1 & r2 & r3 & r4 & cwd1 & raised & H1 & H2 & H3 & Hc
        & Hrun).
  destruct (check_package_json_frame e build_path _ r1 H1) as (Hi1 & Ha1 & _).
  rewrite (check_app_json_present e build_path r1 Happ) in H2.
  injection H2 as <-.
  set (r2 := read_app_json e (joinpath build_path "app.json") r1) in *.
  destruct (check_entry_point_frame e build_path r2 r3 H3)
    as (Hw3 & _ & Hi3 & Ha3 & _).
  assert (He3 : exists x, errors r3 = (errors r2 ++ x)%list).
  { unfold check_entry_point in H3.
    destruct (has_entry_point e build_path) as [[|]|ex]; cbn [bind negb] in H3;
      try discriminate; injection H3 as <-.
    - exists []. cbn. now rewrite app_nil_r.
    - eexists. reflexivity. }
  destruct He3 as [x He3].
  destruct (run_expo_commands_frame e build_path r3 cwd)
    as (r4' & cwd1' & raised' & Hc' & He4 & Hi4 & Ha4 & (extra & Hw4) & _).
  rewrite Hc in Hc'. injection Hc' as <- <- <-.
  destruct raised as [ex|];
    [exists (add_error ("Error during command execution: " ++ exn_text e ex) r4),
       r1, extra,
       (x ++ [("Error during command execution: " ++ exn_text e ex)%string])%list
    | exists r4, r1, extra, x];
    (split; [exact Hrun|]); (split; [exact Hi1|]); (split; [exact Ha1|]);
    cbv zeta; cbn [add_error validation warnings errors];
    rewrite ?Hi4, ?Ha4, ?Hw4, ?He4, ?Hi3, ?Ha3, ?Hw3, ?He3;
    (split; [reflexivity|]); (split; [reflexivity|]); (split; [reflexivity|]).
  - rewrite <- app_assoc. reflexivity.
  - reflexivity.
Qed.

(** C10 (amended): for an [app.json] that is read, the two flags record the
    presence of the identifiers, not their prefix, but only when every
    lookup of the block succeeds.  When they do, [hasValidBundleIdentifier]
    is true exactly when [expo.ios.bundleIdentifier] is present and truthy,
    whatever its prefix, and [hasValidAndroidPackage] is true exactly when
    [expo.android.package] is truthy and the iOS check did not raise (the
    iOS identifier is missing, falsy or a string); a string identifier
    without the prefix [com.appfactory.] only leaves its warning in the
    report, and when nothing else is wrong two non-empty string identifiers
    leave no error.  When a lookup fails (the lookups of both identifiers
    come before either check), both flags stay false and the report holds
    the parse error, whatever the identifiers are. *)
Theorem validate_expo_build_identifier_flags (cwd : string) (app_data : value)
    (Hpath : path_exists e build_path = Ok true)
    (Happ_exists : path_exists e (joinpath build_path "app.json") = Ok true)
    (Happ : load_json e (joinpath build_path "app.json") = Ok app_data)
    (Hprobes : probes_answer e build_path = true)
    (Habs : is_absolute cwd = true)
    (Hback : chdir_allowed e cwd = true) :
  exists r,
    validate_expo_build e build_path cwd = (Ok r, cwd)
    /\ match app_identifiers app_data with
       | Ok (ios_bundle, android_package) =>
           hasValidBundleIdentifier (validation r) = truthy ios_bundle
           /\ hasValidAndroidPackage (validation r)
              = (negb (truthy ios_bundle) || is_str ios_bundle)
                && truthy android_package
           /\ (forall s, ios_bundle = VStr s -> s <> "" ->
               prefix "com.appfactory." s = false ->
               In (ios_warning s) (warnings r))
           /\ (forall t, android_package = VStr t -> t <> "" ->
               prefix "com.appfactory." t = false ->
               negb (truthy ios_bundle) || is_str ios_bundle = true ->
               In (android_warning t) (warnings r))
           /\ (forall s t package_data,
               ios_bundle = VStr s -> s <> "" ->
               android_package = VStr t -> t <> "" ->
               path_exists e (joinpath build_path "package.json") = Ok true ->
               load_json e (joinpath build_path "package.json")
               = Ok package_data ->
               well_formed_package package_data = true ->
               has_entry_point e build_path = Ok true ->
               chdir_allowed e (resolve cwd build_path) = true ->
               errors r = [])
       | Raise ex =>
           hasValidBundleIdentifier (validation r) = false
           /\ hasValidAndroidPackage (validation r) = false
           /\ In ("Could not parse app.json: " ++ exn_text e ex) (errors r)
       end.
Proof.
  destruct (validate_expo_build_app_block cwd Hpath Happ_exists Hprobes
              Habs Hback)
    as (r & r1 & extra & more & Hrun & Hi1 & Ha1 & Hi & Ha & Hw & He).
  exists r. split; [exact Hrun|].
  destruct (app_identifiers app_data) as [[ios_bundle android_package]|ex]
    eqn:Hids.
  - destruct (check_app_json_flags e build_path r1 _ _ _ Happ Hids)
      as (Hfi & Hfa).
    rewrite Hi1 in Hfi. rewrite Ha1 in Hfa. rewrite orb_false_r in Hfi, Hfa.
    split; [now rewrite Hi|]. split; [now rewrite Ha|].
    split; [|split].
    + intros s -> Hs Hp. rewrite Hw. apply in_or_app. left.
      eapply check_app_json_ios_warning; eassumption.
    + intros t -> Ht Hp Hios. rewrite Hw. apply in_or_app. left.
      eapply check_app_json_android_warning; eassumption.
    + intros s t package_data -> Hs -> Ht Hpe Hpl Hpw Hentry Henter.
      destruct (validate_expo_build_no_error e build_path cwd package_data
                  app_data s t Hpath Hpe Hpl Hpw Happ_exists Happ Hids Hs Ht
                  Hentry Habs Henter Hback)
        as (r' & _ & _ & Hrun' & _ & _ & _ & _ & He' & _).
      rewrite Hrun in Hrun'. injection Hrun' as <-. exact He'.
  - rewrite (check_app_json_lookup_fails e build_path r1 _ _ Happ Hids)
      in Hi, Ha, He.
    cbn [add_error set_appJsonExists with_validation validation errors
         hasValidBundleIdentifier hasValidAndroidPackage] in Hi, Ha, He.
    split; [now rewrite Hi|]. split; [now rewrite Ha|].
    rewrite He. apply in_or_app. left. apply in_or_app. right. now left.
Qed.

End IdentifierFlags.

(** C10, as stated (every [app.json] whose iOS identifier is present and
    not empty gets [hasValidBundleIdentifier]), fails: the lookup of the
    Android package is made before the iOS flag is set, and with
    [null] for [android] it raises; the [except] records a parse error and
    the flag is still false, although the iOS identifier is there. *)
Lemma validate_expo_build_identifier_flags_counterexample :
  Py.bind (Py.getitem Demo.null_android_app_json "expo")
    (fun expo => Py.bind (Py.getitem expo "ios")
       (fun ios => Py.getitem ios "bundleIdentifier"))
  = Py.Ok (Py.VStr "com.appfactory.demo")
  /\ exists r,
       BuildValidator.validate_expo_build
         (Demo.env_of Demo.null_android_app_json) Demo.build_dir "/work"
       = (Py.Ok r, "/work"%string)
       /\ BuildValidator.hasValidBundleIdentifier (BuildValidator.validation r)
          = false
       /\ BuildValidator.errors r
          = ["Could not parse app.json: no such attribute"%string].
Proof.
  split; [reflexivity|]. eexists. split; [vm_compute; reflexivity|].
  split; reflexivity.
Qed.

(* ===================================================================== *)
(** * The statements on the concrete worlds *)
(* ===================================================================== *)

Example validate_build_registry_demo :
  fst (BuildRegistry.validate_build_registry Demo.registry_world)
  = Py.Ok ["Build 1: dream mode build missing dreamPromptHash"%string].
Proof. vm_compute. reflexivity. Qed.

Example run_command_timeout_message :
  BuildValidator.run_command
    (BuildValidator.Env "" (fun _ => Some BuildValidator.ENOENT)
       (fun _ => Py.Raise Py.OSError)
       (fun _ => Py.Raise Py.JSONDecodeError)
       (fun _ _ _ _ => Py.Raise Py.TimeoutExpired) (fun _ => false)
       Demo.exn_text)
    "/work" ["npx"; "expo-doctor"]%string None BuildValidator.default_timeout
  = Py.Ok (BuildValidator.CommandResult "npx expo-doctor" (-1) ""
             "Command timed out after 30s" false).
Proof. vm_compute. reflexivity. Qed.

(** Registering the same path and run twice on the demo registry (with
    other names): three builds after the first call, three after the
    second. *)
Example register_build_twice_demo :
  let w1 := snd (BuildRegistry.register_build "Gamma" "gamma" "pipeline"
                   "builds/gamma" "success" (Some "run-3"%string)
                   (Some "gamma-idea"%string) None "expo" "npx expo start" ""
                   Demo.registry_world) in
  let w2 := snd (BuildRegistry.register_build "Gamma, rebuilt" "gamma"
                   "pipeline" "builds/gamma" "failed" (Some "run-3"%string)
                   (Some "gamma-idea"%string) None "expo" "npx expo start" ""
                   w1) in
  let count w := match fst (BuildRegistry.get_builds w) with
                 | Py.Ok (Py.VList l) => Some (List.length l)
                 | _ => None
                 end in
  count Demo.registry_world = Some 2%nat
  /\ count w1 = Some 3%nat /\ count w2 = Some 3%nat.
Proof. vm_compute. repeat split. Qed.

(** Registering [builds/alpha] of run [run-1] again on the demo registry:
    the hypotheses of [register_build_upsert] hold there, and the call
    succeeds. *)
Lemma register_build_upsert_witness :
  exists (ok : bool) (w' : BuildRegistry.world),
    BuildRegistry.register_build "Alpha again" "alpha" "pipeline"
      "builds/alpha" "success" (Some "run-1"%string) None None
      "expo" "npx expo start" "" Demo.registry_world = (Py.Ok ok, w')
    /\ ok = true.
Proof.
  assert (Hshape : Forall BuildRegistry.has_build_id [Demo.alpha; Demo.beta]).
  { repeat constructor; unfold BuildRegistry.has_build_id, Demo.alpha, Demo.beta;
      rewrite build_id_of_entry; discriminate. }
  assert (Huniq : NoDup (map BuildRegistry.build_id_of [Demo.alpha; Demo.beta])).
  { unfold Demo.alpha, Demo.beta. cbn [map]. rewrite !build_id_of_entry.
    repeat constructor; [|intros []].
    intros [H|[]]. vm_compute in H. discriminate H. }
  destruct (register_build_upsert "Alpha again" "alpha" "pipeline"
              "builds/alpha" "success" (Some "run-1"%string) None None
              "expo" "npx expo start" "" Demo.registry_world
              Demo.registry [Demo.alpha; Demo.beta]
              eq_refl eq_refl Hshape Huniq)
    as (ok & w' & Hrun & Hok & _).
  exists ok, w'. split; [exact Hrun | exact Hok].
Defined.

(** Saving the demo registry and loading it back. *)
Lemma save_load_round_trip_witness :
  exists (ok : bool) (reg' : Py.value) (w' : BuildRegistry.world),
    BuildRegistry.save_build_registry (Py.VDict Demo.registry)
      Demo.registry_world = (Py.Ok (ok, reg'), w')
    /\ ok = true.
Proof.
  destruct (save_load_round_trip Demo.registry_world Demo.registry)
    as (ok & reg' & w' & Hsave & Hok & _).
  exists ok, reg', w'. split; [exact Hsave | exact Hok].
Defined.

(** The demo registry holds a dream build without prompt hash at index 1. *)
Lemma validate_build_registry_origin_witness :
  exists errors : list string,
    fst (BuildRegistry.validate_build_registry Demo.registry_world)
    = Py.Ok errors
    /\ errors <> []
    /\ In "Build 1: dream mode build missing dreamPromptHash"%string errors.
Proof.
  destruct (validate_build_registry_origin Demo.registry_world Demo.registry
              [Demo.alpha; Demo.beta] eq_refl eq_refl eq_refl)
    as (errors & groups & Hrun & _ & _ & _ & Hdream & _).
  exists errors. rewrite Hrun. split; [reflexivity|].
  exact (Hdream 1%nat Demo.beta eq_refl eq_refl).
Defined.

(** The demo build directory, where no external program can be launched. *)
Lemma validate_expo_build_tool_failure_witness :
  exists r,
    BuildValidator.validate_expo_build Demo.env Demo.build_dir "/work"
    = (Py.Ok r, "/work"%string)
    /\ BuildValidator.errors r = [].
Proof.
  destruct (validate_expo_build_tool_failure Demo.env Demo.build_dir "/work"
              Demo.package_json
              (Demo.app_json "com.appfactory.demo" "com.appfactory.demo")
              eq_refl eq_refl eq_refl eq_refl eq_refl eq_refl eq_refl eq_refl
              eq_refl eq_refl eq_refl (fun _ _ _ _ => I))
    as (r & c1 & c2 & c3 & c4 & Hrun & Herr & _).
  exists r. split; [exact Hrun | exact Herr].
Defined.


(** A build path that exists but is a file: entering it raises, the
    exception is recorded and the working directory is the starting one. *)
Lemma validate_expo_build_restores_cwd_witness :
  exists r,
    BuildValidator.validate_expo_build Demo.env "/work/builds/demo/App.tsx"
      "/work" = (Py.Ok r, "/work"%string)
    /\ In "Error during command execution: [Errno 2] No such file or directory"%string
          (BuildValidator.errors r).
Proof.
  destruct (validate_expo_build_restores_cwd Demo.env
              "/work/builds/demo/App.tsx" "/work" eq_refl)
    as (_ & _ & Hreturns).
  destruct (Hreturns eq_refl eq_refl) as (r & Hrun & Herr).
  exists r. split; [exact Hrun | exact (Herr eq_refl eq_refl)].
Defined.

(** The demo build directory with identifiers of another organisation. *)
Lemma validate_expo_build_identifier_flags_witness :
  exists r,
    BuildValidator.validate_expo_build Demo.foreign_env Demo.build_dir "/work"
    = (Py.Ok r, "/work"%string)
    /\ BuildValidator.hasValidBundleIdentifier (BuildValidator.validation r)
       = true
    /\ BuildValidator.hasValidAndroidPackage (BuildValidator.validation r)
       = true
    /\ In (BuildValidator.ios_warning "org.example.demo")
          (BuildValidator.warnings r)
    /\ BuildValidator.errors r = [].
Proof.
  destruct (validate_expo_build_identifier_flags Demo.foreign_env
              Demo.build_dir "/work"
              (Demo.app_json "org.example.demo" "org.example.demo")
              eq_refl eq_refl eq_refl eq_refl eq_refl eq_refl)
    as (r & Hrun & H).
  assert (Hids : BuildValidator.app_identifiers
                   (Demo.app_json "org.example.demo" "org.example.demo")
                 = Py.Ok (Py.VStr "org.example.demo",
                          Py.VStr "org.example.demo")) by reflexivity.
  rewrite Hids in H. destruct H as (Hios & Handroid & Hwarn & _ & Herr).
  exists r. split; [exact Hrun|].
  split; [exact Hios|].
  split; [exact Handroid|].
  split; [apply (Hwarn "org.example.demo"%string eq_refl);
          [discriminate | reflexivity]|].
  apply (Herr "org.example.demo"%string "org.example.demo"%string
              Demo.package_json eq_refl); try discriminate; reflexivity.
Defined.

(* ===================================================================== *)
(** * Further properties of the registry: absent and unreadable files *)
(* ===================================================================== *)

Section RegistryEdges.
Import Py BuildRegistry.
Local Open Scope string_scope.

Variables (name slug mode build_path status : string).
Variables (run_id idea_slug dream_prompt_hash : option string).
Variables (framework launch_command notes : string).

Local Abbreviation registered_id :=
  (generate_build_id build_path (or_else dream_prompt_hash run_id)).

(** X1: the first load of a registry that does not exist yet writes the empty
    registry, stamped with the current time, and returns it; the next load
    returns the same document and writes nothing; [get_builds] gives the
    empty list. *)
Theorem load_build_registry_creates (w : world)
    (Habsent : registry_file w = None)
    (Hmkdir : mkdir_ok w = true) (Hopen : write_ok w = true)
    (Hdump : dump_ok w = true) :
  exists w',
    load_build_registry w = (Ok (empty_registry (clock w (ticks w))), w')
    /\ registry_file w'
       = Some (Document (empty_registry (clock w (ticks w))))
    /\ load_build_registry w' = (Ok (empty_registry (clock w (ticks w))), w')
    /\ get_builds w = (Ok (VList []), w').
Proof.
  unfold get_builds, load_build_registry. rewrite Habsent, Hmkdir.
  cbn [now write_ok dump_ok]. rewrite Hopen, Hdump.
  eexists. split; [reflexivity|]. split; [reflexivity|].
  split; reflexivity.
Qed.

Lemma load_build_registry_creates_witness :
  exists w',
    load_build_registry
      (World "/repo/builds/build_index.json" None true true true
             Demo.registry_clock 0 Demo.exn_text)
    = (Ok (empty_registry "2025-01-01T00:00:00"), w')
    /\ get_builds w' = (Ok (VList []), w').
Proof.
  destruct (load_build_registry_creates
              (World "/repo/builds/build_index.json" None true true true
                     Demo.registry_clock 0 Demo.exn_text)
              eq_refl eq_refl eq_refl eq_refl) as (w' & Hload & Hfile & Hre & _).
  exists w'. split; [exact Hload|].
  unfold get_builds. rewrite Hre. reflexivity.
Defined.

(** X2: when the registry file is absent and cannot be created (the directory
    cannot be made, the file cannot be opened or the text cannot be
    written), [load_build_registry] raises [OSError] instead of degrading to
    an empty registry, and so do [get_builds], [get_build_by_id] and
    [register_build]; [validate_build_registry] still answers with its
    single "not found" error. *)
Theorem load_build_registry_create_failure (w : world)
    (Habsent : registry_file w = None)
    (Hfail : mkdir_ok w && write_ok w && dump_ok w = false) :
  fst (load_build_registry w) = Raise OSError
  /\ fst (get_builds w) = Raise OSError
  /\ (forall id, fst (get_build_by_id id w) = Raise OSError)
  /\ fst (register_build name slug mode build_path status run_id idea_slug
            dream_prompt_hash framework launch_command notes w)
     = Raise OSError
  /\ validate_build_registry w
     = (Ok ["Build registry not found at " ++ registry_path w], w).
Proof.
  assert (Hload : fst (load_build_registry w) = Raise OSError).
  { unfold load_build_registry. rewrite Habsent.
    destruct (mkdir_ok w); [|reflexivity]. cbn [now write_ok dump_ok].
    destruct (write_ok w); [|reflexivity].
    destruct (dump_ok w); [discriminate | reflexivity]. }
  split; [exact Hload|].
  unfold get_build_by_id, get_builds, register_build, validate_build_registry.
  rewrite Habsent.
  destruct (load_build_registry w) as [loaded w1]. simpl in Hload. subst loaded.
  repeat split; reflexivity.
Qed.


End RegistryEdges.

Lemma load_build_registry_create_failure_witness :
  fst (BuildRegistry.get_builds
         (BuildRegistry.World "/repo/builds/build_index.json" None false true
            true Demo.registry_clock 0 Demo.exn_text))
  = Py.Raise Py.OSError.
Proof.
  exact (proj1 (proj2 (load_build_registry_create_failure
                         "Alpha" "alpha" "pipeline" "builds/alpha" "success"
                         (Some "run-1"%string) None None "expo"
                         "npx expo start" ""
                         (BuildRegistry.World "/repo/builds/build_index.json"
                            None false true true Demo.registry_clock 0
                            Demo.exn_text)
                         eq_refl eq_refl))).
Defined.


(* ===================================================================== *)
(** * Further properties of the registry: lookup and validation *)
(* ===================================================================== *)

Section RegistryLookup.
Import Py BuildRegistry.
Local Open Scope string_scope.

Lemma first_with_id_spec bs id :
  Forall has_build_id bs ->
  match first_with_id bs id with
  | Ok (Some b) => In b bs /\ build_id_of b = Some id
  | Ok None => ~ In (Some id) (map build_id_of bs)
  | Raise _ => False
  end.
Proof.
  induction 1 as [|b t Hb _ IH]; simpl; [tauto|].
  destruct (has_build_id_inv b Hb) as (r & s & -> & Hget & Hid).
  cbn [getitem]. rewrite Hget, Hid. cbn [bind eq_str].
  destruct (String.eqb_spec s id) as [->|Hne].
  - split; [now left | exact Hid].
  - destruct (first_with_id t id) as [[b'|]|e]; [| |assumption].
    + destruct IH as [Hin Hb']. split; [now right | exact Hb'].
    + intros [Heq|Hin]; [congruence | auto].
Qed.

Lemma first_with_id_nth bs id (i : nat) b :
  Forall has_build_id bs ->
  NoDup (map build_id_of bs) ->
  nth_error bs i = Some b ->
  build_id_of b = Some id ->
  first_with_id bs id = Ok (Some b).
Proof.
  intros Hall. revert i.
  induction Hall as [|b0 t Hb0 _ IH]; intros i Hnd Hi Hb.
  - destruct i; discriminate.
  - destruct (has_build_id_inv b0 Hb0) as (r & s & -> & Hget & Hid).
    cbn [first_with_id getitem]. rewrite Hget. cbn [bind eq_str].
    cbn [map] in Hnd. rewrite Hid in Hnd.
    apply NoDup_cons_iff in Hnd as [Hnot Hnd].
    destruct i as [|i]; simpl in Hi.
    + injection Hi as <-. rewrite Hid in Hb. injection Hb as ->.
      now rewrite String.eqb_refl.
    + destruct (String.eqb_spec s id) as [->|Hne].
      * exfalso. apply Hnot. rewrite <- Hb.
        apply in_map. eapply nth_error_In. exact Hi.
      * eapply IH; eassumption.
Qed.

(** X4: on a registry whose builds are records with ids, [get_build_by_id]
    never raises and leaves the file alone; it returns [None] exactly when
    no record has the id, and otherwise a record of the list that carries
    the id. *)
Theorem get_build_by_id_spec (w : world) (d : list (string * value))
    (bs : list value) (id : string)
    (Hfile : registry_file w = Some (Document (VDict d)))
    (Hbuilds : dict_get "builds" d = Some (VList bs))
    (Hshape : Forall has_build_id bs) :
  exists found,
    get_build_by_id id w = (Ok found, w)
    /\ (found = None <-> ~ In (Some id) (map build_id_of bs))
    /\ (forall b, found = Some b -> In b bs /\ build_id_of b = Some id).
Proof.
  unfold get_build_by_id, get_builds, load_build_registry. rewrite Hfile.
  cbn [bind get]. rewrite Hbuilds. cbn [bind iter].
  pose proof (first_with_id_spec bs id Hshape) as Hspec.
  destruct (first_with_id bs id) as [[b|]|e]; [| |contradiction].
  - exists (Some b). split; [reflexivity|]. split.
    + split; [discriminate|]. intros Hnot. exfalso. apply Hnot.
      destruct Hspec as [Hin <-]. now apply in_map.
    + intros b' [= <-]. exact Hspec.
  - exists None. split; [reflexivity|]. split; [tauto | discriminate].
Qed.

Lemma get_build_by_id_spec_witness :
  exists found,
    get_build_by_id (generate_build_id "builds/beta" (Some "run-2"))
      Demo.registry_world = (Ok found, Demo.registry_world)
    /\ forall b, found = Some b -> In b [Demo.alpha; Demo.beta].
Proof.
  assert (Hshape : Forall has_build_id [Demo.alpha; Demo.beta]).
  { repeat constructor; unfold has_build_id, Demo.alpha, Demo.beta;
      rewrite build_id_of_entry; discriminate. }
  destruct (get_build_by_id_spec Demo.registry_world Demo.registry
              [Demo.alpha; Demo.beta]
              (generate_build_id "builds/beta" (Some "run-2"))
              eq_refl eq_refl Hshape) as (found & Hrun & _ & Hsome).
  exists found. split; [exact Hrun|].
  intros b Hb. exact (proj1 (Hsome b Hb)).
Defined.

(** X5: a record without [buildId] that stands before any record with the id
    looked for makes the scan raise [KeyError]: [get_build_by_id] raises,
    and so does [register_build], which then writes nothing. *)
Theorem register_build_key_error
    (name slug mode build_path status : string)
    (run_id idea_slug dream_prompt_hash : option string)
    (framework launch_command notes : string)
    (w : world) (d : list (string * value))
    (before after : list value) (r : list (string * value))
    (Hfile : registry_file w = Some (Document (VDict d)))
    (Hbuilds : dict_get "builds" d = Some (VList (before ++ VDict r :: after)))
    (Hshape : Forall has_build_id before)
    (Hnot : ~ In (Some (generate_build_id build_path
                          (or_else dream_prompt_hash run_id)))
                 (map build_id_of before))
    (Hmissing : dict_get "buildId" r = None) :
  get_build_by_id
    (generate_build_id build_path (or_else dream_prompt_hash run_id)) w
  = (Raise (KeyError "buildId"), w)
  /\ register_build name slug mode build_path status run_id idea_slug
       dream_prompt_hash framework launch_command notes w
     = (Raise (KeyError "buildId"), w).
Proof.
  set (id := generate_build_id build_path (or_else dream_prompt_hash run_id))
    in *.
  assert (Hscan : forall i, find_existing (before ++ VDict r :: after) id i
                            = Raise (KeyError "buildId")
                            /\ first_with_id (before ++ VDict r :: after) id
                               = Raise (KeyError "buildId")).
  { clear Hbuilds. induction Hshape as [|b t Hb _ IH]; intros i.
    - cbn [app find_existing first_with_id getitem]. rewrite Hmissing.
      split; reflexivity.
    - destruct (has_build_id_inv b Hb) as (rb & s & -> & Hget & Hid).
      cbn [app find_existing first_with_id getitem map] in *.
      rewrite Hget. cbn [bind eq_str]. rewrite Hid in Hnot.
      destruct (String.eqb_spec s id) as [->|Hne].
      + exfalso. apply Hnot. now left.
      + apply IH. intros Hin. apply Hnot. now right. }
  split.
  - unfold get_build_by_id, get_builds, load_build_registry. rewrite Hfile.
    cbn [bind get]. rewrite Hbuilds. cbn [bind iter].
    now rewrite (proj2 (Hscan 0%nat)).
  - unfold register_build, load_build_registry. rewrite Hfile.
    cbn [getitem]. rewrite Hbuilds. cbn [bind iter]. fold id.
    now rewrite (proj1 (Hscan 0%nat)).
Qed.

Lemma register_build_key_error_witness :
  fst (register_build "Gamma" "gamma" "pipeline" "builds/gamma" "success"
         (Some "run-3") None None "expo" "npx expo start" ""
         (World "/repo/builds/build_index.json"
            (Some (Document
                     (VDict [("builds",
                              VList [Demo.alpha; VDict [("name", VStr "x")]])])))
            true true true Demo.registry_clock 0 Demo.exn_text))
  = Raise (KeyError "buildId").
Proof.
  assert (Hshape : Forall has_build_id [Demo.alpha]).
  { repeat constructor; unfold has_build_id, Demo.alpha;
      rewrite build_id_of_entry; discriminate. }
  assert (Hnot : ~ In (Some (generate_build_id "builds/gamma"
                               (or_else None (Some "run-3"))))
                      (map build_id_of [Demo.alpha])).
  { unfold Demo.alpha. cbn [map]. rewrite build_id_of_entry.
    intros [H|[]]. vm_compute in H. discriminate H. }
  rewrite (proj2 (register_build_key_error "Gamma" "gamma" "pipeline"
                    "builds/gamma" "success" (Some "run-3") None None "expo"
                    "npx expo start" ""
                    (World "/repo/builds/build_index.json"
                       (Some (Document
                                (VDict [("builds",
                                         VList [Demo.alpha;
                                                VDict [("name", VStr "x")]])])))
                       true true true Demo.registry_clock 0 Demo.exn_text)
                    [("builds", VList [Demo.alpha; VDict [("name", VStr "x")]])]
                    [Demo.alpha] []
                    [("name", VStr "x")] eq_refl eq_refl Hshape Hnot eq_refl)).
  reflexivity.
Defined.

End RegistryLookup.

Section RegistryComposition.
Import Py BuildRegistry.
Local Open Scope string_scope.

Lemma or_else_some (h : string) (other : option string) :
  h <> "" -> or_else (Some h) other = Some h.
Proof.
  intros Hh. unfold or_else, truthy_opt. cbn [of_opt truthy].
  apply String.eqb_neq in Hh. now rewrite Hh.
Qed.

Lemma option_string_eq_dec (a b : option string) : {a = b} + {a <> b}.
Proof. decide equality. apply string_dec. Qed.

(** After a successful registration the record can be looked up by its
    id. *)
Lemma lookup_after_effect (w' : world) (bs' : list value) (id : string)
    (entry : value) (i : nat) :
  get_builds w' = (Ok (VList bs'), w') ->
  Forall has_build_id bs' ->
  NoDup (map build_id_of bs') ->
  nth_error bs' i = Some entry ->
  build_id_of entry = Some id ->
  get_build_by_id id w' = (Ok (Some entry), w').
Proof.
  intros Hget Hall Hnd Hi Hid. unfold get_build_by_id. rewrite Hget.
  cbn [bind iter]. now rewrite (first_with_id_nth bs' id i entry).
Qed.

(** X6: insert then look up: on a registry whose records carry pairwise
    distinct ids, when the save succeeds, [get_build_by_id] with the id
    that [register_build] computed returns the record just registered (with
    its keys in the sorted order of the save). *)
Theorem get_build_by_id_registered
    (name slug mode build_path status : string)
    (run_id idea_slug dream_prompt_hash : option string)
    (framework launch_command notes : string)
    (w : world) (d : list (string * value)) (bs : list value)
    (Hfile : registry_file w = Some (Document (VDict d)))
    (Hbuilds : dict_get "builds" d = Some (VList bs))
    (Hshape : Forall has_build_id bs)
    (Huniq : NoDup (map build_id_of bs))
    (Hmkdir : mkdir_ok w = true) (Hopen : write_ok w = true)
    (Hdump : dump_ok w = true) :
  exists w',
    register_build name slug mode build_path status run_id idea_slug
      dream_prompt_hash framework launch_command notes w = (Ok true, w')
    /\ get_build_by_id
         (generate_build_id build_path (or_else dream_prompt_hash run_id)) w'
       = (Ok (Some (sort_keys
                      (build_entry
                         (generate_build_id build_path
                            (or_else dream_prompt_hash run_id))
                         name slug mode build_path status run_id idea_slug
                         dream_prompt_hash framework launch_command notes
                         (clock w (ticks w))))),
          w').
Proof.
  destruct (register_build_effect name slug mode build_path status run_id
              idea_slug dream_prompt_hash framework launch_command notes
              w d bs Hfile Hbuilds Hshape Huniq)
    as (ok & w' & Hrun & Hok & _ & Hsucc).
  rewrite Hmkdir, Hopen, Hdump in Hok. simpl in Hok. subst ok.
  destruct (Hsucc eq_refl)
    as (d' & bs' & _ & _ & Hget & Hall & Hnodup & _ & _ & Hpos & Happ).
  exists w'. split; [exact Hrun|].
  set (id := generate_build_id build_path (or_else dream_prompt_hash run_id))
    in *.
  set (entry := build_entry id _ _ _ _ _ _ _ _ _ _ _ _) in *.
  assert (Hid : build_id_of (sort_keys entry) = Some id)
    by now rewrite build_id_of_sort_keys.
  destruct (in_dec option_string_eq_dec (Some id) (map build_id_of bs))
    as [Hin|Hnot].
  - apply In_nth_error in Hin as [i Hi].
    destruct (Hpos i Hi) as (_ & Hnth & _).
    eapply lookup_after_effect; eassumption.
  - specialize (Happ Hnot).
    eapply (lookup_after_effect w' bs' id _ (List.length (map sort_keys bs)));
      try eassumption.
    rewrite Happ, nth_error_app2 by apply Nat.le_refl.
    now rewrite Nat.sub_diag.
Qed.

Lemma get_build_by_id_registered_witness :
  exists w' found,
    register_build "Gamma" "gamma" "pipeline" "builds/gamma" "success"
      (Some "run-3") None None "expo" "npx expo start" ""
      Demo.registry_world = (Ok true, w')
    /\ get_build_by_id (generate_build_id "builds/gamma" (Some "run-3")) w'
       = (Ok (Some found), w').
Proof.
  assert (Hshape : Forall has_build_id [Demo.alpha; Demo.beta]).
  { repeat constructor; unfold has_build_id, Demo.alpha, Demo.beta;
      rewrite build_id_of_entry; discriminate. }
  assert (Huniq : NoDup (map build_id_of [Demo.alpha; Demo.beta])).
  { unfold Demo.alpha, Demo.beta. cbn [map]. rewrite !build_id_of_entry.
    repeat constructor; [|intros []].
    intros [H|[]]. vm_compute in H. discriminate H. }
  destruct (get_build_by_id_registered "Gamma" "gamma" "pipeline"
              "builds/gamma" "success" (Some "run-3") None None "expo"
              "npx expo start" "" Demo.registry_world Demo.registry
              [Demo.alpha; Demo.beta] eq_refl eq_refl Hshape Huniq
              eq_refl eq_refl eq_refl) as (w' & Hrun & Hlook).
  exists w'. eexists. split; [exact Hrun | exact Hlook].
Defined.

(** X7: a dream build is keyed by its path and prompt hash alone: registering
    again with the same path and the same non-empty prompt hash, whatever
    the run id and the other fields, updates the record in place (the
    record at the position of that id becomes the new entry, every other
    record stays at its position) and leaves the number of builds
    unchanged. *)
Theorem register_dream_build_same_prompt
    (name slug build_path status run_id notes : string)
    (name2 slug2 status2 run_id2 notes2 : string)
    (dream_prompt_hash : string)
    (w : world) (d : list (string * value)) (bs : list value)
    (Hfile : registry_file w = Some (Document (VDict d)))
    (Hbuilds : dict_get "builds" d = Some (VList bs))
    (Hshape : Forall has_build_id bs)
    (Huniq : NoDup (map build_id_of bs))
    (Hmkdir : mkdir_ok w = true) (Hopen : write_ok w = true)
    (Hdump : dump_ok w = true)
    (Hhash : dream_prompt_hash <> "") :
  exists w1 w2 bs1 bs2,
    register_dream_build name slug build_path status run_id
      dream_prompt_hash notes w = (Ok true, w1)
    /\ get_builds w1 = (Ok (VList bs1), w1)
    /\ In (Some (generate_build_id build_path (Some dream_prompt_hash)))
          (map build_id_of bs1)
    /\ register_dream_build name2 slug2 build_path status2 run_id2
         dream_prompt_hash notes2 w1 = (Ok true, w2)
    /\ get_builds w2 = (Ok (VList bs2), w2)
    /\ List.length bs2 = List.length bs1
    /\ exists i : nat,
         nth_error (map build_id_of bs1) i
         = Some (Some (generate_build_id build_path (Some dream_prompt_hash)))
         /\ nth_error bs2 i
            = Some (sort_keys
                      (build_entry
                         (generate_build_id build_path (Some dream_prompt_hash))
                         name2 slug2 "dream" build_path status2 (Some run_id2)
                         None (Some dream_prompt_hash) default_framework
                         default_launch_command notes2 (clock w1 (ticks w1))))
         /\ forall j : nat, j <> i ->
              nth_error bs2 j = option_map sort_keys (nth_error bs1 j).
Proof.
  unfold register_dream_build.
  destruct (register_build_effect name slug "dream" build_path status
              (Some run_id) None (Some dream_prompt_hash) default_framework
              default_launch_command notes w d bs Hfile Hbuilds Hshape Huniq)
    as (ok & w1 & Hrun & Hok & _ & Hsucc).
  rewrite Hmkdir, Hopen, Hdump in Hok. simpl in Hok. subst ok.
  destruct (Hsucc eq_refl)
    as (d1 & bs1 & Hfile1 & Hbuilds1 & Hget1 & Hall1 & Hnodup1 & Hin1 & Hflags
        & _ & _).
  injection Hflags as Hm1 Hw1 Hd1.
  destruct (register_build_effect name2 slug2 "dream" build_path status2
              (Some run_id2) None (Some dream_prompt_hash) default_framework
              default_launch_command notes2 w1 d1 bs1 Hfile1 Hbuilds1 Hall1
              Hnodup1)
    as (ok2 & w2 & Hrun2 & Hok2 & _ & Hsucc2).
  rewrite Hm1, Hw1, Hd1 in Hok2. simpl in Hok2. subst ok2.
  destruct (Hsucc2 eq_refl)
    as (d2 & bs2 & _ & _ & Hget2 & _ & _ & _ & _ & Hpos2 & _).
  rewrite (or_else_some _ (Some run_id) Hhash) in Hin1.
  rewrite (or_else_some _ (Some run_id2) Hhash) in Hpos2.
  exists w1, w2, bs1, bs2. repeat (split; [assumption|]).
  apply In_nth_error in Hin1 as [i Hi].
  split; [exact (proj1 (Hpos2 i Hi))|].
  exists i. split; [exact Hi|]. exact (proj2 (Hpos2 i Hi)).
Qed.

Lemma register_dream_build_same_prompt_witness :
  exists w1 w2 bs1 bs2,
    register_dream_build "Delta" "delta" "builds/delta" "success" "run-7"
      "9f2c" "" Demo.registry_world = (Ok true, w1)
    /\ register_dream_build "Delta again" "delta" "builds/delta" "failed"
         "run-8" "9f2c" "" w1 = (Ok true, w2)
    /\ get_builds w1 = (Ok (VList bs1), w1)
    /\ get_builds w2 = (Ok (VList bs2), w2)
    /\ List.length bs2 = List.length bs1
    /\ exists i : nat,
         nth_error bs2 i
         = Some (sort_keys
                   (build_entry (generate_build_id "builds/delta" (Some "9f2c"))
                      "Delta again" "delta" "dream" "builds/delta" "failed"
                      (Some "run-8") None (Some "9f2c") "expo"
                      "npx expo start" "" (clock w1 (ticks w1)))).
Proof.
  assert (Hshape : Forall has_build_id [Demo.alpha; Demo.beta]).
  { repeat constructor; unfold has_build_id, Demo.alpha, Demo.beta;
      rewrite build_id_of_entry; discriminate. }
  assert (Huniq : NoDup (map build_id_of [Demo.alpha; Demo.beta])).
  { unfold Demo.alpha, Demo.beta. cbn [map]. rewrite !build_id_of_entry.
    repeat constructor; [|intros []].
    intros [H|[]]. vm_compute in H. discriminate H. }
  destruct (register_dream_build_same_prompt "Delta" "delta" "builds/delta"
              "success" "run-7" "" "Delta again" "delta" "failed" "run-8" ""
              "9f2c" Demo.registry_world Demo.registry [Demo.alpha; Demo.beta]
              eq_refl eq_refl Hshape Huniq eq_refl eq_refl eq_refl
              ltac:(discriminate))
    as (w1 & w2 & bs1 & bs2 & H1 & H2 & _ & H3 & H4 & H5 & i & _ & H6 & _).
  exists w1, w2, bs1, bs2. repeat (split; [assumption|]).
  exists i. exact H6.
Defined.

End RegistryComposition.

Section RegistryValidation.
Import Py BuildRegistry.
Local Open Scope string_scope.

(** X8: a registry file that exists but cannot be read: when the failure is one
    that [load_build_registry] swallows (an I/O error, invalid JSON), the
    validation runs on the empty registry it returns and finds no error, so
    a corrupt file validates as clean; any other exception gives the single
    "Could not load registry" error.  The file is not touched. *)
Theorem validate_build_registry_unreadable (w : world) (e : exn)
    (Hfile : registry_file w = Some (Unloadable e)) :
  exists w',
    validate_build_registry w
    = (Ok (if is_JSONDecodeError e || is_IOError e then []
           else ["Could not load registry: " ++ exn_text w e]), w')
    /\ registry_file w' = registry_file w.
Proof.
  unfold validate_build_registry, load_build_registry. rewrite Hfile.
  destruct (is_JSONDecodeError e || is_IOError e);
    eexists; (split; [reflexivity|]); cbn; rewrite ?Hfile; reflexivity.
Qed.

Lemma validate_build_registry_unreadable_witness :
  fst (validate_build_registry
         (World "/repo/builds/build_index.json"
            (Some (Unloadable JSONDecodeError)) true true true
            Demo.registry_clock 0 Demo.exn_text))
  = Ok [].
Proof.
  destruct (validate_build_registry_unreadable
              (World "/repo/builds/build_index.json"
                 (Some (Unloadable JSONDecodeError)) true true true
                 Demo.registry_clock 0 Demo.exn_text)
              JSONDecodeError eq_refl) as (w' & -> & _).
  reflexivity.
Defined.

Lemma filter_missing_nil_inv (p : string -> bool) l :
  filter (fun f => negb (p f)) l = [] -> forallb p l = true.
Proof.
  induction l as [|f t IH]; simpl; [reflexivity|].
  destruct (p f); simpl; [exact IH | discriminate].
Qed.

Lemma map_eq_nil_inv {A B} (f : A -> B) l : map f l = [] -> l = [].
Proof. destruct l; [reflexivity | discriminate]. Qed.

(** A record on which the loop body reports nothing has no structural
    violation. *)
Lemma check_build_empty (i : nat) (b : value) :
  is_record b = true -> check_build i b = Ok [] -> record_ok b = true.
Proof.
  intros Hrec Hrun.
  destruct (check_build_record i b Hrec) as (g & Hg & _ & Hd & Hp & _).
  rewrite Hrun in Hg. injection Hg as <-.
  assert (Hnd : origin_lacks "dream" "dreamPromptHash" b = false).
  { destruct (origin_lacks "dream" "dreamPromptHash" b); [|reflexivity].
    destruct (Hd eq_refl). }
  assert (Hnp : origin_lacks "pipeline" "runId" b = false).
  { destruct (origin_lacks "pipeline" "runId" b); [|reflexivity].
    destruct (Hp eq_refl). }
  destruct b as [| | | | |r]; try discriminate.
  unfold record_ok. rewrite Hnd, Hnp. cbn [negb]. rewrite !andb_true_r.
  clear Hd Hp Hnd Hnp.
  unfold check_build in Hrun. rewrite missing_fields_dict in Hrun.
  cbn [bind contains] in Hrun. unfold is_record in Hrec.
  set (e1 := map _ (filter _ required_fields)) in Hrun.
  assert (He1 : e1 = [] ->
                forallb (fun f => dict_has f r) required_fields = true).
  { subst e1. intros H. now apply map_eq_nil_inv, filter_missing_nil_inv in H. }
  clearbody e1. unfold dict_has in Hrun.
  destruct (dict_get "origin" r) as [o|] eqn:Ho.
  2:{ injection Hrun as Hrun. specialize (He1 Hrun).
      assert (Hin : In "origin" required_fields)
        by (unfold required_fields; simpl; auto).
      apply (proj1 (forallb_forall _ _) He1) in Hin.
      unfold dict_has in Hin. now rewrite Ho in Hin. }
  destruct o as [| | | | |o]; try discriminate.
  cbn [getitem bind] in Hrun. rewrite Ho in Hrun. cbn [bind] in Hrun.
  rewrite missing_fields_dict in Hrun. cbn [bind get] in Hrun.
  set (e2 := map _ (filter _ origin_required)) in Hrun.
  assert (He2 : e2 = [] -> dict_has "mode" o = true).
  { subst e2. intros H. apply map_eq_nil_inv, filter_missing_nil_inv in H.
    unfold origin_required in H. simpl in H. now rewrite andb_true_r in H. }
  clearbody e2.
  assert (Hdone : forall tail : list string,
             (e1 ++ e2 ++ tail)%list = [] ->
             forallb (fun f => dict_has f r) required_fields
             && dict_has "mode" o = true).
  { intros tail H. apply app_eq_nil in H as [H1 H2].
    apply app_eq_nil in H2 as [H2 _]. now rewrite He1, He2. }
  destruct (dict_get "mode" o) as [m|]; cbn [bind] in Hrun;
    repeat match type of Hrun with
           | context [if ?c then _ else _] => destruct c; cbn [bind] in Hrun
           | context [match ?x with Some _ => _ | None => _ end] =>
               destruct x; cbn [bind] in Hrun
           end;
    injection Hrun as Hrun;
    solve [ eapply Hdone; exact Hrun
          | eapply (Hdone []); rewrite app_nil_r; exact Hrun ].
Qed.

Lemma check_builds_empty (bs : list value) :
  forallb is_record bs = true ->
  forall i : nat, check_builds i bs = Ok [] -> forallb record_ok bs = true.
Proof.
  induction bs as [|b t IH]; intros Hrec i Hrun; [reflexivity|].
  simpl in Hrec. apply andb_true_iff in Hrec as [Hb Ht].
  destruct (check_build_record i b Hb) as (g & Hg & _).
  destruct (check_builds_records t Ht (S i)) as (gs & Hgs & _).
  cbn [check_builds] in Hrun. rewrite Hg, Hgs in Hrun. cbn [bind] in Hrun.
  injection Hrun as Hrun. apply app_eq_nil in Hrun as [-> Hnil].
  simpl. rewrite (check_build_empty i b Hb Hg).
  apply (IH Ht (S i)). now rewrite Hgs, Hnil.
Qed.

Lemma missing_fields_nil describe fields obj :
  missing_fields describe fields obj = Ok [] ->
  forall f, In f fields -> contains f obj = Ok true.
Proof.
  induction fields as [|g t IH]; intros Hrun f Hin; [destruct Hin|].
  cbn [missing_fields] in Hrun.
  destruct (contains g obj) as [present|ex] eqn:Hg; [|discriminate].
  cbn [bind] in Hrun.
  destruct (missing_fields describe t obj) as [more|ex]; [|discriminate].
  cbn [bind] in Hrun. destruct present; [|discriminate].
  injection Hrun as ->. destruct Hin as [<-|Hin]; [exact Hg | now apply IH].
Qed.

(** The errors of the required fields stand at the head of what the loop
    body returns. *)
Lemma check_build_head (i : nat) (b : value) (g : list string) :
  check_build i b = Ok g ->
  exists e1 rest,
    missing_fields
      (fun field => build_prefix i ++ "missing required field '" ++ field ++ "'")
      required_fields b = Ok e1
    /\ g = (e1 ++ rest)%list.
Proof.
  unfold check_build. intros Hrun.
  destruct (missing_fields _ required_fields b) as [e1|ex]; [|discriminate].
  cbn [bind] in Hrun. exists e1.
  repeat match type of Hrun with
         | Ok _ = Ok _ => fail 1
         | context [bind ?x _] =>
             let v := fresh "v" in
             destruct x as [v|]; [|discriminate]; cbn [bind] in Hrun
         | context [if ?c then _ else _] => destruct c
         end;
    injection Hrun as <-;
    first [ eexists; split; reflexivity
          | exists []; split; [reflexivity | now rewrite app_nil_r] ].
Qed.

(** A build that is not a record of the data model is never accepted: the
    loop body raises on it or reports a missing field. *)
Lemma check_build_nil_is_record (i : nat) (b : value) :
  check_build i b = Ok [] -> is_record b = true.
Proof.
  intros Hrun.
  destruct (check_build_head i b [] Hrun) as (e1 & rest & He1 & Hnil).
  symmetry in Hnil. apply app_eq_nil in Hnil as [-> _].
  assert (Horigin : contains "origin" b = Ok true).
  { apply (missing_fields_nil _ _ _ He1).
    unfold required_fields. simpl. auto. }
  unfold check_build in Hrun. rewrite He1, Horigin in Hrun.
  cbn [bind] in Hrun.
  destruct b as [| | | | |r]; try discriminate Hrun.
  unfold is_record. cbn [getitem] in Hrun.
  destruct (dict_get "origin" r) as [o|]; [|reflexivity].
  cbn [bind] in Hrun.
  destruct o as [| | | | |o]; try reflexivity; exfalso;
    destruct (missing_fields _ origin_required _) as [e2|ex];
    discriminate Hrun.
Qed.

Lemma check_builds_nil (bs : list value) :
  forall i : nat, check_builds i bs = Ok [] -> forallb is_record bs = true.
Proof.
  induction bs as [|b t IH]; intros i Hrun; [reflexivity|].
  cbn [check_builds] in Hrun.
  destruct (check_build i b) as [g|ex] eqn:Hg; [|discriminate].
  cbn [bind] in Hrun.
  destruct (check_builds (S i) t) as [more|ex] eqn:Hmore; [|discriminate].
  cbn [bind] in Hrun. injection Hrun as Hrun.
  apply app_eq_nil in Hrun as [-> ->].
  cbn [forallb]. rewrite (check_build_nil_is_record i b Hg).
  exact (IH (S i) Hmore).
Qed.

Lemma record_ok_record b : record_ok b = true -> is_record b = true.
Proof.
  destruct b as [| | | | |r]; try discriminate.
  unfold record_ok, is_record. intros H.
  rewrite !andb_true_iff in H. destruct H as [[[_ H] _] _].
  destruct (dict_get "origin" r) as [[| | | | |o]|]; try discriminate;
    reflexivity.
Qed.

(** X9: on a registry file with a list of builds, whatever the builds are,
    [validate_build_registry] returns the empty list exactly when every
    build is a record free of structural violation: nothing wrong goes
    unreported (a build that is not an object, or whose origin is not an
    object, makes it raise or report, never accept) and nothing right is
    reported.  The file is left as it was, and on records of the data model
    the function returns a list. *)
Theorem validate_build_registry_empty_iff (w : world)
    (d : list (string * value)) (bs : list value)
    (Hfile : registry_file w = Some (Document (VDict d)))
    (Hbuilds : dict_get "builds" d = Some (VList bs)) :
  exists out : result (list string),
    validate_build_registry w = (out, w)
    /\ (out = Ok [] <-> forallb record_ok bs = true)
    /\ (forallb is_record bs = true -> exists errors, out = Ok errors).
Proof.
  exists (check_builds 0 bs). split; [|split].
  - unfold validate_build_registry, load_build_registry. rewrite Hfile.
    cbn [contains]. unfold dict_has. rewrite Hbuilds.
    cbn [bind getitem]. rewrite Hbuilds. reflexivity.
  - split.
    + intros Hrun.
      exact (check_builds_empty bs (check_builds_nil bs 0 Hrun) 0 Hrun).
    + intros Hok.
      assert (Hrecords : forallb is_record bs = true).
      { apply forallb_forall. intros b Hb. apply record_ok_record.
        exact (proj1 (forallb_forall _ _) Hok b Hb). }
      destruct (check_builds_records bs Hrecords 0)
        as (groups & Hrun & _ & _ & _ & _ & Hnil).
      rewrite Hrun, (Hnil Hok). reflexivity.
  - intros Hrecords.
    destruct (check_builds_records bs Hrecords 0) as (groups & Hrun & _).
    eexists. exact Hrun.
Qed.

(** The demo registry: its dream build has no prompt hash. *)
Lemma validate_build_registry_empty_iff_witness :
  exists out : result (list string),
    validate_build_registry Demo.registry_world = (out, Demo.registry_world)
    /\ (out = Ok [] <-> forallb record_ok [Demo.alpha; Demo.beta] = true)
    /\ exists errors, out = Ok errors.
Proof.
  destruct (validate_build_registry_empty_iff Demo.registry_world Demo.registry
              [Demo.alpha; Demo.beta] eq_refl eq_refl)
    as (out & Hrun & Hiff & Hreturns).
  exists out. split; [exact Hrun|]. split; [exact Hiff | exact (Hreturns eq_refl)].
Defined.

End RegistryValidation.

Section RegisterThenValidate.
Import Py BuildRegistry.
Local Open Scope string_scope.

Lemma forallb_pointwise {A} (p q : A -> bool) (l : list A) :
  (forall x, p x = q x) -> forallb p l = forallb q l.
Proof. intros H. induction l as [|x t IH]; simpl; [|rewrite H, IH]; reflexivity. Qed.

Lemma forallb_of_map {A B} (f : A -> B) (p : B -> bool) (l : list A) :
  forallb p (map f l) = forallb (fun x => p (f x)) l.
Proof. induction l as [|x t IH]; simpl; [|rewrite IH]; reflexivity. Qed.

Lemma insert_pair_not_nil kv l : insert_pair kv l <> [].
Proof. destruct l as [|kv' t]; simpl; [|destruct (String.leb _ _)]; discriminate. Qed.

Lemma truthy_sort_keys (v : value) : truthy (sort_keys v) = truthy v.
Proof.
  destruct v as [| | | |l|d]; try reflexivity.
  - destruct l; reflexivity.
  - rewrite sort_keys_dict. cbn [truthy]. destruct d as [|[k x] t];
      [reflexivity|]. cbn [map sort_pairs fold_right].
    destruct (insert_pair _ _) eqn:E; [|reflexivity].
    now apply insert_pair_not_nil in E.
Qed.

Lemma eq_str_sort_keys (v : value) (s : string) :
  eq_str (sort_keys v) s = eq_str v s.
Proof. destruct v; reflexivity. Qed.

Lemma dict_has_sort_keys k d :
  dict_has k (sort_pairs (map (fun kv => let '(k0, x) := kv in
                                         (k0, sort_keys x)) d))
  = dict_has k d.
Proof.
  unfold dict_has. rewrite dict_get_sort_keys.
  destruct (dict_get k d); reflexivity.
Qed.

Lemma origin_lacks_sort_keys mode field b :
  origin_lacks mode field (sort_keys b) = origin_lacks mode field b.
Proof.
  destruct b as [| | | | |r]; try reflexivity.
  rewrite sort_keys_dict. unfold origin_lacks. rewrite dict_get_sort_keys.
  destruct (dict_get "origin" r) as [[| | | | |o]|]; try reflexivity.
  cbn [option_map]. rewrite sort_keys_dict, !dict_get_sort_keys.
  destruct (dict_get "mode" o) as [m|], (dict_get field o) as [x|];
    cbn [option_map]; rewrite ?eq_str_sort_keys, ?truthy_sort_keys;
    reflexivity.
Qed.

(** Saving a record with sorted keys does not change whether it is free of
    structural violation. *)
Lemma record_ok_sort_keys b : record_ok (sort_keys b) = record_ok b.
Proof.
  pose proof (origin_lacks_sort_keys "dream" "dreamPromptHash" b) as Hd.
  pose proof (origin_lacks_sort_keys "pipeline" "runId" b) as Hp.
  destruct b as [| | | | |r]; try reflexivity.
  unfold record_ok. rewrite Hd, Hp.
  rewrite sort_keys_dict in *. rewrite dict_get_sort_keys.
  f_equal. f_equal. f_equal.
  - apply forallb_pointwise. intros k. apply dict_has_sort_keys.
  - destruct (dict_get "origin" r) as [[| | | | |o]|]; try reflexivity.
    cbn [option_map]. rewrite sort_keys_dict. apply dict_has_sort_keys.
Qed.

Lemma forallb_list_set (p : value -> bool) (i : nat) x l :
  p x = true -> forallb p l = true -> forallb p (list_set i x l) = true.
Proof.
  intros Hx. revert i. induction l as [|y t IH]; intros [|i] H; simpl in *;
    try reflexivity; apply andb_true_iff in H as [Hy Ht];
    apply andb_true_iff; auto.
Qed.

(** A record built by [register_build] is free of structural violation
    when a dream build comes with a prompt hash and a pipeline build with a
    run id. *)
Lemma record_ok_entry id name slug mode build_path status run_id idea_slug
    dream_prompt_hash framework launch_command notes created_at :
  (mode = "dream" -> truthy_opt dream_prompt_hash = true) ->
  (mode = "pipeline" -> truthy_opt run_id = true) ->
  record_ok (build_entry id name slug mode build_path status run_id idea_slug
               dream_prompt_hash framework launch_command notes created_at)
  = true.
Proof.
  intros Hd Hp. unfold record_ok, origin_lacks, build_entry.
  cbn [forallb required_fields dict_has dict_get String.eqb Ascii.eqb
       Bool.eqb andb eq_str].
  unfold truthy_opt in *.
  destruct (String.eqb_spec mode "dream") as [Hm|_].
  - rewrite (Hd Hm). subst mode. reflexivity.
  - destruct (String.eqb_spec mode "pipeline") as [Hm|_]; [|reflexivity].
    now rewrite (Hp Hm).
Qed.

(** X10: registering keeps a valid registry valid: on a registry that
    [validate_build_registry] accepts, after a successful
    [register_pipeline_build] with a non-empty run id, or
    [register_dream_build] with a non-empty prompt hash,
    [validate_build_registry] still returns no error. *)
Theorem register_then_validate
    (name slug build_path status run_id idea_slug dream_prompt_hash
       notes : string)
    (w : world) (d : list (string * value)) (bs : list value)
    (Hfile : registry_file w = Some (Document (VDict d)))
    (Hbuilds : dict_get "builds" d = Some (VList bs))
    (Hshape : Forall has_build_id bs)
    (Hvalid : forallb record_ok bs = true)
    (Hmkdir : mkdir_ok w = true) (Hopen : write_ok w = true)
    (Hdump : dump_ok w = true)
    (Hrun_id : run_id <> "") (Hhash : dream_prompt_hash <> "") :
  (exists w',
      register_pipeline_build name slug build_path status run_id idea_slug
        notes w = (Ok true, w')
      /\ validate_build_registry w' = (Ok [], w'))
  /\ (exists w',
         register_dream_build name slug build_path status run_id
           dream_prompt_hash notes w = (Ok true, w')
         /\ validate_build_registry w' = (Ok [], w')).
Proof.
  assert (Hgen : forall mode rid idea dph,
             (mode = "dream" -> truthy_opt dph = true) ->
             (mode = "pipeline" -> truthy_opt rid = true) ->
             exists w',
               register_build name slug mode build_path status rid idea dph
                 default_framework default_launch_command notes w
               = (Ok true, w')
               /\ validate_build_registry w' = (Ok [], w')).
  { intros mode rid idea dph Hd Hp.
    destruct (register_build_steps name slug mode build_path status rid idea
                dph default_framework default_launch_command notes w d bs
                Hfile Hbuilds Hshape) as (existing & _ & ->).
    set (entry := build_entry _ _ _ _ _ _ _ _ _ _ _ _ _).
    set (bs1 := match existing with
                | Some i => list_set i entry bs
                | None => (bs ++ [entry])%list
                end).
    destruct (get_builds_after_save (dict_set "builds" (VList bs1) d) bs1
                (snd (now w)) (dict_get_set_same _ _ _) Hmkdir Hopen Hdump)
      as (w' & reg' & d' & -> & Hfile' & Hbuilds' & _ & _).
    exists w'. split; [reflexivity|].
    assert (Hentry : record_ok entry = true) by now apply record_ok_entry.
    assert (Hok1 : forallb record_ok (map sort_keys bs1) = true).
    { rewrite forallb_of_map.
      rewrite (forallb_pointwise _ record_ok _ record_ok_sort_keys).
      subst bs1. destruct existing as [i|].
      - now apply forallb_list_set.
      - rewrite forallb_app, Hvalid. cbn [forallb]. now rewrite Hentry. }
    assert (Hrec1 : forallb is_record (map sort_keys bs1) = true).
    { apply forallb_forall. intros b Hb. apply record_ok_record.
      exact (proj1 (forallb_forall _ _) Hok1 b Hb). }
    destruct (check_builds_records _ Hrec1 0)
      as (groups & Hcheck & _ & _ & _ & _ & Hnil).
    unfold validate_build_registry, load_build_registry. rewrite Hfile'.
    cbn [contains]. unfold dict_has. rewrite Hbuilds'.
    cbn [bind getitem]. rewrite Hbuilds'. cbn [bind iter].
    now rewrite Hcheck, (Hnil Hok1). }
  split.
  - apply Hgen; [discriminate|]. intros _. now apply truthy_str.
  - apply Hgen; [|discriminate]. intros _. now apply truthy_str.
Qed.

Lemma register_then_validate_witness :
  exists w',
    register_pipeline_build "Gamma" "gamma" "builds/gamma" "success" "run-3"
      "gamma-idea" ""
      (World "/repo/builds/build_index.json"
         (Some (Document (VDict [("builds", VList [Demo.alpha])])))
         true true true Demo.registry_clock 0 Demo.exn_text)
    = (Ok true, w')
    /\ validate_build_registry w' = (Ok [], w').
Proof.
  assert (Hshape : Forall has_build_id [Demo.alpha]).
  { repeat constructor; unfold has_build_id, Demo.alpha;
      rewrite build_id_of_entry; discriminate. }
  exact (proj1 (register_then_validate "Gamma" "gamma" "builds/gamma" "success"
                  "run-3" "gamma-idea" "9f2c" ""
                  (World "/repo/builds/build_index.json"
                     (Some (Document (VDict [("builds", VList [Demo.alpha])])))
                     true true true Demo.registry_clock 0 Demo.exn_text)
                  [("builds", VList [Demo.alpha])] [Demo.alpha]
                  eq_refl eq_refl Hshape eq_refl eq_refl eq_refl eq_refl
                  ltac:(discriminate) ltac:(discriminate))).
Defined.

End RegisterThenValidate.

(* ===================================================================== *)
(** * Further properties of [generate_bundle_identifier]: the normal form *)
(* ===================================================================== *)

Section BundleIdNormalForm.
Import UStr BundleId.
Local Open Scope N_scope.

Lemma slug_char_range (c : N) :
  is_slug_char c = true ->
  (97 <= c <= 122) \/ (48 <= c <= 57) \/ c = 46.
Proof.
  unfold is_slug_char, dot. intros H.
  rewrite !orb_true_iff, !andb_true_iff, !N.leb_le, N.eqb_eq in H. lia.
Qed.

Lemma slug_char_lower (c : N) : is_slug_char c = true -> lower_char c = [c].
Proof.
  intros H. apply slug_char_range in H. unfold lower_char.
  replace ((65 <=? c) && (c <=? 90)) with false.
  2:{ symmetry. apply andb_false_iff.
      destruct (N.leb_spec 65 c); [right; apply N.leb_gt; lia | now left]. }
  replace (c =? 0x130) with false by (symmetry; apply N.eqb_neq; lia).
  replace (c =? 0x212A) with false by (symmetry; apply N.eqb_neq; lia).
  reflexivity.
Qed.

Lemma slug_char_not_separator (c : N) :
  is_slug_char c = true -> is_separator c = false.
Proof.
  intros H. apply slug_char_range in H.
  apply not_true_is_false. unfold is_separator, is_space. intros Hs.
  rewrite !orb_true_iff, !andb_true_iff, !N.leb_le, !N.eqb_eq in Hs. lia.
Qed.

Lemma is_dot_eq (c : N) : is_dot c = true -> c = dot.
Proof. unfold is_dot. apply N.eqb_eq. Qed.

Lemma dot_is_slug_char : is_slug_char dot = true.
Proof. reflexivity. Qed.

(** ** What each step of the normalisation establishes *)

Lemma Forall_sub_runs (P : N -> Prop) cls rep b l :
  Forall P rep -> Forall P l -> Forall P (sub_runs cls rep b l).
Proof.
  intros Hrep Hl. revert b. induction Hl as [|c t Hc _ IH]; intros b; simpl;
    [constructor|].
  destruct (cls c); [destruct b|]; auto using Forall_app.
  apply Forall_app. auto.
Qed.

Lemma lstrip_split cls l :
  exists pre, l = (pre ++ lstrip cls l)%list /\ Forall (fun c => cls c = true) pre.
Proof.
  induction l as [|c t (pre & Heq & Hpre)]; simpl.
  - exists []. split; [reflexivity | constructor].
  - destruct (cls c) eqn:Hc.
    + exists (c :: pre). split; [simpl; congruence | constructor; assumption].
    + exists []. split; [reflexivity | constructor].
Qed.

Lemma lstrip_head cls l : match lstrip cls l with
                          | c :: _ => cls c = false
                          | [] => True
                          end.
Proof.
  induction l as [|c t IH]; simpl; [exact I|].
  destruct (cls c) eqn:Hc; [exact IH | exact Hc].
Qed.

(** The stripped string stands in the middle of the original one, between
    characters of the class. *)
Lemma strip_split cls l :
  exists pre post,
    l = (pre ++ strip cls l ++ post)%list
    /\ Forall (fun c => cls c = true) pre
    /\ Forall (fun c => cls c = true) post.
Proof.
  unfold strip.
  destruct (lstrip_split cls l) as (pre & Heq & Hpre).
  destruct (lstrip_split cls (rev (lstrip cls l))) as (post & Heq2 & Hpost).
  exists pre, (rev post). split; [|split; [exact Hpre | now apply Forall_rev]].
  rewrite Heq at 1. f_equal.
  rewrite <- (rev_involutive (lstrip cls l)), Heq2 at 1.
  now rewrite rev_app_distr.
Qed.

Lemma no_double_dot_cons a b t :
  no_double_dot (a :: b :: t)
  = negb (is_dot a && is_dot b) && no_double_dot (b :: t).
Proof. reflexivity. Qed.

Lemma no_double_dot_tail c t : no_double_dot (c :: t) = true -> no_double_dot t = true.
Proof.
  destruct t as [|b t]; [reflexivity|]. rewrite no_double_dot_cons.
  intros H. now apply andb_true_iff in H as [_ H].
Qed.

Lemma no_double_dot_app_r l1 l2 :
  no_double_dot (l1 ++ l2) = true -> no_double_dot l2 = true.
Proof.
  induction l1 as [|c t IH]; [trivial|].
  intros H. apply IH. exact (no_double_dot_tail c _ H).
Qed.

Lemma no_double_dot_app_l l1 l2 :
  no_double_dot (l1 ++ l2) = true -> no_double_dot l1 = true.
Proof.
  induction l1 as [|c t IH]; [reflexivity|].
  intros H. pose proof (no_double_dot_tail c _ H) as Ht. specialize (IH Ht).
  destruct t as [|b t]; [reflexivity|].
  cbn [app] in *. rewrite no_double_dot_cons in *.
  apply andb_true_iff in H as [H _]. now rewrite H, IH.
Qed.

Lemma sub_runs_dots_no_double b l :
  no_double_dot (sub_runs is_dot [dot] b l) = true
  /\ (b = true -> starts_with_dot (sub_runs is_dot [dot] b l) = false).
Proof.
  revert b. induction l as [|c t IH]; intros b; [split; reflexivity|].
  cbn [sub_runs]. destruct (is_dot c) eqn:Hc.
  - destruct b; [apply IH|].
    destruct (IH true) as [Hnd Hst]. specialize (Hst eq_refl).
    split; [|discriminate]. cbn [app].
    destruct (sub_runs is_dot [dot] true t) as [|x r]; [reflexivity|].
    rewrite no_double_dot_cons. cbn [starts_with_dot] in Hst. rewrite Hst.
    rewrite andb_false_r. exact Hnd.
  - destruct (IH false) as [Hnd _]. split; [|intros _; exact Hc].
    destruct (sub_runs is_dot [dot] false t) as [|x r]; [reflexivity|].
    rewrite no_double_dot_cons, Hc. exact Hnd.
Qed.

Lemma Forall_slug_forallb l :
  Forall (fun c => is_slug_char c = true) l -> forallb is_slug_char l = true.
Proof. intros H. apply forallb_forall. now apply Forall_forall. Qed.

(** The cleaned slug is made of [a-z0-9.], has no two dots in a row and no
    dot at either end. *)
Lemma clean_normal (slug : pystr) :
  Forall (fun c => is_slug_char c = true) (clean slug)
  /\ no_double_dot (clean slug) = true
  /\ starts_with_dot (clean slug) = false
  /\ ends_with_dot (clean slug) = false.
Proof.
  unfold clean, sub_delete_not.
  set (a := sub_runs is_separator [dot] false (lower slug)).
  set (c := sub_runs is_dot [dot] false (filter is_slug_char a)).
  assert (Hc : Forall (fun x => is_slug_char x = true) c).
  { apply Forall_sub_runs; [repeat constructor|].
    apply Forall_forall. intros x Hx. now apply filter_In in Hx. }
  assert (Hnd : no_double_dot c = true) by apply sub_runs_dots_no_double.
  destruct (strip_split is_dot c) as (pre & post & Heq & _ & _).
  rewrite Heq in Hc, Hnd.
  apply Forall_app in Hc as [_ Hc]. apply Forall_app in Hc as [Hc _].
  apply no_double_dot_app_r, no_double_dot_app_l in Hnd.
  split; [exact Hc|]. split; [exact Hnd|]. split.
  - unfold strip.
    pose proof (lstrip_head is_dot c) as Hhead.
    destruct (lstrip_split is_dot (rev (lstrip is_dot c))) as (q & Hq & _).
    assert (Hu : lstrip is_dot c
                 = (rev (lstrip is_dot (rev (lstrip is_dot c))) ++ rev q)%list).
    { rewrite <- rev_app_distr, <- Hq. now rewrite rev_involutive. }
    destruct (rev (lstrip is_dot (rev (lstrip is_dot c)))) as [|x r];
      [reflexivity|].
    rewrite Hu in Hhead. exact Hhead.
  - unfold ends_with_dot, strip. rewrite rev_involutive.
    pose proof (lstrip_head is_dot (rev (lstrip is_dot c))) as Hhead.
    destruct (lstrip is_dot (rev (lstrip is_dot c))); [reflexivity | exact Hhead].
Qed.

Lemma slug_or_fallback_normal (slug : pystr) :
  normal_slug (slug_or_fallback slug) = true.
Proof.
  unfold slug_or_fallback.
  destruct (clean_normal slug) as (Hc & Hnd & Hs & He).
  destruct (clean slug) as [|c t]; [reflexivity|].
  unfold normal_slug. rewrite (Forall_slug_forallb _ Hc), Hnd, Hs, He.
  reflexivity.
Qed.

End BundleIdNormalForm.

Section BundleIdIdempotence.
Import UStr BundleId.

Lemma lower_slug_chars l :
  forallb is_slug_char l = true -> lower l = l.
Proof.
  unfold lower. induction l as [|c t IH]; simpl; [reflexivity|].
  intros H. apply andb_true_iff in H as [Hc Ht].
  now rewrite (slug_char_lower c Hc), IH.
Qed.

Lemma sub_runs_no_match cls rep b l :
  forallb (fun c => negb (cls c)) l = true -> sub_runs cls rep b l = l.
Proof.
  revert b. induction l as [|c t IH]; intros b; simpl; [reflexivity|].
  intros H. apply andb_true_iff in H as [Hc Ht].
  apply negb_true_iff in Hc. rewrite Hc. now rewrite IH.
Qed.

Lemma filter_all {A} (p : A -> bool) l : forallb p l = true -> filter p l = l.
Proof.
  induction l as [|c t IH]; simpl; [reflexivity|].
  intros H. apply andb_true_iff in H as [Hc Ht]. now rewrite Hc, IH.
Qed.

Lemma sub_runs_dots_id b l :
  no_double_dot l = true ->
  (b = true -> starts_with_dot l = false) ->
  sub_runs is_dot [dot] b l = l.
Proof.
  revert b. induction l as [|c t IH]; intros b Hnd Hst; [reflexivity|].
  cbn [sub_runs]. pose proof (no_double_dot_tail c t Hnd) as Ht.
  destruct (is_dot c) eqn:Hc.
  - destruct b; [specialize (Hst eq_refl); simpl in Hst; congruence|].
    rewrite (is_dot_eq c Hc) in *. cbn [app]. f_equal.
    apply IH; [exact Ht|]. intros _.
    destruct t as [|x r]; [reflexivity|].
    rewrite no_double_dot_cons in Hnd. apply andb_true_iff in Hnd as [Hnd _].
    cbn [starts_with_dot]. destruct (is_dot x); [|reflexivity].
    change (is_dot dot) with true in Hnd. discriminate.
  - f_equal. apply IH; [exact Ht | discriminate].
Qed.

Lemma lstrip_id cls l :
  match l with c :: _ => cls c = false | [] => True end -> lstrip cls l = l.
Proof. destruct l as [|c t]; simpl; [reflexivity|]. now intros ->. Qed.

Lemma strip_dots_id l :
  starts_with_dot l = false -> ends_with_dot l = false -> strip is_dot l = l.
Proof.
  intros Hs He. unfold strip.
  rewrite (lstrip_id is_dot l) by (destruct l; [exact I | exact Hs]).
  rewrite (lstrip_id is_dot (rev l)).
  - apply rev_involutive.
  - unfold ends_with_dot in He. destruct (rev l); [exact I | exact He].
Qed.

(** The normalisation leaves a slug in normal form as it is. *)
Lemma clean_of_normal (s : pystr) : normal_slug s = true -> clean s = s.
Proof.
  unfold normal_slug. intros H.
  rewrite !andb_true_iff, !negb_true_iff in H.
  destruct H as ((((_ & Hc) & Hnd) & Hs) & He).
  unfold clean, sub_delete_not.
  rewrite (lower_slug_chars s Hc).
  rewrite (sub_runs_no_match is_separator).
  2:{ apply forallb_forall. intros c Hin. apply negb_true_iff.
      apply slug_char_not_separator.
      exact (proj1 (forallb_forall _ _) Hc c Hin). }
  rewrite (filter_all _ _ Hc).
  rewrite (sub_runs_dots_id false s Hnd) by discriminate.
  now apply strip_dots_id.
Qed.

Lemma bundle_id_untruncated (slug : pystr) (max_length : Z) :
  len base + 1 + len (slug_or_fallback slug) <= max_length ->
  generate_bundle_identifier slug max_length
  = (base ++ [dot] ++ slug_or_fallback slug)%list.
Proof.
  intros H. unfold generate_bundle_identifier, slug_or_fallback in *.
  destruct (clean slug) as [|c t];
    match goal with
    | |- context [len ?b >? max_length] =>
        replace (len b >? max_length) with false; [reflexivity|];
        symmetry; rewrite Z.gtb_ltb; apply Z.ltb_ge;
        rewrite !len_app; change (len [dot]) with 1; lia
    end.
Qed.

Lemma bundle_id_prefix_of_normal (slug : pystr) (max_length : Z) :
  exists k : nat,
    generate_bundle_identifier slug max_length
    = (base ++ [dot] ++ firstn k (slug_or_fallback slug))%list.
Proof.
  unfold generate_bundle_identifier, slug_or_fallback, slice_to.
  destruct (clean slug) as [|c t];
    match goal with
    | |- context [if ?b then _ else _] => destruct b
    end.
  - exists 0%nat. destruct (0 <=? _); now rewrite firstn_nil.
  - exists 3%nat. reflexivity.
  - destruct (0 <=? _); eexists; reflexivity.
  - exists (List.length (c :: t)). now rewrite firstn_all.
Qed.

End BundleIdIdempotence.

(** X12: whatever the slug and the bound, the identifier is [com.appfactory.]
    followed by an initial part of a slug in normal form (not empty, made of
    [a-z0-9.], no dot at either end, no two dots in a row), so it only
    holds characters among [a-z0-9.]; when the bound leaves room for the
    whole slug, the identifier ends with that slug, untruncated. *)
Theorem generate_bundle_identifier_normal_form
    (slug : UStr.pystr) (max_length : Z) :
  BundleId.normal_slug (BundleId.slug_or_fallback slug) = true
  /\ (exists k : nat,
        BundleId.generate_bundle_identifier slug max_length
        = UStr.lit "com.appfactory."
          ++ firstn k (BundleId.slug_or_fallback slug))
  /\ forallb UStr.is_slug_char
       (BundleId.generate_bundle_identifier slug max_length) = true
  /\ (15 + UStr.len (BundleId.slug_or_fallback slug) <= max_length ->
      BundleId.generate_bundle_identifier slug max_length
      = UStr.lit "com.appfactory." ++ BundleId.slug_or_fallback slug).
Proof.
  pose proof (slug_or_fallback_normal slug) as Hn.
  destruct (bundle_id_prefix_of_normal slug max_length) as [k Hk].
  split; [exact Hn|]. split; [exists k; exact Hk|]. split.
  - rewrite Hk. rewrite !forallb_app. cbn [forallb]. 
    change (forallb UStr.is_slug_char BundleId.base) with true.
    change (UStr.is_slug_char UStr.dot) with true. cbn [andb].
    unfold BundleId.normal_slug in Hn. rewrite !andb_true_iff in Hn.
    destruct Hn as ((((_ & Hc) & _) & _) & _).
    apply forallb_forall. intros c Hin.
    apply (proj1 (forallb_forall _ _) Hc).
    rewrite <- (firstn_skipn k (BundleId.slug_or_fallback slug)).
    apply in_or_app. now left.
  - intros H. apply bundle_id_untruncated.
    change (UStr.len BundleId.base) with 14. lia.
Qed.

Lemma generate_bundle_identifier_normal_form_witness :
  BundleId.generate_bundle_identifier (UStr.lit "My Cool App!") 50
  = UStr.lit "com.appfactory."
    ++ BundleId.slug_or_fallback (UStr.lit "My Cool App!").
Proof.
  apply (generate_bundle_identifier_normal_form (UStr.lit "My Cool App!") 50).
  vm_compute. discriminate.
Defined.

(** X13: when nothing is truncated, the function is idempotent on its own slug:
    the identifier generated from the slug part of an identifier (what
    follows [com.appfactory.]) is that identifier again. *)
Theorem generate_bundle_identifier_idempotent
    (slug : UStr.pystr) (max_length : Z)
    (Hroom : 15 + UStr.len (BundleId.slug_or_fallback slug) <= max_length) :
  BundleId.generate_bundle_identifier
    (skipn 15 (BundleId.generate_bundle_identifier slug max_length)) max_length
  = BundleId.generate_bundle_identifier slug max_length.
Proof.
  assert (Hroom' : UStr.len BundleId.base + 1
                   + UStr.len (BundleId.slug_or_fallback slug) <= max_length)
    by (change (UStr.len BundleId.base) with 14; lia).
  rewrite (bundle_id_untruncated slug max_length Hroom').
  change (skipn 15 (BundleId.base ++ [UStr.dot]
                    ++ BundleId.slug_or_fallback slug))
    with (BundleId.slug_or_fallback slug).
  pose proof (slug_or_fallback_normal slug) as Hn.
  set (nf := BundleId.slug_or_fallback slug) in *.
  assert (Hfix : BundleId.slug_or_fallback nf = nf).
  { unfold BundleId.slug_or_fallback at 1. rewrite (clean_of_normal nf Hn).
    destruct nf; [discriminate | reflexivity]. }
  rewrite (bundle_id_untruncated nf max_length) by (rewrite Hfix; exact Hroom').
  now rewrite Hfix.
Qed.

Lemma generate_bundle_identifier_idempotent_witness :
  BundleId.generate_bundle_identifier
    (skipn 15 (BundleId.generate_bundle_identifier
                 (UStr.lit "  My__Cool--App!  ") 50)) 50
  = BundleId.generate_bundle_identifier (UStr.lit "  My__Cool--App!  ") 50.
Proof.
  apply (generate_bundle_identifier_idempotent
           (UStr.lit "  My__Cool--App!  ") 50).
  vm_compute. discriminate.
Defined.

(* ===================================================================== *)
(** * Further properties of [validate_expo_build]: errors and flags *)
(* ===================================================================== *)

Section ValidatorErrors.
Import Py BuildValidator.
Local Open Scope string_scope.

Variable e : env.
Variable build_path : string.

Ltac reduce_fields :=
  cbn [errors warnings commands validation expo dependencies
       hasValidBundleIdentifier hasValidAndroidPackage packageJsonExists
       appJsonExists hasMandatoryFiles expoInstallCheck
       set_command add_warning add_error with_validation with_expo
       with_dependencies set_expoInstallCheck set_expo_version
       set_hasMandatoryFiles set_hasValidAndroidPackage
       set_hasValidBundleIdentifier set_appJsonExists set_packageJsonExists
       set_expoModules add_issues set_expo_config set_expo_sdkVersion
       structural_flags expoModules issues version sdkVersion config] in *.

(** The [package.json] block: the errors it adds, what it leaves alone. *)
Lemma check_package_json_effect (r r' : report) :
  check_package_json e build_path r = Ok r' ->
  exists extra,
    errors r' = (errors r ++ extra)%list
    /\ (extra = [] -> packageJsonExists (validation r') = true)
    /\ (path_exists e (joinpath build_path "package.json") = Ok false ->
        extra = ["package.json not found"]
        /\ validation r' = validation r /\ dependencies r' = dependencies r)
    /\ tl (structural_flags r') = tl (structural_flags r)
    /\ warnings r' = warnings r /\ commands r' = commands r
    /\ expo r' = expo r
    /\ expoInstallCheck (validation r') = expoInstallCheck (validation r).
Proof.
  unfold check_package_json, read_package_json.
  destruct (path_exists e (joinpath build_path "package.json")) as [[|]|ex0];
    cbn [bind]; try discriminate; intros [= <-].
  - destruct (bind (load_json e _) _) as [[deps mods]|ex].
    + destruct (scan_versions deps mods) as [found [ex|]].
      * eexists. reduce_fields. split; [reflexivity|].
        repeat split; try reflexivity; discriminate.
      * exists []. reduce_fields. rewrite app_nil_r.
        repeat split; try reflexivity; discriminate.
    + eexists. reduce_fields. split; [reflexivity|].
      repeat split; try reflexivity; discriminate.
  - eexists. reduce_fields. split; [reflexivity|].
    repeat split; try reflexivity; discriminate.
Qed.

Lemma check_identifier_effect ident set_flag warning missing (r : report) :
  (forall b r0, errors (set_flag b r0) = errors r0) ->
  exists r1 raised extra,
    check_identifier ident set_flag warning missing r = (r1, raised)
    /\ errors r1 = (errors r ++ extra)%list
    /\ (extra = [] -> raised = None -> truthy ident = true)
    /\ (truthy ident = false -> r1 = add_error missing r /\ raised = None)
    /\ (truthy ident = true ->
        extra = []
        /\ (exists w, r1 = set_flag true r \/ r1 = add_warning w (set_flag true r))
        /\ (is_str ident = false -> r1 = set_flag true r
                                    /\ raised = Some AttributeError)).
Proof.
  intros Hflag. unfold check_identifier.
  destruct (truthy ident) eqn:Ht.
  - destruct ident as [| | |s| |]; cbn [startswith];
      try (exists (set_flag true r), (Some AttributeError), [];
           rewrite app_nil_r, Hflag;
           repeat split; try reflexivity; try discriminate;
           exists ""; now left).
    destruct (prefix "com.appfactory." s); cbn [negb].
    + exists (set_flag true r), None, []. rewrite app_nil_r, Hflag.
      repeat split; try reflexivity; try discriminate.
      exists "". now left.
    + exists (add_warning (warning s) (set_flag true r)), None, [].
      rewrite app_nil_r. cbn [add_warning errors]. rewrite Hflag.
      repeat split; try reflexivity; try discriminate.
      exists (warning s). now right.
  - exists (add_error missing r), None, [missing].
    repeat split; try reflexivity; discriminate.
Qed.

Ltac pick_extra :=
  first [ exists []; rewrite app_nil_r; split; [reflexivity|]
        | eexists; split; [rewrite <- ?app_assoc; reflexivity|] ].

(** The [app.json] block: the errors it adds, what it leaves alone. *)
Lemma check_app_json_effect (r r' : report) :
  check_app_json e build_path r = Ok r' ->
  exists extra,
    errors r' = (errors r ++ extra)%list
    /\ (extra = [] ->
        appJsonExists (validation r') = true
        /\ hasValidBundleIdentifier (validation r') = true
        /\ hasValidAndroidPackage (validation r') = true)
    /\ (path_exists e (joinpath build_path "app.json") = Ok false ->
        extra = ["app.json not found"]
        /\ validation r' = validation r /\ warnings r' = warnings r)
    /\ packageJsonExists (validation r') = packageJsonExists (validation r)
    /\ hasMandatoryFiles (validation r') = hasMandatoryFiles (validation r)
    /\ expoInstallCheck (validation r') = expoInstallCheck (validation r)
    /\ commands r' = commands r /\ expo r' = expo r
    /\ dependencies r' = dependencies r
    /\ exists more, warnings r' = (warnings r ++ more)%list.
Proof.
  unfold check_app_json, read_app_json.
  destruct (path_exists e (joinpath build_path "app.json")) as [[|]|ex0];
    cbn [bind]; try discriminate; intros [= <-].
  2:{ reduce_fields. pick_extra.
      repeat split; try reflexivity; try discriminate.
      exists []. now rewrite app_nil_r. }
  destruct (bind (load_json e _) _) as [[ios android]|ex].
  2:{ reduce_fields. pick_extra.
      repeat split; try reflexivity; try discriminate.
      exists []. now rewrite app_nil_r. }
  unfold check_identifier.
  destruct (truthy ios);
    [destruct ios as [| | |s| |]; cbn [startswith];
     [| | |destruct (prefix "com.appfactory." s); cbn [negb]| |]|];
    try (reduce_fields; pick_extra;
         repeat split; try reflexivity; try discriminate;
         exists []; now rewrite app_nil_r);
    (destruct (truthy android);
     [destruct android as [| | |t| |]; cbn [startswith];
      [| | |destruct (prefix "com.appfactory." t); cbn [negb]| |]|]);
    reduce_fields; pick_extra;
    repeat split; try reflexivity; try discriminate;
    first [ exists []; now rewrite app_nil_r
          | eexists; rewrite <- ?app_assoc; reflexivity ].
Qed.

Lemma check_entry_point_effect (r r' : report) :
  check_entry_point e build_path r = Ok r' ->
  exists extra,
    errors r' = (errors r ++ extra)%list
    /\ (extra = [] -> hasMandatoryFiles (validation r') = true)
    /\ (has_entry_point e build_path = Ok false ->
        extra = ["No valid entry point found (App.js, App.tsx, or app/_layout.tsx)"]
        /\ hasMandatoryFiles (validation r') = false)
    /\ packageJsonExists (validation r') = packageJsonExists (validation r)
    /\ appJsonExists (validation r') = appJsonExists (validation r)
    /\ hasValidBundleIdentifier (validation r')
       = hasValidBundleIdentifier (validation r)
    /\ hasValidAndroidPackage (validation r')
       = hasValidAndroidPackage (validation r)
    /\ expoInstallCheck (validation r') = expoInstallCheck (validation r)
    /\ warnings r' = warnings r /\ commands r' = commands r
    /\ expo r' = expo r /\ dependencies r' = dependencies r.
Proof.
  unfold check_entry_point.
  destruct (has_entry_point e build_path) as [[|]|ex0]; cbn [bind negb];
    try discriminate; intros [= <-]; reduce_fields;
    pick_extra; repeat split; try reflexivity; discriminate.
Qed.

(** The command phase leaves the errors, the five structural flags and the
    dependencies alone. *)
Lemma run_expo_commands_structural (r : report) (cwd : string) :
  exists r' cwd1 raised,
    run_expo_commands e build_path r cwd = (r', cwd1, raised)
    /\ errors r' = errors r
    /\ structural_flags r' = structural_flags r
    /\ dependencies r' = dependencies r
    /\ (chdir e cwd build_path = Raise OSError ->
        r' = r /\ raised = Some OSError /\ cwd1 = cwd)
    /\ (forall c, chdir e cwd build_path = Ok c -> raised = None /\ cwd1 = c).
Proof.
  unfold run_expo_commands.
  destruct (chdir e cwd build_path) as [c|ex].
  2:{ eexists _, _, _. split; [reflexivity|].
      repeat split; try reflexivity; try discriminate; congruence. }
  destruct (run_command_ok e c ["npx"; "expo"; "--version"] None default_timeout)
    as [c1 ->].
  destruct (run_command_ok e c ["npx"; "expo"; "config"; "--type"; "public"]
              None default_timeout) as [c2 ->].
  destruct (run_command_ok e c ["npx"; "expo"; "install"; "--check"]
              None default_timeout) as [c3 ->].
  destruct (run_command_ok e c ["npx"; "expo-doctor"] None default_timeout)
    as [c4 ->].
  eexists _, _, _. split; [reflexivity|].
  match goal with
  | |- context [read_expo_config e ?o ?z] =>
      destruct (read_expo_config_frame e o z) as (He & Hv & _ & _);
      assert (Hd : dependencies (read_expo_config e o z) = dependencies z)
        by (unfold read_expo_config;
            destruct (json_loads e o); [|reflexivity];
            destruct (bind _ _); reflexivity);
      set (rc := read_expo_config e o z) in *; clearbody rc
  end.
  destruct (success c1), (success c2), (success c3); cbn [negb];
    unfold structural_flags;
    reduce_fields; rewrite ?He, ?Hv, ?Hd; reduce_fields;
    repeat split; try reflexivity; try discriminate; congruence.
Qed.

Lemma chdir_raises (cwd target : string) ex :
  chdir e cwd target = Raise ex -> ex = OSError.
Proof.
  unfold chdir. destruct (chdir_allowed e _); [discriminate|].
  now intros [= <-].
Qed.

(** X14: a report without errors has the five structural flags set: the two
    flags that the verdict of [main] tests beside the errors hold whenever
    there is no error. *)
Theorem validate_expo_build_clean_report (cwd cwd' : string) (r : report) :
  validate_expo_build e build_path cwd = (Ok r, cwd') ->
  errors r = [] ->
  structural_flags r = [true; true; true; true; true]
  /\ build_validation_passed r = true.
Proof.
  intros Hrun Herr.
  destruct (path_exists e build_path) as [[|]|ex0] eqn:Hex.
  2:{ destruct (validate_expo_build_missing e build_path cwd Hex)
        as (node & npm & _ & _ & Hv).
      rewrite Hv in Hrun. injection Hrun as <- _. discriminate Herr. }
  2:{ rewrite (validate_expo_build_probe_raises e build_path cwd ex0 Hex)
        in Hrun. discriminate Hrun. }
  destruct (validate_expo_build_inv e build_path cwd cwd' r Hex Hrun)
    as (node & npm & r1 & r2 & r3 & r4 & cwd1 & raised & H1 & H2 & H3 & Hc
        & -> & _).
  set (r0 := initial_report _ _ _ _) in H1.
  destruct (check_package_json_effect r0 r1 H1) as (x1 & He1 & Hf1 & _).
  destruct (check_app_json_effect r1 r2 H2) as (x2 & He2 & Hf2 & _ & Hp2 & _).
  destruct (check_entry_point_effect r2 r3 H3)
    as (x3 & He3 & Hf3 & _ & Hp3 & Ha3 & Hi3 & Hn3 & _).
  destruct (run_expo_commands_structural r3 cwd)
    as (r4' & cwd1' & raised' & Hc' & He4 & Hs4 & _).
  rewrite Hc in Hc'. injection Hc' as <- <- <-.
  destruct raised as [ex|].
  { cbn in Herr. destruct (errors r4); discriminate. }
  assert (Hnil : (((errors r0 ++ x1) ++ x2) ++ x3 = [])%list)
    by (rewrite <- He1, <- He2, <- He3, <- He4; exact Herr).
  apply app_eq_nil in Hnil as [Hnil N3]. apply app_eq_nil in Hnil as [Hnil N2].
  apply app_eq_nil in Hnil as [_ N1].
  specialize (Hf1 N1). destruct (Hf2 N2) as (Ha & Hi & Hn). specialize (Hf3 N3).
  assert (Hflags : structural_flags r4 = [true; true; true; true; true]).
  { rewrite Hs4. unfold structural_flags.
    rewrite Hp3, Ha3, Hi3, Hn3, Hf3, Hp2, Hf1, Ha, Hi, Hn. reflexivity. }
  split; [exact Hflags|].
  unfold build_validation_passed. rewrite Herr.
  unfold structural_flags in Hflags. injection Hflags as -> _ -> _ _.
  reflexivity.
Qed.

(** X15: a build directory that holds neither manifest nor an entry point: the
    three checks each report, in the order of the source, and no flag is
    set. *)
Theorem validate_expo_build_empty_directory (cwd cwd' : string) (r : report) :
  path_exists e build_path = Ok true ->
  path_exists e (joinpath build_path "package.json") = Ok false ->
  path_exists e (joinpath build_path "app.json") = Ok false ->
  has_entry_point e build_path = Ok false ->
  validate_expo_build e build_path cwd = (Ok r, cwd') ->
  structural_flags r = [false; false; false; false; false]
  /\ exists rest,
       errors r
       = (["package.json not found"; "app.json not found";
           "No valid entry point found (App.js, App.tsx, or app/_layout.tsx)"]
          ++ rest)%list
       /\ (rest = []
           \/ rest = ["Error during command execution: " ++ exn_text e OSError]).
Proof.
  intros Hex Hpkg Happ Hentry Hrun.
  destruct (validate_expo_build_inv e build_path cwd cwd' r Hex Hrun)
    as (node & npm & r1 & r2 & r3 & r4 & cwd1 & raised & H1 & H2 & H3 & Hc
        & -> & _).
  set (r0 := initial_report _ _ _ _) in H1.
  destruct (check_package_json_effect r0 r1 H1) as (x1 & He1 & _ & Hm1 & _).
  destruct (Hm1 Hpkg) as (-> & Hv1 & _).
  destruct (check_app_json_effect r1 r2 H2) as (x2 & He2 & _ & Hm2 & _).
  destruct (Hm2 Happ) as (-> & Hv2 & _).
  destruct (check_entry_point_effect r2 r3 H3)
    as (x3 & He3 & _ & Hm3 & Hp3 & Ha3 & Hi3 & Hn3 & _).
  destruct (Hm3 Hentry) as (-> & Hf3).
  destruct (run_expo_commands_structural r3 cwd)
    as (r4' & cwd1' & raised' & Hc' & He4 & Hs4 & _ & Hraise & Hok).
  rewrite Hc in Hc'. injection Hc' as <- <- <-.
  assert (Hflags : structural_flags r4 = [false; false; false; false; false]).
  { rewrite Hs4. unfold structural_flags.
    rewrite Hp3, Ha3, Hi3, Hn3, Hf3, Hv2, Hv1. reflexivity. }
  assert (Herrs : errors r4
                  = ["package.json not found"; "app.json not found";
                     "No valid entry point found (App.js, App.tsx, or app/_layout.tsx)"]).
  { rewrite He4, He3, He2, He1. reflexivity. }
  destruct (chdir e cwd build_path) as [c|ex] eqn:Hcd.
  - destruct (Hok c eq_refl) as [-> _].
    split; [exact Hflags|]. exists []. rewrite app_nil_r. split; [exact Herrs|].
    now left.
  - pose proof (chdir_raises _ _ _ Hcd) as ->.
    destruct (Hraise eq_refl) as (_ & -> & _).
    split; [exact Hflags|]. eexists. split; [|right; reflexivity].
    cbn [errors add_error]. rewrite Herrs. reflexivity.
Qed.

(** X16: when the lookups of the [app.json] block succeed and the iOS
    identifier they find is truthy but is not a string, the flag
    [hasValidBundleIdentifier] is raised before [startswith] fails, the
    failure is reported as a parse error of [app.json], and the Android
    check is never reached. *)
Theorem validate_expo_build_non_string_identifier
    (cwd cwd' : string) (r : report) app_data ios android :
  path_exists e build_path = Ok true ->
  path_exists e (joinpath build_path "app.json") = Ok true ->
  load_json e (joinpath build_path "app.json") = Ok app_data ->
  app_identifiers app_data = Ok (ios, android) ->
  truthy ios = true -> is_str ios = false ->
  validate_expo_build e build_path cwd = (Ok r, cwd') ->
  hasValidBundleIdentifier (validation r) = true
  /\ hasValidAndroidPackage (validation r) = false
  /\ In ("Could not parse app.json: " ++ exn_text e AttributeError) (errors r)
  /\ build_validation_passed r = false.
Proof.
  intros Hex Happ Hload Hids Htruthy Hstr Hrun.
  destruct (validate_expo_build_inv e build_path cwd cwd' r Hex Hrun)
    as (node & npm & r1 & r2 & r3 & r4 & cwd1 & raised & H1 & H2 & H3 & Hc
        & -> & _).
  set (r0 := initial_report _ _ _ _) in H1.
  destruct (check_package_json_effect r0 r1 H1) as (x1 & _ & _ & _ & Ht1 & _).
  assert (Hr2 : r2 = add_error ("Could not parse app.json: "
                                ++ exn_text e AttributeError)
                       (set_hasValidBundleIdentifier true
                          (set_appJsonExists true r1))).
  { unfold check_app_json, read_app_json in H2. rewrite Happ in H2.
    cbn [bind] in H2. rewrite Hload in H2. cbn [bind] in H2.
    rewrite Hids in H2. unfold check_identifier in H2. rewrite Htruthy in H2.
    destruct ios; try discriminate Hstr; now injection H2 as <-. }
  destruct (check_entry_point_effect r2 r3 H3)
    as (x3 & He3 & _ & _ & _ & _ & Hi3 & Hn3 & _).
  destruct (run_expo_commands_structural r3 cwd)
    as (r4' & cwd1' & raised' & Hc' & He4 & Hs4 & _).
  rewrite Hc in Hc'. injection Hc' as <- <- <-.
  assert (Hios : hasValidBundleIdentifier (validation r4) = true).
  { unfold structural_flags in Hs4. injection Hs4 as _ _ -> _ _.
    rewrite Hi3, Hr2. reflexivity. }
  assert (Handroid : hasValidAndroidPackage (validation r4) = false).
  { unfold structural_flags in Hs4. injection Hs4 as _ _ _ -> _.
    rewrite Hn3, Hr2. reduce_fields.
    unfold structural_flags in Ht1. cbn [tl] in Ht1.
    now injection Ht1 as _ _ -> _. }
  assert (Hin : In ("Could not parse app.json: " ++ exn_text e AttributeError)
                   (errors r4)).
  { rewrite He4, He3, Hr2. apply in_or_app. left. reduce_fields.
    apply in_or_app. right. now left. }
  assert (Hgoal : forall z, errors z = errors r4 \/ (exists m,
                     errors z = (errors r4 ++ [m])%list) ->
                   build_validation_passed z = false).
  { intros z Hz. unfold build_validation_passed.
    destruct (errors z) as [|m l] eqn:Hez; [|reflexivity].
    exfalso. destruct Hz as [Hz|[m Hz]].
    - rewrite <- Hz in Hin. exact Hin.
    - destruct (errors r4); discriminate. }
  destruct raised as [ex|]; reduce_fields.
  - repeat split; try assumption.
    + apply in_or_app. now left.
    + apply Hgoal. right. eexists. reflexivity.
  - repeat split; try assumption. apply Hgoal. now left.
Qed.

(** The three structural checks leave the commands, the expo block and the
    sixth flag alone. *)
Lemma structural_checks_frame (r r1 r2 r3 : report) :
  check_package_json e build_path r = Ok r1 ->
  check_app_json e build_path r1 = Ok r2 ->
  check_entry_point e build_path r2 = Ok r3 ->
  commands r3 = commands r /\ expo r3 = expo r
  /\ expoInstallCheck (validation r3) = expoInstallCheck (validation r).
Proof.
  intros H1 H2 H3.
  destruct (check_package_json_effect r r1 H1)
    as (x1 & _ & _ & _ & _ & _ & Hc1 & Hx1 & Hi1).
  destruct (check_app_json_effect r1 r2 H2)
    as (x2 & _ & _ & _ & _ & _ & Hi2 & Hc2 & Hx2 & _).
  destruct (check_entry_point_effect r2 r3 H3)
    as (x3 & _ & _ & _ & _ & _ & _ & _ & Hi3 & _ & Hc3 & Hx3 & _).
  repeat split; congruence.
Qed.

(** What the parse of the config dump leaves in the expo block. *)
Lemma read_expo_config_info output (r : report) :
  let r' := read_expo_config e output r in
  version (expo r') = version (expo r)
  /\ (json_loads e output = Ok (config (expo r'))
      \/ config (expo r') = config (expo r))
  /\ (sdkVersion (expo r') = VNone
      \/ sdkVersion (expo r') = sdkVersion (expo r)
      \/ exists d y,
           config (expo r') = VDict d
           /\ dict_get "expo" d = Some (VDict y)
           /\ dict_get "sdkVersion" y = Some (sdkVersion (expo r'))).
Proof.
  unfold read_expo_config.
  destruct (json_loads e output) as [c|ex] eqn:Hloads.
  2:{ repeat split; auto. }
  destruct c as [| | | | |d]; cbn [Py.get bind]; reduce_fields;
    try (repeat split; auto; fail).
  destruct (dict_get "expo" d) as [x|] eqn:Hx; cbn [bind].
  2:{ cbn. repeat split; auto. }
  destruct x as [| | | | |y]; cbn [Py.get]; reduce_fields;
    try (repeat split; auto; fail).
  destruct (dict_get "sdkVersion" y) as [v|] eqn:Hv; reduce_fields.
  - repeat split; auto. right. right. exists d, y. auto.
  - repeat split; auto.
Qed.

(** The command phase once the build directory is entered. *)
Lemma run_expo_commands_entered (r : report) (cwd : string) :
  chdir_allowed e (resolve cwd build_path) = true ->
  exists c1 c2 c3 c4 r',
    run_command e (resolve cwd build_path) ["npx"; "expo"; "--version"]
      None default_timeout = Ok c1
    /\ run_command e (resolve cwd build_path)
         ["npx"; "expo"; "config"; "--type"; "public"] None default_timeout
       = Ok c2
    /\ run_command e (resolve cwd build_path)
         ["npx"; "expo"; "install"; "--check"] None default_timeout = Ok c3
    /\ run_command e (resolve cwd build_path) ["npx"; "expo-doctor"]
         None default_timeout = Ok c4
    /\ run_expo_commands e build_path r cwd
       = (r', resolve cwd build_path, None)
    /\ commands r'
       = assoc_set "expo_doctor" c4
           (assoc_set "expo_install_check" c3
              (assoc_set "expo_config" c2
                 (assoc_set "expo_version" c1 (commands r))))
    /\ expoInstallCheck (validation r') = success c3
    /\ version (expo r')
       = (if success c1 then Some (stdout c1) else version (expo r))
    /\ (success c3 = false ->
        In "Expo install check failed - dependencies may be incompatible"
           (warnings r'))
    /\ (config (expo r') = config (expo r)
        \/ (success c2 = true
            /\ json_loads e (stdout c2) = Ok (config (expo r'))))
    /\ (sdkVersion (expo r') = VNone
        \/ sdkVersion (expo r') = sdkVersion (expo r)
        \/ exists d y,
             config (expo r') = VDict d
             /\ dict_get "expo" d = Some (VDict y)
             /\ dict_get "sdkVersion" y = Some (sdkVersion (expo r'))).
Proof.
  intros Hallowed. unfold run_expo_commands, chdir. rewrite Hallowed.
  set (d := resolve cwd build_path).
  destruct (run_command_ok e d ["npx"; "expo"; "--version"] None default_timeout)
    as [c1 H1].
  destruct (run_command_ok e d ["npx"; "expo"; "config"; "--type"; "public"]
              None default_timeout) as [c2 H2].
  destruct (run_command_ok e d ["npx"; "expo"; "install"; "--check"]
              None default_timeout) as [c3 H3].
  destruct (run_command_ok e d ["npx"; "expo-doctor"] None default_timeout)
    as [c4 H4].
  rewrite H1, H2, H3, H4.
  exists c1, c2, c3, c4. eexists.
  do 4 (split; [reflexivity|]). split; [reflexivity|].
  destruct (success c2) eqn:Hs2.
  - match goal with
    | |- context [read_expo_config e ?o ?z] =>
        destruct (read_expo_config_frame e o z) as (_ & Hv & Hc & _);
        destruct (read_expo_config_info o z) as (Hver & Hcfg & Hsdk);
        set (rc := read_expo_config e o z) in *; clearbody rc
    end.
    destruct (success c1), (success c3); cbn [negb] in *;
      reduce_fields; rewrite ?Hv, ?Hc, ?Hver; reduce_fields;
      (split; [reflexivity|]); (split; [reflexivity|]);
      (split; [reflexivity|]);
      (split; [intros; try discriminate; apply in_or_app; right; now left|]);
      (split; [destruct Hcfg as [Hcfg|Hcfg]; [right; split; [reflexivity|exact Hcfg]|left; exact Hcfg]|]);
      exact Hsdk.
  - destruct (success c1), (success c3); cbn [negb] in *; reduce_fields;
      (split; [reflexivity|]); (split; [reflexivity|]);
      (split; [reflexivity|]);
      (split; [intros; try discriminate; apply in_or_app; right; now left|]);
      (split; [left; reflexivity|]); right; left; reflexivity.
Qed.

(** X17: when the build directory can be entered, the four commands run in it,
    in the order of the source; the report holds exactly their four
    results, the sixth flag is the outcome of the install check and the
    expo version is the output of the first command when it succeeded. *)
Theorem validate_expo_build_commands (cwd cwd' : string) (r : report) :
  path_exists e build_path = Ok true ->
  chdir_allowed e (resolve cwd build_path) = true ->
  validate_expo_build e build_path cwd = (Ok r, cwd') ->
  exists c1 c2 c3 c4,
    run_command e (resolve cwd build_path) ["npx"; "expo"; "--version"]
      None default_timeout = Ok c1
    /\ run_command e (resolve cwd build_path)
         ["npx"; "expo"; "config"; "--type"; "public"] None default_timeout
       = Ok c2
    /\ run_command e (resolve cwd build_path)
         ["npx"; "expo"; "install"; "--check"] None default_timeout = Ok c3
    /\ run_command e (resolve cwd build_path) ["npx"; "expo-doctor"]
         None default_timeout = Ok c4
    /\ commands r = [("expo_version", c1); ("expo_config", c2);
                     ("expo_install_check", c3); ("expo_doctor", c4)]
    /\ expoInstallCheck (validation r) = success c3
    /\ version (expo r) = version_of c1
    /\ (success c3 = false ->
        In "Expo install check failed - dependencies may be incompatible"
           (warnings r)).
Proof.
  intros Hex Hallowed Hrun.
  destruct (validate_expo_build_inv e build_path cwd cwd' r Hex Hrun)
    as (node & npm & r1 & r2 & r3 & r4 & cwd1 & raised & S1 & S2 & S3 & Hc
        & -> & _).
  destruct (structural_checks_frame _ r1 r2 r3 S1 S2 S3)
    as (Hc3 & Hx3 & _).
  destruct (run_expo_commands_entered r3 cwd Hallowed)
    as (c1 & c2 & c3 & c4 & r' & H1 & H2 & H3 & H4 & Hc' & Hcmd & Hflag & Hver
        & Hwarn & _).
  rewrite Hc in Hc'. injection Hc' as <- -> ->.
  exists c1, c2, c3, c4. do 4 (split; [assumption|]).
  rewrite Hc3 in Hcmd. rewrite Hx3 in Hver.
  split; [exact Hcmd|]. split; [exact Hflag|]. split; [|exact Hwarn].
  rewrite Hver. unfold version_of. reflexivity.
Qed.

(** X18: when the build directory cannot be entered, no command is run: the
    report holds no command result and no expo information, and its last
    error tells that the command phase failed. *)
Theorem validate_expo_build_not_entered (cwd cwd' : string) (r : report) :
  path_exists e build_path = Ok true ->
  chdir_allowed e (resolve cwd build_path) = false ->
  validate_expo_build e build_path cwd = (Ok r, cwd') ->
  commands r = []
  /\ expo r = Expo None VNone VNone
  /\ expoInstallCheck (validation r) = false
  /\ exists before,
       errors r = (before ++ [("Error during command execution: "
                               ++ exn_text e OSError)%string])%list.
Proof.
  intros Hex Hdenied Hrun.
  destruct (validate_expo_build_inv e build_path cwd cwd' r Hex Hrun)
    as (node & npm & r1 & r2 & r3 & r4 & cwd1 & raised & S1 & S2 & S3 & Hc
        & -> & _).
  destruct (structural_checks_frame _ r1 r2 r3 S1 S2 S3)
    as (Hc3 & Hx3 & Hi3).
  unfold run_expo_commands, chdir in Hc. rewrite Hdenied in Hc.
  injection Hc as <- <- <-. reduce_fields.
  rewrite Hc3, Hx3, Hi3. repeat split. eexists. reflexivity.
Qed.

(** X19: the expo block of every report: a version is the output of a version
    query that succeeded; a config is what [json.loads] made of the output
    of a config dump that succeeded; an SDK version is the one found in
    that config. *)
Theorem validate_expo_build_expo_info (cwd cwd' : string) (r : report) :
  validate_expo_build e build_path cwd = (Ok r, cwd') ->
  (version (expo r) = None
   \/ exists c1,
        run_command e (resolve cwd build_path) ["npx"; "expo"; "--version"]
          None default_timeout = Ok c1
        /\ success c1 = true /\ version (expo r) = Some (stdout c1))
  /\ (config (expo r) = VNone
      \/ exists c2,
           run_command e (resolve cwd build_path)
             ["npx"; "expo"; "config"; "--type"; "public"] None default_timeout
           = Ok c2
           /\ success c2 = true
           /\ json_loads e (stdout c2) = Ok (config (expo r)))
  /\ (sdkVersion (expo r) = VNone
      \/ exists d y,
           config (expo r) = VDict d
           /\ dict_get "expo" d = Some (VDict y)
           /\ dict_get "sdkVersion" y = Some (sdkVersion (expo r))).
Proof.
  intros Hrun.
  destruct (path_exists e build_path) as [[|]|ex0] eqn:Hex.
  2:{ destruct (validate_expo_build_missing e build_path cwd Hex)
        as (node & npm & _ & _ & Hv).
      rewrite Hv in Hrun. injection Hrun as <- _. cbn. auto. }
  2:{ rewrite (validate_expo_build_probe_raises e build_path cwd ex0 Hex)
        in Hrun. discriminate Hrun. }
  destruct (validate_expo_build_inv e build_path cwd cwd' r Hex Hrun)
    as (node & npm & r1 & r2 & r3 & r4 & cwd1 & raised & S1 & S2 & S3 & Hc
        & -> & _).
  destruct (structural_checks_frame _ r1 r2 r3 S1 S2 S3)
    as (_ & Hx3 & _).
  change (expo (initial_report (clock e) build_path node npm))
    with (Expo None VNone VNone) in Hx3.
  destruct (chdir_allowed e (resolve cwd build_path)) eqn:Hallowed.
  - destruct (run_expo_commands_entered r3 cwd Hallowed)
      as (c1 & c2 & c3 & c4 & r' & H1 & H2 & _ & _ & Hc' & _ & _ & Hver
          & _ & Hcfg & Hsdk).
    rewrite Hc in Hc'. injection Hc' as <- -> ->.
    rewrite Hx3 in Hver, Hcfg, Hsdk. reduce_fields.
    split; [|split].
    + destruct (success c1) eqn:Hs1; [right; exists c1; auto|left; exact Hver].
    + destruct Hcfg as [Hcfg|[Hs2 Hcfg]]; [left; exact Hcfg|right; exists c2; auto].
    + destruct Hsdk as [Hsdk|[Hsdk|Hsdk]]; [left; exact Hsdk|left; exact Hsdk|
                                            right; exact Hsdk].
  - unfold run_expo_commands, chdir in Hc. rewrite Hallowed in Hc.
    injection Hc as <- <- <-. reduce_fields. rewrite Hx3. cbn. auto.
Qed.

Lemma version_issue_issues deps module :
  forallb (fun kv : string * value => is_str (snd kv)) deps = true ->
  exists o, version_issue (VDict deps) module = Ok o
            /\ issues_of deps module
               = match o with Some i => [i] | None => [] end.
Proof.
  intros Hstr. unfold version_issue, issues_of, tilde_pinned. cbn [Py.get].
  destruct (dict_get module deps) as [x|] eqn:Hx.
  - apply (dict_get_is_str _ _ _ Hstr) in Hx.
    destruct x as [| | |s| |]; try discriminate.
    cbn [bind startswith contains truthy].
    destruct (negb (s =? "")); cbn [andb]; [|eexists; split; reflexivity].
    destruct (negb (prefix "^" s)); cbn [andb]; [|eexists; split; reflexivity].
    destruct (is_substring "~" s); eexists; split; reflexivity.
  - cbn. eexists; split; reflexivity.
Qed.

Lemma scan_versions_issues deps modules :
  forallb (fun kv : string * value => is_str (snd kv)) deps = true ->
  scan_versions (VDict deps) modules
  = (flat_map (issues_of deps) modules, None).
Proof.
  intros Hstr. induction modules as [|m t IH]; [reflexivity|].
  cbn [scan_versions flat_map].
  destruct (version_issue_issues deps m Hstr) as (o & -> & ->).
  rewrite IH. destruct o; reflexivity.
Qed.

(** X20: with a [package.json] whose dependencies map names to version strings,
    the report lists the dependencies named [expo-...] in the order of the
    file, and one issue for each of them whose version holds a tilde and
    does not start with a caret; nothing later in the run changes them. *)
Theorem validate_expo_build_dependency_issues
    (cwd cwd' : string) (r : report) p deps :
  path_exists e build_path = Ok true ->
  path_exists e (joinpath build_path "package.json") = Ok true ->
  load_json e (joinpath build_path "package.json") = Ok (VDict p) ->
  dict_get "dependencies" p = Some (VDict deps) ->
  forallb (fun kv : string * value => is_str (snd kv)) deps = true ->
  validate_expo_build e build_path cwd = (Ok r, cwd') ->
  expoModules (dependencies r) = filter (prefix "expo-") (map fst deps)
  /\ issues (dependencies r)
     = flat_map (issues_of deps) (filter (prefix "expo-") (map fst deps)).
Proof.
  intros Hex Hpkg Hload Hdeps Hstr Hrun.
  destruct (validate_expo_build_inv e build_path cwd cwd' r Hex Hrun)
    as (node & npm & r1 & r2 & r3 & r4 & cwd1 & raised & H1 & H2 & H3 & Hc
        & -> & _).
  set (r0 := initial_report _ _ _ _) in H1.
  assert (Hd1 : dependencies r1
                = Dependencies "expo-install-compatibility"
                    (filter (prefix "expo-") (map fst deps))
                    (flat_map (issues_of deps)
                       (filter (prefix "expo-") (map fst deps)))).
  { unfold check_package_json, read_package_json in H1. rewrite Hpkg in H1.
    cbn [bind] in H1. rewrite Hload in H1. cbn [bind Py.get] in H1.
    rewrite Hdeps in H1. cbn [bind keys] in H1.
    rewrite (scan_versions_issues deps _ Hstr) in H1.
    injection H1 as <-. reflexivity. }
  destruct (check_app_json_effect r1 r2 H2)
    as (x2 & _ & _ & _ & _ & _ & _ & _ & _ & Hd2 & _).
  destruct (check_entry_point_effect r2 r3 H3)
    as (x3 & _ & _ & _ & _ & _ & _ & _ & _ & _ & _ & _ & Hd3).
  destruct (run_expo_commands_structural r3 cwd)
    as (r4' & cwd1' & raised' & Hc' & _ & _ & Hd4 & _).
  rewrite Hc in Hc'. injection Hc' as <- <- <-.
  assert (Hd : dependencies r4
               = Dependencies "expo-install-compatibility"
                   (filter (prefix "expo-") (map fst deps))
                   (flat_map (issues_of deps)
                      (filter (prefix "expo-") (map fst deps))))
    by congruence.
  destruct raised; reduce_fields; rewrite Hd; split; reflexivity.
Qed.

End ValidatorErrors.

(** The demo build directory: its report has no error. *)
Lemma validate_expo_build_clean_report_witness :
  exists r,
    BuildValidator.validate_expo_build Demo.env Demo.build_dir "/work"
    = (Py.Ok r, "/work"%string)
    /\ BuildValidator.errors r = []
    /\ BuildValidator.structural_flags r = [true; true; true; true; true]
    /\ BuildValidator.build_validation_passed r = true.
Proof.
  eexists. split; [reflexivity|]. split; [reflexivity|].
  exact (validate_expo_build_clean_report Demo.env Demo.build_dir
           "/work" "/work" _ eq_refl eq_refl).
Defined.

(** An empty build directory. *)
Lemma validate_expo_build_empty_directory_witness :
  exists r,
    BuildValidator.validate_expo_build Demo.empty_env "/work/builds/empty"
      "/work" = (Py.Ok r, "/work"%string)
    /\ BuildValidator.structural_flags r = [false; false; false; false; false]
    /\ exists rest,
         BuildValidator.errors r
         = (["package.json not found"; "app.json not found";
             "No valid entry point found (App.js, App.tsx, or app/_layout.tsx)"]%string
            ++ rest)%list
         /\ (rest = []
             \/ rest = [("Error during command execution: "
                         ++ BuildValidator.exn_text Demo.empty_env Py.OSError)%string]).
Proof.
  eexists. split; [reflexivity|].
  exact (validate_expo_build_empty_directory Demo.empty_env
           "/work/builds/empty" "/work" "/work" _
           eq_refl eq_refl eq_refl eq_refl eq_refl).
Defined.

(** The demo build directory with a number for iOS identifier. *)
Lemma validate_expo_build_non_string_identifier_witness :
  exists r,
    BuildValidator.validate_expo_build (Demo.env_of Demo.numeric_app_json)
      Demo.build_dir "/work" = (Py.Ok r, "/work"%string)
    /\ BuildValidator.hasValidBundleIdentifier (BuildValidator.validation r)
       = true
    /\ BuildValidator.hasValidAndroidPackage (BuildValidator.validation r)
       = false
    /\ In "Could not parse app.json: no such attribute"%string
          (BuildValidator.errors r)
    /\ BuildValidator.build_validation_passed r = false.
Proof.
  eexists. split; [reflexivity|].
  exact (validate_expo_build_non_string_identifier
           (Demo.env_of Demo.numeric_app_json) Demo.build_dir "/work" "/work" _
           Demo.numeric_app_json (Py.VInt 7) (Py.VStr "com.appfactory.demo")
           eq_refl eq_refl eq_refl eq_refl eq_refl eq_refl eq_refl).
Defined.

(** The demo build directory on the machine where the tools answer: the
    install check exits with status 1. *)
Lemma validate_expo_build_commands_witness :
  exists r,
    BuildValidator.validate_expo_build Demo.tool_env Demo.build_dir "/work"
    = (Py.Ok r, "/work"%string)
    /\ map fst (BuildValidator.commands r)
       = ["expo_version"; "expo_config"; "expo_install_check";
          "expo_doctor"]%string
    /\ BuildValidator.version (BuildValidator.expo r) = Some "0.18.30"%string
    /\ BuildValidator.expoInstallCheck (BuildValidator.validation r) = false
    /\ In "Expo install check failed - dependencies may be incompatible"%string
          (BuildValidator.warnings r).
Proof.
  eexists. split; [reflexivity|].
  destruct (validate_expo_build_commands Demo.tool_env Demo.build_dir
              "/work" "/work" _ eq_refl eq_refl eq_refl)
    as (c1 & c2 & c3 & c4 & H1 & _ & H3 & _ & Hcmd & Hflag & Hver & Hwarn).
  injection H1 as <-. injection H3 as <-.
  split; [rewrite Hcmd; reflexivity|].
  split; [exact Hver|]. split; [exact Hflag|]. exact (Hwarn eq_refl).
Defined.

(** A build path that is a file: it exists and cannot be entered. *)
Lemma validate_expo_build_not_entered_witness :
  exists r,
    BuildValidator.validate_expo_build Demo.env "/work/builds/demo/App.tsx"
      "/work" = (Py.Ok r, "/work"%string)
    /\ BuildValidator.commands r = []
    /\ BuildValidator.expo r = BuildValidator.Expo None Py.VNone Py.VNone
    /\ BuildValidator.expoInstallCheck (BuildValidator.validation r) = false
    /\ exists before,
         BuildValidator.errors r
         = (before ++ ["Error during command execution: [Errno 2] No such file or directory"%string])%list.
Proof.
  eexists. split; [reflexivity|].
  exact (validate_expo_build_not_entered Demo.env "/work/builds/demo/App.tsx"
           "/work" "/work" _ eq_refl eq_refl eq_refl).
Defined.

(** The demo build directory on the machine where the tools answer: the
    SDK version of the report is the one of the dumped config. *)
Lemma validate_expo_build_expo_info_witness :
  exists r,
    BuildValidator.validate_expo_build Demo.tool_env Demo.build_dir "/work"
    = (Py.Ok r, "/work"%string)
    /\ BuildValidator.sdkVersion (BuildValidator.expo r) = Py.VStr "51.0.0"
    /\ exists d y,
         BuildValidator.config (BuildValidator.expo r) = Py.VDict d
         /\ Py.dict_get "expo" d = Some (Py.VDict y)
         /\ Py.dict_get "sdkVersion" y = Some (Py.VStr "51.0.0").
Proof.
  eexists. split; [reflexivity|]. split; [reflexivity|].
  destruct (validate_expo_build_expo_info Demo.tool_env Demo.build_dir
              "/work" "/work" _ eq_refl) as (_ & _ & [Hnone|Hsdk]).
  - discriminate Hnone.
  - exact Hsdk.
Defined.

(** The demo [package.json]: [expo-status-bar] is pinned with a tilde;
    [expo] itself is not an [expo-] module. *)
Lemma validate_expo_build_dependency_issues_witness :
  exists r,
    BuildValidator.validate_expo_build Demo.env Demo.build_dir "/work"
    = (Py.Ok r, "/work"%string)
    /\ BuildValidator.expoModules (BuildValidator.dependencies r)
       = ["expo-status-bar"%string]
    /\ BuildValidator.issues (BuildValidator.dependencies r)
       = ["Hardcoded version for expo-status-bar: ~1.12.1 (should use expo install)"%string].
Proof.
  eexists. split; [reflexivity|].
  exact (validate_expo_build_dependency_issues Demo.env Demo.build_dir
           "/work" "/work" _
           [("name", Py.VStr "demo");
            ("dependencies",
             Py.VDict [("expo", Py.VStr "~51.0.0");
                       ("expo-status-bar", Py.VStr "~1.12.1");
                       ("react", Py.VStr "18.2.0")])]%string
           [("expo", Py.VStr "~51.0.0");
            ("expo-status-bar", Py.VStr "~1.12.1");
            ("react", Py.VStr "18.2.0")]%string
           eq_refl eq_refl eq_refl eq_refl eq_refl eq_refl).
Defined.

(* ===================================================================== *)
(** * build_validator.py: where the report is written *)
(* ===================================================================== *)

Section ReportFile.
Import Py BuildValidator.
Local Open Scope string_scope.

Lemma dirname_under (p n : string) :
  dirname n = None -> dirname (p ++ "/" ++ n) = Some p.
Proof.
  intros Hn. induction p as [|c t IH].
  - cbn. rewrite Hn. reflexivity.
  - cbn [append dirname]. cbn [append] in IH. rewrite IH. reflexivity.
Qed.

(** The parent of a name inside a directory is that directory. *)
Lemma parent_joinpath (p n : string) :
  normal_dir p = true -> simple_name n = true -> parent (joinpath p n) = p.
Proof.
  unfold normal_dir, simple_name, joinpath, parent.
  intros Hp Hn.
  apply andb_prop in Hn as [Hn Hdir]. apply andb_prop in Hn as [_ Hdot].
  destruct (dirname n) as [x|] eqn:Hx; [discriminate|]. clear Hdir.
  destruct (String.eqb_spec p ".") as [->|Hnotdot]; cbn [orb].
  { rewrite Hx. reflexivity. }
  destruct (String.eqb_spec p "") as [->|Hnonempty]; [discriminate|].
  cbn [negb andb orb] in Hp.
  destruct (String.eqb_spec p "/") as [->|Hnotroot].
  { cbn. rewrite Hx. reflexivity. }
  cbn [orb] in Hp. apply negb_true_iff in Hp. rewrite Hp.
  rewrite (dirname_under p n Hx).
  destruct p; [contradiction|reflexivity].
Qed.

(** X21: the report of a build goes to [meta/build_validation.json] beside the
    build directory, so the builds of one directory share one report
    file: after a report was written for one of them, writing the report
    of a sibling succeeds as well and replaces it. *)
Theorem write_validation_report_sibling_builds
    (p n1 n2 : string) (r1 r2 : report) (d d1 : report_disk) :
  normal_dir p = true -> simple_name n1 = true -> simple_name n2 = true ->
  write_validation_report (joinpath p n1) r1 d = (true, d1) ->
  validation_path (joinpath p n1)
  = joinpath (joinpath p "meta") "build_validation.json"
  /\ files d1 (validation_path (joinpath p n1))
     = Some (BuildRegistry.Document (sort_keys (report_to_value r1)))
  /\ exists d2,
       write_validation_report (joinpath p n2) r2 d1 = (true, d2)
       /\ files d2 (validation_path (joinpath p n1))
          = Some (BuildRegistry.Document (sort_keys (report_to_value r2))).
Proof.
  intros Hp Hn1 Hn2 Hw.
  unfold write_validation_report in *.
  unfold validation_path, meta_dir in *.
  rewrite (parent_joinpath p n1 Hp Hn1) in *.
  rewrite (parent_joinpath p n2 Hp Hn2).
  set (meta := joinpath p "meta") in *.
  set (path := joinpath meta "build_validation.json") in *.
  destruct (can_mkdir d meta) eqn:Hm; [|discriminate].
  destruct (can_open d path) eqn:Ho; [|discriminate].
  destruct (can_dump d path) eqn:Hd; [|discriminate].
  injection Hw as <-. cbn [put_file can_mkdir can_open can_dump files].
  rewrite Hm, Ho, Hd, String.eqb_refl.
  split; [reflexivity|]. split; [reflexivity|].
  eexists. split; [reflexivity|].
  cbn [put_file files]. rewrite String.eqb_refl. reflexivity.
Qed.

End ReportFile.

(** Two builds of [/work/builds]. *)
Lemma write_validation_report_sibling_builds_witness :
  exists d1 d2,
    BuildValidator.write_validation_report "/work/builds/alpha"
      (BuildValidator.initial_report "t1" "/work/builds/alpha" None None)
      Demo.report_disk = (true, d1)
    /\ BuildValidator.write_validation_report "/work/builds/beta"
         (BuildValidator.initial_report "t2" "/work/builds/beta" None None)
         d1 = (true, d2)
    /\ BuildValidator.files d2 "/work/builds/meta/build_validation.json"
       = Some (BuildRegistry.Document
                 (Py.sort_keys
                    (BuildValidator.report_to_value
                       (BuildValidator.initial_report "t2" "/work/builds/beta"
                          None None)))).
Proof.
  eexists. 
  destruct (write_validation_report_sibling_builds "/work/builds" "alpha" "beta"
              (BuildValidator.initial_report "t1" "/work/builds/alpha" None None)
              (BuildValidator.initial_report "t2" "/work/builds/beta" None None)
              Demo.report_disk _ eq_refl eq_refl eq_refl eq_refl)
    as (_ & _ & d2 & Hw & Hf).
  exists d2. split; [reflexivity|]. split; [exact Hw | exact Hf].
Defined.

(* ===================================================================== *)
(** * build_validator.py: the outcome of a command *)
(* ===================================================================== *)

Section CommandOutcome.
Import Py BuildValidator.
Local Open Scope string_scope.

Variable e : env.

(** X22: the result of [run_command] tells the outcome of the process: it
    reports success exactly when the process ran and exited with status 0,
    its return code is then 0 and is not 0 otherwise; when the process
    could not be run or timed out, the return code is -1 and the output is
    empty. *)
Theorem run_command_outcome (process_cwd : string) (command : list string)
    (cwd : option string) (timeout : Z) (c : command_result) :
  run_command e process_cwd command cwd timeout = Ok c ->
  BuildValidator.command c = String.concat " " command
  /\ (success c = true <-> returncode c = 0%Z)
  /\ (success c = true <->
      exists p, subprocess_run e command cwd timeout process_cwd = Ok p
                /\ cp_returncode p = 0%Z
                /\ stdout c = UStr.strip_ws (cp_stdout p))
  /\ (forall ex, subprocess_run e command cwd timeout process_cwd = Raise ex ->
                 returncode c = (-1)%Z /\ stdout c = "" /\ success c = false).
Proof.
  unfold run_command, try_except.
  destruct (subprocess_run e command cwd timeout process_cwd) as [p|ex];
    cbn [bind].
  - intros [= <-]. cbn [BuildValidator.command success returncode stdout].
    split; [reflexivity|]. split; [apply Z.eqb_eq|]. split; [|discriminate].
    split.
    + intros H. exists p. apply Z.eqb_eq in H. auto.
    + intros (q & [= <-] & H & _). now apply Z.eqb_eq.
  - intros H.
    assert (Hc : BuildValidator.command c = String.concat " " command
                 /\ returncode c = (-1)%Z /\ stdout c = "" /\ success c = false)
      by (destruct (is_TimeoutExpired ex); injection H as <-; repeat split).
    destruct Hc as (Hcmd & Hret & Hout & Hs).
    split; [exact Hcmd|]. rewrite Hs, Hret.
    split; [split; discriminate|]. split; [|auto].
    split; [discriminate|]. intros (q & Hq & _). discriminate Hq.
Qed.

Lemma tool_version_run (process_cwd : string) (command : list string) :
  bind (run_command e process_cwd command None default_timeout)
       (fun r => Ok (version_of r))
  = Ok match subprocess_run e command None default_timeout process_cwd with
       | Ok p => if (cp_returncode p =? 0)%Z
                 then Some (UStr.strip_ws (cp_stdout p)) else None
       | Raise _ => None
       end.
Proof.
  unfold run_command, try_except, version_of.
  destruct (subprocess_run e command None default_timeout process_cwd)
    as [p|ex]; cbn [bind success stdout]; [reflexivity|].
  destruct (is_TimeoutExpired ex); reflexivity.
Qed.

(** X23: [get_node_version] and [get_npm_version] never raise: each returns
    the trimmed output of [<tool> --version] when that process ran and
    exited with status 0, and [None] in every other case (the process
    could not be launched, timed out, or exited with another status). *)
Theorem get_tool_version_some (process_cwd : string) :
  get_node_version e process_cwd
  = Ok match subprocess_run e ["node"; "--version"] None default_timeout
               process_cwd with
       | Ok p => if (cp_returncode p =? 0)%Z
                 then Some (UStr.strip_ws (cp_stdout p)) else None
       | Raise _ => None
       end
  /\ get_npm_version e process_cwd
     = Ok match subprocess_run e ["npm"; "--version"] None default_timeout
                  process_cwd with
          | Ok p => if (cp_returncode p =? 0)%Z
                    then Some (UStr.strip_ws (cp_stdout p)) else None
          | Raise _ => None
          end
  /\ (forall v,
        get_node_version e process_cwd = Ok (Some v) <->
        exists p, subprocess_run e ["node"; "--version"] None default_timeout
                    process_cwd = Ok p
                  /\ cp_returncode p = 0%Z /\ v = UStr.strip_ws (cp_stdout p))
  /\ (forall v,
        get_npm_version e process_cwd = Ok (Some v) <->
        exists p, subprocess_run e ["npm"; "--version"] None default_timeout
                    process_cwd = Ok p
                  /\ cp_returncode p = 0%Z /\ v = UStr.strip_ws (cp_stdout p)).
Proof.
  unfold get_node_version, get_npm_version. rewrite !tool_version_run.
  split; [reflexivity|]. split; [reflexivity|].
  split; intros v.
  - destruct (subprocess_run e ["node"; "--version"] None default_timeout
                process_cwd) as [p|ex].
    + destruct (Z.eqb_spec (cp_returncode p) 0) as [H0|H0]; split.
      * intros [= <-]. exists p. auto.
      * intros (q & [= <-] & _ & ->). reflexivity.
      * discriminate.
      * intros (q & [= <-] & H & _). contradiction.
    + split; [discriminate|]. intros (q & Hq & _). discriminate Hq.
  - destruct (subprocess_run e ["npm"; "--version"] None default_timeout
                process_cwd) as [p|ex].
    + destruct (Z.eqb_spec (cp_returncode p) 0) as [H0|H0]; split.
      * intros [= <-]. exists p. auto.
      * intros (q & [= <-] & _ & ->). reflexivity.
      * discriminate.
      * intros (q & [= <-] & H & _). contradiction.
    + split; [discriminate|]. intros (q & Hq & _). discriminate Hq.
Qed.

End CommandOutcome.

(** The version query of the demo machine where the tools answer. *)
Lemma run_command_outcome_witness :
  exists c,
    BuildValidator.run_command Demo.tool_env "/work" ["node"; "--version"]%string
      None 30 = Py.Ok c
    /\ BuildValidator.success c = true
    /\ BuildValidator.returncode c = 0%Z
    /\ BuildValidator.stdout c = "v20.11.0"%string.
Proof.
  eexists. split; [reflexivity|].
  destruct (run_command_outcome Demo.tool_env "/work" ["node"; "--version"]%string
              None 30 _ eq_refl) as (_ & Hret & _).
  split; [reflexivity|]. split; [exact (proj1 Hret eq_refl) | reflexivity].
Defined.

Lemma get_tool_version_some_witness :
  BuildValidator.get_node_version Demo.tool_env "/work"
  = Py.Ok (Some "v20.11.0"%string)
  /\ BuildValidator.get_npm_version Demo.tool_env "/work"
     = Py.Ok (Some "10.2.4"%string)
  /\ BuildValidator.get_node_version Demo.env "/work" = Py.Ok None.
Proof.
  split; [|split].
  - exact (proj1 (get_tool_version_some Demo.tool_env "/work")).
  - exact (proj1 (proj2 (get_tool_version_some Demo.tool_env "/work"))).
  - exact (proj1 (get_tool_version_some Demo.env "/work")).
Defined.

(* ===================================================================== *)
(** * build_registry.py: a registration whose save fails *)
(* ===================================================================== *)

Section RegistryFailedSave.
Import Py BuildRegistry.
Local Open Scope string_scope.

Variables (name slug mode build_path status : string).
Variables (run_id idea_slug dream_prompt_hash : option string).
Variables (framework launch_command notes : string).

(** X11: when the registry cannot be saved, [register_build] returns [False].
    If the directory could not be made or the file not opened, the file
    is as it was; if the file was opened and the write failed, the file
    is left unreadable and the builds registered so far are no longer
    listed. *)
Theorem register_build_failed_save (w : world) d bs :
  registry_file w = Some (Document (VDict d)) ->
  dict_get "builds" d = Some (VList bs) ->
  Forall has_build_id bs ->
  mkdir_ok w && write_ok w && dump_ok w = false ->
  exists w',
    register_build name slug mode build_path status run_id idea_slug
      dream_prompt_hash framework launch_command notes w = (Ok false, w')
    /\ (mkdir_ok w && write_ok w = false -> registry_file w' = registry_file w)
    /\ (mkdir_ok w && write_ok w = true ->
        registry_file w' = Some (Unloadable JSONDecodeError)
        /\ fst (get_builds w') = Ok (VList [])).
Proof.
  intros Hfile Hbuilds Hids Hfail.
  destruct (register_build_steps name slug mode build_path status run_id
              idea_slug dream_prompt_hash framework launch_command notes
              w d bs Hfile Hbuilds Hids) as (existing & _ & ->).
  unfold save_build_registry.
  cbn [snd now mkdir_ok write_ok dump_ok setitem].
  destruct (mkdir_ok w) eqn:Hm.
  2:{ eexists. split; [reflexivity|]. split; [reflexivity|discriminate]. }
  destruct (write_ok w) eqn:Hw.
  2:{ eexists. split; [reflexivity|]. split; [reflexivity|discriminate]. }
  destruct (dump_ok w) eqn:Hd; [discriminate|].
  eexists. split; [reflexivity|]. split; [discriminate|].
  intros _. split; reflexivity.
Qed.

End RegistryFailedSave.

(** The demo registry on a disk that fills up while the file is written. *)
Lemma register_build_failed_save_witness :
  exists w',
    BuildRegistry.register_build "Gamma" "gamma" "pipeline" "builds/gamma"
      "success" (Some "run-3"%string) (Some "gamma-idea"%string) None
      "expo" "npx expo start" ""
      (BuildRegistry.World "/repo/builds/build_index.json"
         (Some (BuildRegistry.Document (Py.VDict Demo.registry)))
         true true false Demo.registry_clock 0 Demo.exn_text)
    = (Py.Ok false, w')
    /\ BuildRegistry.registry_file w'
       = Some (BuildRegistry.Unloadable Py.JSONDecodeError)
    /\ fst (BuildRegistry.get_builds w') = Py.Ok (Py.VList []).
Proof.
  assert (Hids : Forall BuildRegistry.has_build_id [Demo.alpha; Demo.beta])
    by (repeat constructor; discriminate).
  destruct (register_build_failed_save "Gamma" "gamma" "pipeline" "builds/gamma"
              "success" (Some "run-3"%string) (Some "gamma-idea"%string) None
              "expo" "npx expo start" ""
              (BuildRegistry.World "/repo/builds/build_index.json"
                 (Some (BuildRegistry.Document (Py.VDict Demo.registry)))
                 true true false Demo.registry_clock 0 Demo.exn_text)
              Demo.registry [Demo.alpha; Demo.beta] eq_refl eq_refl Hids
              eq_refl)
    as (w' & Hrun & _ & Hlost).
  exists w'. split; [exact Hrun|]. exact (Hlost eq_refl).
Defined.
